(** * SIH data pipeline: scraper (Collector) and analyzer (Reporter)

    A shallow embedding of [sih-scraper-data.py] and [sih-data-analysis.py],
    followed by the properties C1 to C10 of the specification and by
    further properties of the code, X1 to X19.

    - Texts are strings of characters with codes below 256.
    - Code that raises returns a [Py.result]; code with effects passes a
      world: files, console and requests for the Collector; a store of
      frames, the disk and a log of effects for the Reporter.
    - Library calls are modelled by their documented behaviour: pandas
      frames with their counting operations, the CSV and JSON writers and
      readers under the defaults the scripts use, BeautifulSoup searches on
      a parsed tree, [requests.get] by the answer of the network for a URL.
      Calls into matplotlib and seaborn are logged with the data they are
      given. *)

From Stdlib Require Import ZArith QArith Qcanon Lia Ascii String.
From stdpp Require Import base option list sorting strings gmap pretty.

Local Open Scope string_scope.
Local Open Scope list_scope.
Local Open Scope nat_scope.

#[local] Set Warnings "-register-all".

(** ** Python results *)

Module Py.

Inductive exn :=
| KeyError (key : string)
| ValueError (msg : string)
| ParserError (msg : string)
| FileNotFoundError (path : string)
| RequestException (msg : string).

Inductive result (A : Type) :=
| Ok (a : A)
| Raise (e : exn).
Arguments Ok {A} a.
Arguments Raise {A} e.

Definition bind {A B} (r : result A) (k : A → result B) : result B :=
  match r with
  | Ok a => k a
  | Raise e => Raise e
  end.

End Py.

Notation "x ←? r ; k" := (Py.bind r (fun x => k))
  (at level 20, r at level 100, k at level 200, only parsing).

(** ** Effects: a world threaded through calls that may raise *)

Module Eff.
Section eff.
Context {W : Type}.

Definition M (A : Type) : Type := W → Py.result A * W.

Definition ret {A} (a : A) : M A := fun w => (Py.Ok a, w).
Definition raise {A} (e : Py.exn) : M A := fun w => (Py.Raise e, w).
Definition bind {A B} (m : M A) (k : A → M B) : M B :=
  fun w => match m w with
           | (Py.Ok a, w') => k a w'
           | (Py.Raise e, w') => (Py.Raise e, w')
           end.
Definition lift {A} (r : Py.result A) : M A := fun w => (r, w).
Definition modify (f : W → W) : M unit := fun w => (Py.Ok tt, f w).

(** [try: m except RequestException as e: h e] *)
Definition except_request {A} (m : M A) (h : string → M A) : M A :=
  fun w => match m w with
           | (Py.Raise (Py.RequestException e), w') => h e w'
           | r => r
           end.
End eff.
Arguments M W A : clear implicits.
End Eff.

Notation "x <- m ;; k" := (Eff.bind m (fun x => k))
  (at level 100, m at next level, right associativity).
Notation "m ;;; k" := (Eff.bind m (fun _ => k))
  (at level 100, right associativity).

(** ** pandas: frames, series and the counting operations *)

Module Pandas.

Section labels.
Context {A : Type} `{EqDecision A}.

(** [unique()]: the distinct values in order of first appearance. *)
Definition unique (l : list A) : list A :=
  foldl (fun acc x => if decide (x ∈ acc) then acc else acc ++ [x]) [] l.

(** Position of a label. *)
Fixpoint index_of (name : A) (cols : list A) : option nat :=
  match cols with
  | [] => None
  | c :: cols' =>
      if decide (c = name) then Some 0 else S <$> index_of name cols'
  end.

(** Stable insertion sort of labels under an order test. *)
Fixpoint insert_label (leb : A → A → bool) (x : A) (l : list A) : list A :=
  match l with
  | [] => [x]
  | y :: l' => if leb x y then x :: y :: l' else y :: insert_label leb x l'
  end.

Definition sort_labels (leb : A → A → bool) (l : list A) : list A :=
  foldr (insert_label leb) [] l.
End labels.

(** A cell is a scalar or the missing value ([None], NaN). *)
Abbreviation cell := option (only parsing).

Section frame.
Context {U : Type} `{EqDecision U}.

(** Row-major table under named columns. *)
Record DataFrame := mkDF {
  columns : list string;
  rows : list (list (cell U))
}.

(** [len(df)] *)
Definition len (df : DataFrame) : nat := length (rows df).

(** The cell of a row under column [i]; a row that is too short reads
    as missing there. *)
Definition cell_at (i : nat) (r : list (cell U)) : cell U := mjoin (r !! i).

(** [df[name]]: the column as a series, [KeyError] when absent. *)
Definition getitem (df : DataFrame) (name : string) : Py.result (list (cell U)) :=
  match index_of name (columns df) with
  | Some i => Py.Ok (cell_at i <$> rows df)
  | None => Py.Raise (Py.KeyError name)
  end.

(** [dropna]: the present values of a series. *)
Definition dropna (s : list (cell U)) : list U := omap id s.

(** One counting pass: the entry of [x] is incremented, or appended
    with count 1 at its first appearance. *)
Fixpoint bump (x : U) (t : list (U * nat)) : list (U * nat) :=
  match t with
  | [] => [(x, 1)]
  | (y, n) :: t' =>
      if decide (x = y) then (y, S n) :: t' else (y, n) :: bump x t'
  end.

Definition tally (l : list U) : list (U * nat) :=
  foldl (fun t x => bump x t) [] l.

(** Stable sort by descending count: an entry is placed before the
    first entry whose count is not larger. *)
Fixpoint insert_desc (p : U * nat) (l : list (U * nat)) : list (U * nat) :=
  match l with
  | [] => [p]
  | q :: l' =>
      if decide (q.2 ≤ p.2) then p :: q :: l' else q :: insert_desc p l'
  end.

Definition sort_desc (l : list (U * nat)) : list (U * nat) :=
  foldr insert_desc [] l.

(** Descending order of count. *)
Definition count_ge (p q : U * nat) : Prop := q.2 ≤ p.2.

(** [s.value_counts()]: missing values dropped, one entry per distinct
    value, most frequent first. *)
Definition value_counts (s : list (cell U)) : list (U * nat) :=
  sort_desc (tally (dropna s)).

(** [s.nunique()] *)
Definition nunique (s : list (cell U)) : nat := length (unique (dropna s)).

(** [obj.head(n)]: the first [n] entries; for negative [n] all but the
    last [-n]. *)
Definition head {A} (n : Z) (l : list A) : list A :=
  if decide (0 ≤ n)%Z then take (Z.to_nat n) l
  else take (length l - Z.to_nat (- n)) l.

(** [s.sum()] of a series of counts. *)
Definition total (t : list (U * nat)) : nat := sum_list (snd <$> t).

(** The count a series of counts lists under a label, 0 when the label
    is absent. *)
Definition count_of (x : U) (t : list (U * nat)) : nat :=
  sum_list_with (fun p => if decide (p.1 = x) then p.2 else 0) t.

(** The number of cells of a series that hold [x]. *)
Definition occurrences (x : U) (s : list (cell U)) : nat :=
  length (filter (fun c => c = Some x) s).

(** [s.nlargest(n)]: the [n] largest counts, first occurrences kept on
    ties, largest first; nothing for [n <= 0]. *)
Definition nlargest (n : Z) (t : list (U * nat)) : list (U * nat) :=
  take (Z.to_nat n) (sort_desc t).

(** [pd.DataFrame({name: values, ...})]: the columns side by side;
    [ValueError] when their lengths differ. *)
Definition from_dict (d : list (string * list (cell U))) : Py.result DataFrame :=
  match d with
  | [] => Py.Ok (mkDF [] [])
  | (_, c0) :: _ =>
      if decide (Forall (fun c => length c.2 = length c0) d) then
        Py.Ok (mkDF (fst <$> d)
                 ((fun i => (fun c => cell_at i c.2) <$> d) <$> seq 0 (length c0)))
      else Py.Raise (Py.ValueError "All arrays must be of the same length")
  end.

(** The rows of a frame laid out under the columns [cols]; a column the
    frame lacks reads as missing. *)
Definition reindex (cols : list string) (df : DataFrame) : list (list (cell U)) :=
  (fun r =>
     (fun c => match index_of c (columns df) with
               | Some i => cell_at i r
               | None => None
               end) <$> cols) <$> rows df.

(** [pd.concat(frames, ignore_index=True)]: rows appended in order
    under the union of the columns. *)
Definition concat (dfs : list DataFrame) : Py.result DataFrame :=
  match dfs with
  | [] => Py.Raise (Py.ValueError "No objects to concatenate")
  | _ =>
      let cols := unique (dfs ≫= columns) in
      Py.Ok (mkDF cols (dfs ≫= reindex cols))
  end.

(** *** Cross-tabulation *)

Record Crosstab := mkCT {
  ct_index : list U;
  ct_columns : list U;
  ct_cells : list (list nat)
}.

(** The rows in which both series are present. *)
Definition both (a b : list (cell U)) : list (U * U) :=
  omap (fun p => match p with
                 | (Some x, Some y) => Some (x, y)
                 | _ => None
                 end) (zip a b).

Definition count_pair (x y : U) (ps : list (U * U)) : nat :=
  length (filter (fun p => p = (x, y)) ps).

(** [pd.crosstab(a, b)]: sorted distinct labels on both axes and the
    number of rows for every pair of labels. *)
Definition crosstab (leb : U → U → bool) (a b : list (cell U)) : Crosstab :=
  let ps := both a b in
  let I := sort_labels leb (unique (fst <$> ps)) in
  let J := sort_labels leb (unique (snd <$> ps)) in
  mkCT I J ((fun i => (fun j => count_pair i j ps) <$> J) <$> I).

(** [ct.sum(axis=1)]: one total per index label. *)
Definition sum_axis1 (ct : Crosstab) : list (U * nat) :=
  zip (ct_index ct) (sum_list <$> ct_cells ct).

(** [ct.sum(axis=0)]: one total per column label. *)
Definition sum_axis0 (ct : Crosstab) : list (U * nat) :=
  zip (ct_columns ct)
      ((fun k => sum_list ((fun r => default 0 (r !! k)) <$> ct_cells ct))
         <$> seq 0 (length (ct_columns ct))).

(** Sum of all cells. *)
Definition grand_total (ct : Crosstab) : nat :=
  sum_list (sum_list <$> ct_cells ct).

Definition ct_cell (ct : Crosstab) (i j : U) : nat :=
  match index_of i (ct_index ct), index_of j (ct_columns ct) with
  | Some a, Some b => default 0 (ct_cells ct !! a ≫= (.!! b))
  | _, _ => 0
  end.

(** [ct.loc[rs, cs]]: the sub-table on the given labels, which the
    callers take from the table itself. *)
Definition loc (ct : Crosstab) (rs cs : list U) : Crosstab :=
  mkCT rs cs ((fun i => (fun j => ct_cell ct i j) <$> cs) <$> rs).

End frame.

Arguments DataFrame U : clear implicits.
Arguments Crosstab U : clear implicits.
Arguments from_dict : simpl never.
Arguments concat : simpl never.

End Pandas.

(** ** Text: characters and the Python string methods used *)

Module Text.

Definition comma : ascii := ","%char.
Definition dquote : ascii := "034"%char.
Definition LF : ascii := "010"%char.
Definition CR : ascii := "013"%char.
Definition TAB : ascii := "009"%char.
Definition SP : ascii := " "%char.

Definition code (c : ascii) : nat := nat_of_ascii c.

(** [str.isspace] on one character (code points below 256). *)
Definition py_isspace (c : ascii) : bool :=
  let n := code c in
  ((9 <=? n) && (n <=? 13)) || ((28 <=? n) && (n <=? 32))
  || (n =? 133) || (n =? 160).

(** C [isspace] in the "C" locale. *)
Definition c_isspace (c : ascii) : bool :=
  let n := code c in ((9 <=? n) && (n <=? 13)) || (n =? 32).

Fixpoint lstrip (sp : ascii → bool) (s : string) : string :=
  match s with
  | EmptyString => EmptyString
  | String c s' => if sp c then lstrip sp s' else s
  end.

Definition strip_with (sp : ascii → bool) (s : string) : string :=
  String.rev (lstrip sp (String.rev (lstrip sp s))).

(** [s.strip()] *)
Definition strip : string → string := strip_with py_isspace.

(** [s.startswith(p)] *)
Definition startswith (p s : string) : bool := String.prefix p s.

(** [s.lower()] on ASCII letters. *)
Definition lower_char (c : ascii) : ascii :=
  let n := code c in
  if (65 <=? n) && (n <=? 90) then ascii_of_nat (n + 32) else c.

Fixpoint lower (s : string) : string :=
  match s with
  | EmptyString => EmptyString
  | String c s' => String (lower_char c) (lower s')
  end.

Fixpoint existsb (p : ascii → bool) (s : string) : bool :=
  match s with
  | EmptyString => false
  | String c s' => p c || existsb p s'
  end.

(** [sep.join(parts)] *)
Definition join (sep : string) (l : list string) : string := String.concat sep l.

Definition snoc (s : string) (c : ascii) : string := s +:+ String c EmptyString.

(** Whether the first character of a text passes [p]. *)
Definition head_is (p : ascii → bool) (s : string) : bool :=
  match s with
  | String c _ => p c
  | EmptyString => false
  end.

(** A text with whitespace at its start or at its end. *)
Definition padded (s : string) : bool :=
  head_is py_isspace s || head_is py_isspace (String.rev s).

End Text.

(** ** Scalars held by loaded frames *)

Inductive scalar :=
| Str (s : string)
| Int (z : Z)
| Float (q : Qc)
| Inf (negative : bool)
| Bool (b : bool).

Global Instance scalar_eq_dec : EqDecision scalar.
Proof. solve_decision. Defined.

Module Scalar.

(** Numeric rank used when labels are sorted: numbers by value (booleans
    as 0 and 1), text after the numbers in lexicographic order. *)
Definition num (x : scalar) : option (option Qc * Z) :=
  match x with
  | Int z => Some (Some (Q2Qc (inject_Z z)), 0%Z)
  | Float q => Some (Some q, 0%Z)
  | Inf true => Some (None, (-1)%Z)
  | Inf false => Some (None, 1%Z)
  | Bool b => Some (Some (Q2Qc (inject_Z (if b then 1 else 0))), 0%Z)
  | Str _ => None
  end.

Definition leb (x y : scalar) : bool :=
  match x, y with
  | Str a, Str b => String.leb a b
  | Str _, _ => false
  | _, Str _ => true
  | _, _ =>
      match num x, num y with
      | Some (Some p, _), Some (Some q, _) => bool_decide (p ≤ q)%Qc
      | Some (_, i), Some (_, j) => (i <=? j)%Z
      | _, _ => true
      end
  end.

Definition int (n : nat) : scalar := Int (Z.of_nat n).

End Scalar.

(** ** Numerals: the decimal texts both readers convert *)

Module Numeral.
Import Text.

Fixpoint span_digits (s : string) : list nat * string :=
  match s with
  | EmptyString => ([], EmptyString)
  | String c s' =>
      match Ascii.is_nat c with
      | Some d => let '(ds, r) := span_digits s' in (d :: ds, r)
      | None => ([], s)
      end
  end.

Definition digits_value (ds : list nat) : Z :=
  foldl (fun acc d => (10 * acc + Z.of_nat d)%Z) 0%Z ds.

Definition take_sign (s : string) : bool * string :=
  match s with
  | String c r =>
      if decide (c = "-"%char) then (true, r)
      else if decide (c = "+"%char) then (false, r)
      else (false, s)
  | EmptyString => (false, s)
  end.

Definition signed (neg : bool) (z : Z) : Z := if neg then (- z)%Z else z.

Definition pow10 (e : Z) : Qc :=
  if decide (0 ≤ e)%Z then Q2Qc (inject_Z (10 ^ e))
  else (/ Q2Qc (inject_Z (10 ^ (- e))))%Qc.

Definition is_inf (r : string) : bool :=
  bool_decide (lower r ∈ ["inf"; "infinity"]).

(** Digits with an optional fraction and an optional exponent, as the
    exact decimal they denote. *)
Definition decimal (neg : bool) (r : string) : option scalar :=
  let '(ip, r1) := span_digits r in
  let '(fp, r2) :=
    match r1 with
    | String c r' => if decide (c = "."%char) then span_digits r' else ([], r1)
    | EmptyString => ([], r1)
    end in
  match ip ++ fp with
  | [] => None
  | m =>
      let mant := signed neg (digits_value m) in
      let value e :=
        Float (Q2Qc (inject_Z mant) * pow10 (e - Z.of_nat (length fp)))%Qc in
      match r2 with
      | EmptyString => Some (value 0%Z)
      | String c r3 =>
          if decide (c = "e"%char ∨ c = "E"%char) then
            let '(eneg, r4) := take_sign r3 in
            match span_digits r4 with
            | (d :: ds, EmptyString) =>
                Some (value (signed eneg (digits_value (d :: ds))))
            | _ => None
            end
          else None
      end
  end.

(** The integer a float cell holds, if it holds one. *)
Definition integral (x : scalar) : option Z :=
  match x with
  | Float q => if decide (Qden (this q) = 1%positive) then Some (Qnum (this q)) else None
  | _ => None
  end.

End Numeral.

(** ** CSV: [DataFrame.to_csv(index=False)] and [pd.read_csv] *)

Module Csv.
Import Pandas Text Numeral.

(** *** Writer ([csv.writer], minimal quoting, line terminator LF) *)

(** The characters that make the writer quote a field: the delimiter,
    the quote character and the characters of the line terminator. *)
Definition special (c : ascii) : bool :=
  bool_decide (c = comma) || bool_decide (c = dquote) || bool_decide (c = LF).

Fixpoint escape (s : string) : string :=
  match s with
  | EmptyString => EmptyString
  | String c s' =>
      if decide (c = dquote) then String dquote (String dquote (escape s'))
      else String c (escape s')
  end.

(** A field that holds a special character is quoted; quotes inside are
    doubled. *)
Definition quote_field (f : string) : string :=
  if existsb special f
  then String dquote (escape f) +:+ String dquote EmptyString
  else f.

(** A record of one empty field is written as a pair of quotes. *)
Definition write_row (fields : list string) : string :=
  if decide (fields = [EmptyString])
  then String dquote (String dquote (String LF EmptyString))
  else join (String comma EmptyString) (quote_field <$> fields)
       +:+ String LF EmptyString.

(** Missing cells are written as the empty field ([na_rep]). *)
Definition format_cell (c : cell string) : string := default "" c.

Definition to_csv (df : DataFrame string) : string :=
  write_row (columns df)
  +:+ String.concat "" ((fun r => write_row (format_cell <$> r)) <$> rows df).

(** *** Tokenizer of the reader (default dialect) *)

Inductive pstate :=
| START_RECORD
| START_FIELD
| IN_FIELD
| IN_QUOTED_FIELD
| QUOTE_IN_QUOTED_FIELD
| EAT_CRNL
| EAT_CRNL_NOP
| WHITESPACE_LINE.

Record tok := mkTok {
  state : pstate;
  field : string;
  record : list string;
  lines : list (list string)
}.

Definition push (c : ascii) (st : pstate) (t : tok) : tok :=
  mkTok st (snoc (field t) c) (record t) (lines t).

Definition end_field (st : pstate) (t : tok) : tok :=
  mkTok st "" (record t ++ [field t]) (lines t).

Definition end_line (st : pstate) (t : tok) : tok :=
  mkTok st "" [] (lines t ++ [record t]).

Definition goto (st : pstate) (t : tok) : tok :=
  mkTok st (field t) (record t) (lines t).

Definition in_field (c : ascii) (t : tok) : tok :=
  if decide (c = LF) then end_line START_RECORD (end_field START_RECORD t)
  else if decide (c = CR) then end_field EAT_CRNL t
  else if decide (c = comma) then end_field START_FIELD t
  else push c IN_FIELD t.

Definition start_field (c : ascii) (t : tok) : tok :=
  if decide (c = dquote) then goto IN_QUOTED_FIELD t else in_field c t.

Definition start_record (c : ascii) (t : tok) : tok :=
  if decide (c = LF) then t
  else if decide (c = CR) then goto EAT_CRNL_NOP t
  else if decide (c = SP ∨ c = TAB) then push c WHITESPACE_LINE t
  else start_field c t.

Definition step (t : tok) (c : ascii) : tok :=
  match state t with
  | START_RECORD => start_record c t
  | START_FIELD => start_field c t
  | IN_FIELD => in_field c t
  | IN_QUOTED_FIELD =>
      if decide (c = dquote) then goto QUOTE_IN_QUOTED_FIELD t
      else push c IN_QUOTED_FIELD t
  | QUOTE_IN_QUOTED_FIELD =>
      if decide (c = dquote) then push c IN_QUOTED_FIELD t
      else in_field c t
  | EAT_CRNL =>
      if decide (c = LF) then end_line START_RECORD t
      else if decide (c = comma) then end_field START_FIELD (end_line START_FIELD t)
      else start_record c (end_line START_RECORD t)
  | EAT_CRNL_NOP =>
      if decide (c = LF ∨ c = comma) then goto START_RECORD t
      else start_record c (goto START_RECORD t)
  | WHITESPACE_LINE =>
      if decide (c = LF) then mkTok START_RECORD "" (record t) (lines t)
      else if decide (c = CR) then mkTok EAT_CRNL_NOP "" (record t) (lines t)
      else if decide (c = SP ∨ c = TAB) then push c WHITESPACE_LINE t
      else in_field c t
  end.

Fixpoint run (t : tok) (s : string) : tok :=
  match s with
  | EmptyString => t
  | String c s' => run (step t c) s'
  end.

(** End of input: an open record is closed, an open quote is an error. *)
Definition finish (t : tok) : Py.result (list (list string)) :=
  match state t with
  | START_RECORD | WHITESPACE_LINE | EAT_CRNL_NOP => Py.Ok (lines t)
  | IN_QUOTED_FIELD => Py.Raise (Py.ParserError "EOF inside string")
  | IN_FIELD | START_FIELD | QUOTE_IN_QUOTED_FIELD =>
      Py.Ok (lines (end_line START_RECORD (end_field START_RECORD t)))
  | EAT_CRNL => Py.Ok (lines (end_line START_RECORD t))
  end.

Definition tokenize (s : string) : Py.result (list (list string)) :=
  finish (run (mkTok START_RECORD "" [] []) s).

(** *** Conversion of the fields of a column *)

(** The default missing-value markers. *)
Definition na_values : list string :=
  [""; "#N/A"; "#N/A N/A"; "#NA"; "-1.#IND"; "-1.#QNAN"; "-NaN"; "-nan";
   "1.#IND"; "1.#QNAN"; "<NA>"; "N/A"; "NA"; "NULL"; "NaN"; "None";
   "n/a"; "nan"; "null"].

Definition is_na (f : string) : bool := bool_decide (f ∈ na_values).

Definition parse_bool (f : string) : option bool :=
  if bool_decide (f ∈ ["True"; "TRUE"; "true"]) then Some true
  else if bool_decide (f ∈ ["False"; "FALSE"; "false"]) then Some false
  else None.

(** An integer field: optional sign and digits, blanks around allowed. *)
Definition parse_int (f : string) : option Z :=
  let '(neg, r) := take_sign (strip_with c_isspace f) in
  match span_digits r with
  | (d :: ds, EmptyString) => Some (signed neg (digits_value (d :: ds)))
  | _ => None
  end.

(** A decimal field or an infinity, blanks around allowed. *)
Definition parse_float (f : string) : option scalar :=
  let '(neg, r) := take_sign (strip_with c_isspace f) in
  if is_inf r then Some (Inf neg) else decimal neg r.

Inductive dtype := as_int | as_float | as_bool | as_object.

(** The type a column is converted to, from its fields that are not
    missing: integers, else decimals, else booleans, else text. *)
Definition infer (fields : list string) : dtype :=
  let present := filter (fun f => is_na f = false) fields in
  if bool_decide (Forall (fun f => is_Some (parse_int f)) fields) then as_int
  else if bool_decide (Forall (fun f => is_Some (parse_float f)) present) then as_float
  else if bool_decide (Forall (fun f => is_Some (parse_bool f)) present) then as_bool
  else as_object.

Definition convert (ty : dtype) (f : string) : cell scalar :=
  if is_na f then None
  else match ty with
       | as_int => Int <$> parse_int f
       | as_float => parse_float f
       | as_bool => Bool <$> parse_bool f
       | as_object => Some (Str f)
       end.

Definition is_cr (c : ascii) : bool := bool_decide (c = CR).

(** The characters that end an unquoted field for the reader. *)
Definition breaks (c : ascii) : bool := special c || is_cr c.

(** A column the reader keeps as text: no field is a missing-value
    marker or holds a carriage return, and the fields are not all numbers
    nor all booleans. *)
Definition keeps_text (fields : list string) : Prop :=
  Forall (fun f => is_na f = false ∧ existsb is_cr f = false) fields
  ∧ (fields = [] ∨ infer fields = as_object).

(** *** Reader *)

Definition pad (w : nat) (r : list string) : list string :=
  r ++ replicate (w - length r) "".

(** The first record names the columns (the renaming of repeated or
    empty names is not modelled). A record shorter than the table is
    filled with missing fields, a longer one is an error; when the first
    data record is longer than the header, its leading fields are the row
    labels and are not columns. *)
Definition read_csv (s : string) : Py.result (DataFrame scalar) :=
  recs ←? tokenize s ;
  match recs with
  | [] => Py.Raise (Py.ParserError "No columns to parse from file")
  | header :: data =>
      let h := length header in
      let w := h `max` from_option length h (data !! 0) in
      if bool_decide (Forall (fun r => length r ≤ w) data) then
        let body := (fun r => drop (w - h) (pad w r)) <$> data in
        let types :=
          (fun j => infer ((fun r => default "" (r !! j)) <$> body)) <$> seq 0 h in
        Py.Ok (mkDF header ((fun r => zip_with convert types r) <$> body))
      else Py.Raise (Py.ParserError "Error tokenizing data")
  end.

End Csv.

(** ** JSON: [DataFrame.to_json(orient="records")] and [pd.read_json] *)

Module Json.
Import Pandas Text.

(** *** Writer *)

Definition backslash : ascii := "\"%char.
Definition slash : ascii := "/"%char.

Definition hex_digit (n : nat) : ascii :=
  nth n ["0"; "1"; "2"; "3"; "4"; "5"; "6"; "7"; "8"; "9";
         "a"; "b"; "c"; "d"; "e"; "f"]%char "0"%char.

(** [\u00XX] for a character below 256. *)
Definition u_escape (c : ascii) : string :=
  String backslash
    (String "u" (String "0" (String "0"
       (String (hex_digit (code c / 16))
          (String (hex_digit (code c mod 16)) EmptyString))))).

Definition esc (c : ascii) : string := String backslash (String c EmptyString).

(** Quotes, backslashes and slashes are escaped, control characters are
    written by their short or [\u] escape, and so is every character
    outside ASCII. *)
Definition escape_char (c : ascii) : string :=
  if decide (c = dquote) then esc dquote
  else if decide (c = backslash) then esc backslash
  else if decide (c = slash) then esc slash
  else if decide (code c = 8) then esc "b"
  else if decide (code c = 12) then esc "f"
  else if decide (c = LF) then esc "n"
  else if decide (c = CR) then esc "r"
  else if decide (c = TAB) then esc "t"
  else if decide (code c < 32 ∨ 127 < code c) then u_escape c
  else String c EmptyString.

Fixpoint escape (s : string) : string :=
  match s with
  | EmptyString => EmptyString
  | String c s' => escape_char c +:+ escape s'
  end.

Definition quoted (s : string) : string :=
  String dquote (escape s) +:+ String dquote EmptyString.

Definition write_cell (c : cell string) : string :=
  match c with
  | Some s => quoted s
  | None => "null"
  end.

Definition write_record (cols : list string) (r : list (cell string)) : string :=
  "{" +:+ join "," (zip_with (fun k c => quoted k +:+ ":" +:+ write_cell c) cols r)
      +:+ "}".

Definition to_json (df : DataFrame string) : string :=
  "[" +:+ join "," (write_record (columns df) <$> rows df) +:+ "]".

(** *** Parser *)

Inductive json :=
| JNull
| JBool (b : bool)
| JNumber (text : string)
| JString (s : string)
| JArray (items : list json)
| JObject (members : list (string * json)).

Definition is_ws (c : ascii) : bool :=
  bool_decide (c = SP) || bool_decide (c = TAB)
  || bool_decide (c = LF) || bool_decide (c = CR).

Definition skip_ws : string → string := lstrip is_ws.

Definition hex_value (c : ascii) : option nat :=
  let n := code c in
  if (48 <=? n) && (n <=? 57) then Some (n - 48)
  else if (97 <=? n) && (n <=? 102) then Some (n - 87)
  else if (65 <=? n) && (n <=? 70) then Some (n - 55)
  else None.

Definition unescape (e : ascii) : option ascii :=
  if decide (e = dquote) then Some dquote
  else if decide (e = backslash) then Some backslash
  else if decide (e = slash) then Some slash
  else if decide (e = "b"%char) then Some (ascii_of_nat 8)
  else if decide (e = "f"%char) then Some (ascii_of_nat 12)
  else if decide (e = "n"%char) then Some LF
  else if decide (e = "r"%char) then Some CR
  else if decide (e = "t"%char) then Some TAB
  else None.

(** The characters of a string up to its closing quote. A [\u] escape
    above 255 is outside the character model and is rejected. *)
Fixpoint parse_chars (s : string) : option (string * string) :=
  match s with
  | EmptyString => None
  | String c r =>
      if decide (c = dquote) then Some (EmptyString, r)
      else if decide (c = backslash) then
        match r with
        | String e r1 =>
            if decide (e = "u"%char) then
              match r1 with
              | String h1 (String h2 (String h3 (String h4 r2))) =>
                  match hex_value h1, hex_value h2, hex_value h3, hex_value h4 with
                  | Some 0, Some 0, Some a, Some b =>
                      '(t, rest) ← parse_chars r2 ;
                      Some (String (ascii_of_nat (16 * a + b)) t, rest)
                  | _, _, _, _ => None
                  end
              | _ => None
              end
            else
              c' ← unescape e ;
              '(t, rest) ← parse_chars r1 ;
              Some (String c' t, rest)
        | EmptyString => None
        end
      else if decide (code c < 32) then None
      else '(t, rest) ← parse_chars r ; Some (String c t, rest)
  end.

Fixpoint strip_prefix (p s : string) : option string :=
  match p, s with
  | EmptyString, _ => Some s
  | String a p', String b s' => if decide (a = b) then strip_prefix p' s' else None
  | String _ _, EmptyString => None
  end.

Definition number_char (c : ascii) : bool :=
  bool_decide (is_Some (Ascii.is_nat c))
  || bool_decide (c ∈ ["-"; "+"; "."; "e"; "E"]%char).

Fixpoint span (p : ascii → bool) (s : string) : string * string :=
  match s with
  | EmptyString => (EmptyString, EmptyString)
  | String c s' =>
      if p c then let '(a, b) := span p s' in (String c a, b)
      else (EmptyString, s)
  end.

Definition parse_number (s : string) : option (json * string) :=
  let '(lex, rest) := span number_char s in
  let '(neg, r) := Numeral.take_sign lex in
  match lex with
  | String c _ =>
      if negb (bool_decide (c = "+"%char)) && bool_decide (is_Some (Numeral.decimal neg r))
      then Some (JNumber lex, rest)
      else None
  | EmptyString => None
  end.

Definition parse_literal (s : string) : option (json * string) :=
  match strip_prefix "true" s with
  | Some rest => Some (JBool true, rest)
  | None =>
      match strip_prefix "false" s with
      | Some rest => Some (JBool false, rest)
      | None =>
          match strip_prefix "null" s with
          | Some rest => Some (JNull, rest)
          | None => parse_number s
          end
      end
  end.

Fixpoint parse_value (fuel : nat) (s : string) : option (json * string) :=
  match fuel with
  | 0 => None
  | S fuel =>
      match skip_ws s with
      | EmptyString => None
      | String c r =>
          if decide (c = "["%char) then
            match skip_ws r with
            | String c' r' =>
                if decide (c' = "]"%char) then Some (JArray [], r')
                else '(vs, rest) ← parse_elements fuel (String c' r') ;
                     Some (JArray vs, rest)
            | EmptyString => None
            end
          else if decide (c = "{"%char) then
            match skip_ws r with
            | String c' r' =>
                if decide (c' = "}"%char) then Some (JObject [], r')
                else '(ms, rest) ← parse_members fuel (String c' r') ;
                     Some (JObject ms, rest)
            | EmptyString => None
            end
          else if decide (c = dquote) then
            '(t, rest) ← parse_chars r ; Some (JString t, rest)
          else parse_literal (String c r)
      end
  end
with parse_elements (fuel : nat) (s : string) : option (list json * string) :=
  match fuel with
  | 0 => None
  | S fuel =>
      '(v, r) ← parse_value fuel s ;
      match skip_ws r with
      | String c r' =>
          if decide (c = ","%char) then
            '(vs, rest) ← parse_elements fuel r' ; Some (v :: vs, rest)
          else if decide (c = "]"%char) then Some ([v], r')
          else None
      | EmptyString => None
      end
  end
with parse_members (fuel : nat) (s : string)
  : option (list (string * json) * string) :=
  match fuel with
  | 0 => None
  | S fuel =>
      match skip_ws s with
      | String c r =>
          if decide (c = dquote) then
            '(k, r1) ← parse_chars r ;
            match skip_ws r1 with
            | String c1 r2 =>
                if decide (c1 = ":"%char) then
                  '(v, r3) ← parse_value fuel r2 ;
                  match skip_ws r3 with
                  | String c3 r4 =>
                      if decide (c3 = ","%char) then
                        '(ms, rest) ← parse_members fuel r4 ;
                        Some ((k, v) :: ms, rest)
                      else if decide (c3 = "}"%char) then Some ([(k, v)], r4)
                      else None
                  | EmptyString => None
                  end
                else None
            | EmptyString => None
            end
          else None
      | EmptyString => None
      end
  end.

(** The whole text is one value; the recursion budget covers any
    nesting the text can hold. *)
Definition loads (s : string) : option json :=
  '(v, rest) ← parse_value (2 * String.length s + 2) s ;
  if decide (skip_ws rest = EmptyString) then Some v else None.

(** *** Conversion of the values of a column *)

Definition is_digit (c : ascii) : bool := bool_decide (is_Some (Ascii.is_nat c)).

(** Underscores are allowed between two digits only. *)
Fixpoint drop_underscores (prev_digit : bool) (s : string) : option string :=
  match s with
  | EmptyString => Some EmptyString
  | String c r =>
      if decide (c = "_"%char) then
        match r with
        | String d _ =>
            if prev_digit && is_digit d then drop_underscores false r else None
        | EmptyString => None
        end
      else String c <$> drop_underscores (is_digit c) r
  end.

(** [float(s)] of a text: [Some None] is NaN. *)
Definition py_float (s : string) : option (cell scalar) :=
  let '(neg, r) := Numeral.take_sign (strip s) in
  if bool_decide (lower r = "nan") then Some None
  else if Numeral.is_inf r then Some (Some (Inf neg))
  else r' ← drop_underscores false r ; Some <$> Numeral.decimal neg r'.

Definition number_of (t : string) : option scalar :=
  let '(neg, r) := Numeral.take_sign t in Numeral.decimal neg r.

(** The float a value converts to, if it does. *)
Definition as_number (v : json) : option (cell scalar) :=
  match v with
  | JNull => Some None
  | JBool b => Some (Some (Float (Q2Qc (inject_Z (if b then 1 else 0)))))
  | JNumber t => Some <$> number_of t
  | JString s => py_float s
  | JArray _ | JObject _ => None
  end.

(** The value kept as it is; nested values are outside the model. *)
Definition as_object (v : json) : option (cell scalar) :=
  match v with
  | JNull => Some None
  | JBool b => Some (Some (Bool b))
  | JNumber t =>
      x ← number_of t ;
      Some (Some (from_option Int x (Numeral.integral x)))
  | JString s => Some (Some (Str s))
  | JArray _ | JObject _ => None
  end.

Definition is_bool (v : json) : bool :=
  match v with JBool _ => true | _ => false end.

(** A column of booleans stays; a column whose values all convert to
    floats becomes numeric, and integer when every float is whole;
    any other column keeps its values. *)
Definition convert_column (vs : list json) : option (list (cell scalar)) :=
  if forallb is_bool vs then mapM as_object vs
  else match mapM as_number vs with
       | Some nums =>
           match mapM (fun x : cell scalar => x ≫= Numeral.integral) nums with
           | Some zs => Some ((fun z => Some (Int z)) <$> zs)
           | None => Some nums
           end
       | None => mapM as_object vs
       end.

(** A column the reader keeps as text: some cell is not a float. *)
Definition keeps_text (fields : list string) : Prop :=
  fields = [] ∨ ¬ Forall (fun f => is_Some (py_float f)) fields.

(** *** A (State, City) record as text and as document *)

Definition record_text (r : string * string) : string :=
  write_record ["State"; "City"] [Some r.1; Some r.2].

Definition records_text (D : list (string * string)) : string :=
  join "," (record_text <$> D).

Definition record_members (r : string * string) : list (string * json) :=
  [("State", JString r.1); ("City", JString r.2)].

Definition record_doc (r : string * string) : json :=
  JObject (record_members r).

(** *** Reader *)

(** The value of a key in a record: the last one given, null if none. *)
Definition member (k : string) (ms : list (string * json)) : json :=
  default JNull (last (omap (fun m => if decide (m.1 = k) then Some m.2 else None) ms)).

Definition records_of (v : json) : option (list (list (string * json))) :=
  match v with
  | JArray vs =>
      mapM (fun v => match v with JObject ms => Some ms | _ => None end) vs
  | _ => None
  end.

(** The columns of a list of records: their keys in order of first
    appearance. *)
Definition column_names (recs : list (list (string * json))) : list string :=
  unique (mjoin ((fun ms : list (string * json) => ms.*1) <$> recs)).

Definition convert_columns (recs : list (list (string * json)))
    (cols : list string) : option (list (list (cell scalar))) :=
  mapM (fun k => convert_column (member k <$> recs)) cols.

(** The reader on a document in records form (an array of objects of
    scalar values), the form [to_json(orient="records")] writes. Other
    layouts, and the conversion of columns with date-like names, are
    outside this model; other layouts are reported as an error. *)
Definition read_json (s : string) : Py.result (DataFrame scalar) :=
  match loads s with
  | None => Py.Raise (Py.ValueError "Expected object or value")
  | Some v =>
      match records_of v with
      | None => Py.Raise (Py.ValueError "not an array of records")
      | Some recs =>
          let cols := column_names recs in
          match convert_columns recs cols with
          | None => Py.Raise (Py.ValueError "nested value in a record")
          | Some converted =>
              Py.Ok (mkDF cols
                       ((fun i => (fun col : list (cell scalar) => mjoin (col !! i))
                                    <$> converted)
                          <$> seq 0 (length recs)))
          end
      end
  end.

End Json.

(** ** The Dataset exchanged between the two scripts *)

Module Dataset.
Import Pandas.

(** A record is a (State, City) pair of texts; a Dataset is their
    sequence. *)
Definition Dataset : Type := list (string * string).

(** The frame the Collector holds for a Dataset. *)
Definition to_frame (D : Dataset) : DataFrame string :=
  mkDF ["State"; "City"] ((fun r => [Some r.1; Some r.2]) <$> D).

(** The same frame with its texts as loaded scalars. *)
Definition as_loaded (df : DataFrame string) : DataFrame scalar :=
  mkDF (columns df)
       ((fun r : list (cell string) => (fun c : cell string => Str <$> c) <$> r)
          <$> rows df).

(** The (State, City) sequence of a loaded frame. *)
Definition pairs (df : DataFrame scalar)
  : Py.result (list (cell scalar * cell scalar)) :=
  st ←? getitem df "State" ;
  ci ←? getitem df "City" ;
  Py.Ok (zip st ci).

Definition loaded_pairs (D : Dataset) : list (cell scalar * cell scalar) :=
  (fun r => (Some (Str r.1), Some (Str r.2))) <$> D.

(** The invariant of a Dataset on a frame: the columns State and City
    exist and no row misses either value. *)
Definition invariant {U} (d : DataFrame U) : Prop :=
  ∃ st ci, getitem d "State" = Py.Ok st ∧ getitem d "City" = Py.Ok ci
           ∧ Forall is_Some st ∧ Forall is_Some ci.

(** A Dataset of three records, as loaded. *)
Definition scenario : DataFrame scalar :=
  as_loaded (to_frame [("MH", "Mumbai"); ("MH", "Pune"); ("DL", "Delhi")]).

End Dataset.

(** ** The Collector: [scrape_sih_data] and [main] *)

Module Scraper.
Import Pandas Text Eff.

(** *** The parsed page *)

(** A BeautifulSoup tree: strings and tags with their class tokens. *)
Inductive node :=
| NavigableString (s : string)
| Tag (name : string) (class : list string) (contents : list node).

(** Proper descendants, in document order. *)
Fixpoint descendants (n : node) : list node :=
  match n with
  | NavigableString _ => []
  | Tag _ _ cs =>
      (fix go (l : list node) : list node :=
         match l with
         | [] => []
         | c :: l' => c :: descendants c ++ go l'
         end) cs
  end.

(** [tag.text]: the strings below the tag, concatenated. *)
Fixpoint text (n : node) : string :=
  match n with
  | NavigableString s => s
  | Tag _ _ cs =>
      (fix go (l : list node) : string :=
         match l with
         | [] => EmptyString
         | c :: l' => text c +:+ go l'
         end) cs
  end.

(** A filter on [class_] holds when a class token passes it, or the
    whole attribute value does. *)
Definition class_matches (p : string → bool) (cls : list string) : bool :=
  List.existsb p cls || p (join " " cls).

Definition is_tag (name : string) (p : string → bool) (n : node) : bool :=
  match n with
  | Tag nm cls _ => bool_decide (nm = name) && class_matches p cls
  | NavigableString _ => false
  end.

(** [tag.find_all(name, class_=p)] *)
Definition find_all (name : string) (p : string → bool) (n : node) : list node :=
  List.filter (is_tag name p) (descendants n).

(** [tag.find(name, class_=p)] *)
Definition find (name : string) (p : string → bool) (n : node) : option node :=
  List.find (is_tag name p) (descendants n).

Definition eqb_str (a b : string) : bool := bool_decide (b = a).

(** *** The network and the world *)

(** What [requests.get] yields for a URL: it raises, or returns a
    response with a status and a body, here already parsed. *)
Inductive response :=
| ConnectionError (msg : string)
| Response (status_code : nat) (soup : node).

Inductive out :=
| Line (s : string)
| Shape (nrows ncols : nat)
| Frame (df : DataFrame string).

(** The files of the working directory, the console, and the GET
    requests issued so far. *)
Record world := mkWorld {
  files : gmap string string;
  stdout : list out;
  requests : list string
}.

Abbreviation M := (Eff.M world).

Definition print (o : out) : M unit :=
  modify (fun w => mkWorld (files w) (stdout w ++ [o]) (requests w)).

Definition write_file (name contents : string) : M unit :=
  modify (fun w => mkWorld (<[name := contents]> (files w)) (stdout w) (requests w)).

Section net.
Context (net : string → response).

Definition requests_get (url : string) : M (nat * node) :=
  modify (fun w => mkWorld (files w) (stdout w) (requests w ++ [url])) ;;;
  match net url with
  | ConnectionError msg => raise (Py.RequestException msg)
  | Response st soup => ret (st, soup)
  end.

(** [response.raise_for_status()] *)
Definition raise_for_status (status_code : nat) : M unit :=
  if decide (400 ≤ status_code < 600)
  then raise (Py.RequestException "HTTPError")
  else ret tt.

(** The loop over the rows: both lists grow together, a row that
    lacks either cell is reported and skipped. *)
Fixpoint extract (rows : list node) (states cities : list string)
  : M (list string * list string) :=
  match rows with
  | [] => ret (states, cities)
  | row :: rows' =>
      let state := find "td" (eqb_str "column10 style2 s") row in
      let city := find "td" (eqb_str "column9 style2 s") row in
      match state, city with
      | Some state, Some city =>
          extract rows' (states ++ [strip (text state)])
                        (cities ++ [strip (text city)])
      | _, _ =>
          print (Line "State or City not found in a row") ;;;
          extract rows' states cities
      end
  end.

Definition scrape_sih_data (url : string) : M (option (DataFrame string)) :=
  except_request
    (r <- requests_get url ;;
     raise_for_status r.1 ;;;
     print (Line ("Successfully fetched data from " +:+ url)) ;;;
     let soup := r.2 in
     let rows := find_all "tr" (startswith "row") soup in
     print (Line ("Found " +:+ pretty (length rows) +:+ " rows")) ;;;
     sc <- extract rows [] [] ;;
     let states := sc.1 in
     let cities := sc.2 in
     if bool_decide (states = []) || bool_decide (cities = []) then
       print (Line "No data extracted. Check the HTML structure.") ;;;
       ret None
     else
       df <- lift (from_dict [("State", Some <$> states);
                              ("City", Some <$> cities)]) ;;
       write_file "sih_data.csv" (Csv.to_csv df) ;;;
       write_file "sih_data.json" (Json.to_json df) ;;;
       ret (Some df))
    (fun e => print (Line ("Error fetching data: " +:+ e)) ;;; ret None).

(** The loop of [main] over the URLs. *)
Fixpoint scrape_all (urls : list string) (all_data : list (DataFrame string))
  : M (list (DataFrame string)) :=
  match urls with
  | [] => ret all_data
  | url :: urls' =>
      print (Line ("Starting data scraping for " +:+ url +:+ "...")) ;;;
      df <- scrape_sih_data url ;;
      scrape_all urls'
        (match df with Some d => all_data ++ [d] | None => all_data end)
  end.

Definition main_with (urls : list string) : M unit :=
  all_data <- scrape_all urls [] ;;
  match all_data with
  | _ :: _ =>
      combined_df <- lift (concat all_data) ;;
      write_file "combined_sih_data.csv" (Csv.to_csv combined_df) ;;;
      write_file "combined_sih_data.json" (Json.to_json combined_df) ;;;
      print (Line (String LF "Data scraping successful!")) ;;;
      print (Shape (len combined_df) (length (columns combined_df))) ;;;
      print (Line (String LF "First few rows:")) ;;;
      print (Frame (mkDF (columns combined_df) (head 5 (rows combined_df))))
  | [] => print (Line "No data scraped from any URL.")
  end.

(** *** What a page contributes *)

(** The two texts of a row that has both cells. *)
Definition cells_of (row : node) : option (string * string) :=
  match find "td" (eqb_str "column10 style2 s") row,
        find "td" (eqb_str "column9 style2 s") row with
  | Some state, Some city => Some (strip (text state), strip (text city))
  | _, _ => None
  end.

(** The records of a page: one per row that has both cells. *)
Definition kept (soup : node) : list (string * string) :=
  omap cells_of (find_all "tr" (startswith "row") soup).

(** The selected rows of a page that lack a cell. *)
Definition skipped (soup : node) : list node :=
  filter (fun row => cells_of row = None) (find_all "tr" (startswith "row") soup).

(** The page of a URL whose request succeeds. *)
Definition fetched (url : string) : option node :=
  match net url with
  | ConnectionError _ => None
  | Response st soup => if decide (400 ≤ st < 600) then None else Some soup
  end.

(** The records a URL contributes: none when its request fails. *)
Definition records (url : string) : list (string * string) :=
  match fetched url with
  | Some soup => kept soup
  | None => []
  end.

(** The fragment of a URL: the frame of its records, if it has any. *)
Definition fragment (url : string) : option (DataFrame string) :=
  match records url with
  | [] => None
  | k => Some (Dataset.to_frame k)
  end.

Definition urls : list string :=
  ["https://www.sih.gov.in/screeningresult";
   "https://www.sih.gov.in/screeningresult_batch_two";
   "https://sih.gov.in/screeningresult_batch_three"].

Definition main : M unit := main_with urls.

End net.

(** *** A small network for examples *)

Definition td (cls : string) (s : string) : node :=
  Tag "td" [cls; "style2"; "s"] [NavigableString s].

(** One row with both cells, one row without the State cell. *)
Definition example_page : node :=
  Tag "[document]" []
    [Tag "table" []
       [Tag "tr" ["row0"] [td "column9" " Mumbai "; td "column10" "MH"];
        Tag "tr" ["row1"] [td "column9" "Pune"]]].

(** ["a"] answers with the example page, ["b"] cannot be reached, any
    other URL answers 404. *)
Definition example_net (url : string) : response :=
  if decide (url = "a") then Response 200 example_page
  else if decide (url = "b") then ConnectionError "timed out"
  else Response 404 (Tag "[document]" [] []).

Definition empty_world : world := mkWorld ∅ [] [].

(** The per-URL files after the fragments [frags] were written in turn. *)
Definition per_url_files (fs : gmap string string)
    (frags : list (DataFrame string)) : gmap string string :=
  foldl (fun fs df => <["sih_data.json" := Json.to_json df]>
                        (<["sih_data.csv" := Csv.to_csv df]> fs)) fs frags.

End Scraper.

(** ** pathlib: the final component of a path and its suffix *)

Module Pathlib.

Fixpoint split_on (sep : ascii) (s : string) : list string :=
  match s with
  | EmptyString => [EmptyString]
  | String c s' =>
      if decide (c = sep) then EmptyString :: split_on sep s'
      else match split_on sep s' with
           | [] => [String c EmptyString]
           | w :: ws => String c w :: ws
           end
  end.

(** Components of a POSIX path: empty and ["."] components are dropped. *)
Definition parts (p : string) : list string :=
  filter (fun c => c ≠ "" ∧ c ≠ ".") (split_on "/" p).

(** [Path(p).name] *)
Definition name (p : string) : string := default "" (last (parts p)).

(** [s.rfind(c)] *)
Fixpoint rfind (c : ascii) (s : string) : option nat :=
  match s with
  | EmptyString => None
  | String a s' =>
      match rfind c s' with
      | Some i => Some (S i)
      | None => if decide (a = c) then Some 0 else None
      end
  end.

(** [Path(p).suffix]: from the last dot of the name, when that dot is
    neither its first nor its last character. *)
Definition suffix (p : string) : string :=
  let n := name p in
  match rfind "." n with
  | Some i =>
      if decide (0 < i ∧ i < String.length n - 1)
      then String.substring i (String.length n - i) n
      else ""
  | None => ""
  end.

End Pathlib.

(** ** The Reporter: [SIHAnalyzer] *)

Module Analysis.
Import Pandas.

Section analyzer.
Context {U : Type} `{EqDecision U}.
(** Order of the scalars (label sorting), the integers among them, and
    the two pandas readers applied to a file's text. *)
Context (leb : U → U → bool) (int : nat → U).
Context (read_csv read_json : string → Py.result (DataFrame U)).

Inductive palette :=
| Colors (cs : list string)
| Named (name : string) (n : option Z).

(** Calls into matplotlib and seaborn, with the data they are given.
    What the plotting library draws from them is outside the model. *)
Inductive call :=
| style_use (name : string)
| rc_set (key value : string)
| figure (w h : nat)
| add_subplot (where_ : string)
| barplot (data : DataFrame U) (x y : string) (p : palette)
| barplot_xy (x : list nat) (y : list U) (p : palette) (ax : string)
| heatmap (data : Crosstab U) (cmap : string) (ax : string)
| text (i : nat) (v : cell U) (dy : Q) (label : cell U)
| title (s : string)
| decorate (what : string)
| savefig (path : string)
| show.

Inductive effect :=
| print (line : string)
| print_stat (key : string)
| open_file (path : string)
| makedirs (path : string)
| plt (c : call).

(** Frames live in a store and are handled by reference. *)
Record world := mkWorld {
  heap : gmap positive (DataFrame U);
  disk : gmap string string;
  log : list effect
}.

Import Eff.
Abbreviation M := (Eff.M world).

Definition emit (e : effect) : M unit :=
  fun w => (Py.Ok tt, mkWorld (heap w) (disk w) (log w ++ [e])).

Fixpoint emit_all (es : list effect) : M unit :=
  match es with
  | [] => ret tt
  | e :: es' => emit e ;;; emit_all es'
  end.

(** A new object gets a reference no live object has. *)
Definition alloc (d : DataFrame U) : M positive :=
  fun w => let l := fresh (dom (heap w)) in
           (Py.Ok l, mkWorld (<[l := d]> (heap w)) (disk w) (log w)).

Definition deref (l : positive) : M (DataFrame U) :=
  fun w => match heap w !! l with
           | Some d => (Py.Ok d, w)
           | None => (Py.Raise (Py.KeyError "dangling reference"), w)
           end.

(** [frame.columns = names], in place. *)
Definition set_columns (l : positive) (names : list string) : M unit :=
  fun w => match heap w !! l with
           | Some d =>
               if decide (length names = length (columns d)) then
                 (Py.Ok tt,
                  mkWorld (<[l := mkDF names (rows d)]> (heap w)) (disk w) (log w))
               else (Py.Raise (Py.ValueError "Length mismatch"), w)
           | None => (Py.Raise (Py.KeyError "dangling reference"), w)
           end.

(** A computation that leaves every stored frame as it is. *)
Definition keeps_heap {A} (m : M A) : Prop := ∀ w, heap (m w).2 = heap w.

(** A call into the plotting library other than [savefig]. *)
Definition draws (e : effect) : Prop :=
  match e with
  | plt (savefig _) => False
  | plt _ => True
  | _ => False
  end.

(** A computation that only adds effects satisfying [P] to the log,
    whatever its outcome. *)
Definition emits {A} (P : effect → Prop) (m : M A) : Prop :=
  ∀ w, ∃ es, log (m w).2 = log w ++ es ∧ Forall P es.

(** A computation that, when it returns, has added effects satisfying
    [P] followed by [tail]. *)
Definition ends_with {A} (P : effect → Prop) (tail : list effect) (m : M A) : Prop :=
  ∀ w a w', m w = (Py.Ok a, w') →
    ∃ es, log w' = log w ++ es ++ tail ∧ Forall P es.

(** The paths given to [savefig], in order. *)
Definition saved (l : list effect) : list string :=
  omap (fun e => match e with plt (savefig p) => Some p | _ => None end) l.

(** The keys of the statistics printed, in order. *)
Definition reported (l : list effect) : list string :=
  omap (fun e => match e with print_stat k => Some k | _ => None end) l.

Definition read_file (path : string) : M string :=
  fun w => let w' := mkWorld (heap w) (disk w) (log w ++ [open_file path]) in
           match disk w !! path with
           | Some s => (Py.Ok s, w')
           | None => (Py.Raise (Py.FileNotFoundError path), w')
           end.

Record SIHAnalyzer := mkAnalyzer {
  data_path : string;
  df : positive;
  colors : list string;
  results_dir : string
}.

Definition load_data (path : string) : M positive :=
  if decide (Pathlib.suffix path = ".csv") then
    s <- read_file path ;; d <- lift (read_csv s) ;; alloc d
  else if decide (Pathlib.suffix path = ".json") then
    s <- read_file path ;; d <- lift (read_json s) ;; alloc d
  else raise (Py.ValueError "Unsupported file format. Use CSV or JSON.").

Definition setup_style : M (list string) :=
  emit (plt (style_use "seaborn-v0_8-darkgrid")) ;;;
  emit (plt (rc_set "font.family" "sans-serif")) ;;;
  emit (plt (rc_set "font.sans-serif" "Arial")) ;;;
  emit (plt (rc_set "axes.labelsize" "12")) ;;;
  emit (plt (rc_set "axes.titlesize" "14")) ;;;
  emit (plt (rc_set "xtick.labelsize" "10")) ;;;
  emit (plt (rc_set "ytick.labelsize" "10")) ;;;
  ret ["#3498db"; "#2ecc71"; "#e74c3c"; "#f1c40f"; "#9b59b6";
       "#1abc9c"; "#e67e22"; "#34495e"; "#7f8c8d"; "#16a085"].

Definition init (path : string) : M SIHAnalyzer :=
  d <- load_data path ;;
  cs <- setup_style ;;
  emit (makedirs "results") ;;;
  ret (mkAnalyzer path d cs "results").

(** *** [basic_stats] *)

Inductive stat :=
| Count (n : nat)
| Series (s : list (U * nat)).

Definition stats_of (d : DataFrame U) : Py.result (list (string * stat)) :=
  let total_entries := len d in
  st1 ←? getitem d "State" ;
  ci1 ←? getitem d "City" ;
  st2 ←? getitem d "State" ;
  ci2 ←? getitem d "City" ;
  Py.Ok [("Total Entries", Count total_entries);
         ("Unique States", Count (nunique st1));
         ("Unique Cities", Count (nunique ci1));
         ("Top 5 States", Series (head 5 (value_counts st2)));
         ("Top 5 Cities", Series (head 5 (value_counts ci2)))].

Definition basic_stats (self : SIHAnalyzer) : M (list (string * stat)) :=
  d <- deref (df self) ;; lift (stats_of d).

(** [stats[key]] *)
Fixpoint dict_get {A} (key : string) (d : list (string * A)) : option A :=
  match d with
  | [] => None
  | (k, v) :: d' => if decide (k = key) then Some v else dict_get key d'
  end.

(** *** Charts *)

(** [series.reset_index()] of a count series named [name]. *)
Definition reset_index (name : string) (vc : list (U * nat)) : DataFrame U :=
  mkDF [name; "count"] ((fun p => [Some p.1; Some (int p.2)]) <$> vc).

Definition os_path_join (dir file : string) : string :=
  dir +:+ "/" +:+ file.

Definition save_and_show (save : bool) (path : string) (what : string) : M unit :=
  (if save then
     emit (plt (savefig path)) ;;;
     emit (print (what +:+ " saved as " +:+ path))
   else ret tt) ;;;
  emit (plt show).

(** What a chart adds to the log: without [save] only drawing calls;
    with [save], when it returns, drawing calls followed by the saving
    of [file], the message and [show]. *)
Definition saving (self : SIHAnalyzer) (file what : string)
    (chart : bool → M unit) : Prop :=
  emits draws (chart false)
  ∧ ends_with draws
      [plt (savefig (os_path_join (results_dir self) file));
       print (what +:+ " saved as " +:+ os_path_join (results_dir self) file);
       plt show]
      (chart true).

Definition bar_labels (dy : Q) (counts : list (cell U)) : list effect :=
  imap (fun i v => plt (text i v dy v)) counts.

Definition plot_top_states (self : SIHAnalyzer) (n : Z) (save : bool) : M unit :=
  d <- deref (df self) ;;
  col <- lift (getitem d "State") ;;
  data <- alloc (reset_index "State" (head n (value_counts col))) ;;
  set_columns data ["State"; "Count"] ;;;
  emit (plt (figure 12 6)) ;;;
  shown <- deref data ;;
  emit (plt (barplot shown "State" "Count" (Colors (head n (colors self))))) ;;;
  emit (plt (title "Top States by Number of Selected Teams")) ;;;
  counts <- (dd <- deref data ;; lift (getitem dd "Count")) ;;
  emit_all (bar_labels 1 counts) ;;;
  emit (plt (decorate "grid")) ;;;
  emit (plt (decorate "set_axisbelow")) ;;;
  emit (plt (decorate "xticks")) ;;;
  emit (plt (decorate "spines")) ;;;
  emit (plt (decorate "tight_layout")) ;;;
  save_and_show save (os_path_join (results_dir self) "top_states.png") "Plot".

Definition plot_city_distribution (self : SIHAnalyzer) (top_n : Z) (save : bool)
  : M unit :=
  d <- deref (df self) ;;
  col <- lift (getitem d "City") ;;
  data <- alloc (reset_index "City" (head top_n (value_counts col))) ;;
  set_columns data ["City"; "Count"] ;;;
  emit (plt (figure 15 7)) ;;;
  shown <- deref data ;;
  emit (plt (barplot shown "City" "Count" (Named "viridis" (Some top_n)))) ;;;
  emit (plt (title "Distribution of Teams Across Top Cities")) ;;;
  counts <- (dd <- deref data ;; lift (getitem dd "Count")) ;;
  emit_all (bar_labels (1 # 2) counts) ;;;
  emit (plt (decorate "grid")) ;;;
  emit (plt (decorate "set_axisbelow")) ;;;
  emit (plt (decorate "xticks")) ;;;
  emit (plt (decorate "tight_layout")) ;;;
  save_and_show save (os_path_join (results_dir self) "city_distribution.png") "Plot".

(** The table restricted to its [ks] largest rows and [kc] largest columns. *)
Definition top_block (ct : Crosstab U) (ks kc : Z) : Crosstab U :=
  let top_states := fst <$> nlargest ks (sum_axis1 ct) in
  let top_cities := fst <$> nlargest kc (sum_axis0 ct) in
  loc ct top_states top_cities.

Definition state_city_heatmap (self : SIHAnalyzer) (top_states top_cities : Z)
    (save : bool) : M unit :=
  d <- deref (df self) ;;
  st <- lift (getitem d "State") ;;
  ci <- lift (getitem d "City") ;;
  let cross_tab := crosstab leb st ci in
  emit (plt (figure 12 8)) ;;;
  emit (plt (heatmap (top_block cross_tab top_states top_cities) "viridis" "")) ;;;
  emit (plt (title "State vs City Distribution")) ;;;
  emit (plt (decorate "xlabel")) ;;;
  emit (plt (decorate "ylabel")) ;;;
  emit (plt (decorate "xticks")) ;;;
  emit (plt (decorate "yticks")) ;;;
  emit (plt (decorate "tight_layout")) ;;;
  save_and_show save (os_path_join (results_dir self) "state_city_heatmap.png") "Plot".

Definition create_summary_dashboard (self : SIHAnalyzer) (save : bool) : M unit :=
  emit (plt (style_use "dark_background")) ;;;
  emit (plt (figure 20 12)) ;;;
  emit (plt (decorate "add_gridspec")) ;;;
  emit (plt (add_subplot "gs[0, 0]")) ;;;
  d1 <- deref (df self) ;;
  st1 <- lift (getitem d1 "State") ;;
  let state_data := head 8 (value_counts st1) in
  emit (plt (barplot_xy (snd <$> state_data) (fst <$> state_data)
                        (Named "viridis" None) "ax1")) ;;;
  emit (plt (title "Top States")) ;;;
  emit (plt (decorate "ax1.set_xlabel")) ;;;
  emit (plt (add_subplot "gs[0, 1]")) ;;;
  d2 <- deref (df self) ;;
  ci2 <- lift (getitem d2 "City") ;;
  let city_data := head 8 (value_counts ci2) in
  emit (plt (barplot_xy (snd <$> city_data) (fst <$> city_data)
                        (Named "magma" None) "ax2")) ;;;
  emit (plt (title "Top Cities")) ;;;
  emit (plt (decorate "ax2.set_xlabel")) ;;;
  emit (plt (add_subplot "gs[1, :]")) ;;;
  d3 <- deref (df self) ;;
  st3 <- lift (getitem d3 "State") ;;
  ci3 <- lift (getitem d3 "City") ;;
  let cross_tab := crosstab leb st3 ci3 in
  emit (plt (heatmap (top_block cross_tab 6 8) "coolwarm" "ax3")) ;;;
  emit (plt (title "State vs City Distribution")) ;;;
  emit (plt (decorate "suptitle")) ;;;
  emit (plt (decorate "tight_layout")) ;;;
  save_and_show save (os_path_join (results_dir self) "sih_dashboard.png") "Dashboard".

(** [main()] of the analysis script. *)
Definition main : M unit :=
  analyzer <- init "combined_sih_data.csv" ;;
  emit (print (String Text.LF "Basic Statistics:")) ;;;
  stats <- basic_stats analyzer ;;
  emit_all ((fun kv => print_stat kv.1) <$> stats) ;;;
  emit (print (String Text.LF "Generating visualizations...")) ;;;
  plot_top_states analyzer 10 true ;;;
  plot_city_distribution analyzer 20 true ;;;
  state_city_heatmap analyzer 10 10 true ;;;
  create_summary_dashboard analyzer true.

End analyzer.
End Analysis.

(** ** The Reporter on loaded scalars, with the two pandas readers *)

Module Reporter.

Definition load_data : string → Eff.M (Analysis.world (U:=scalar)) positive :=
  Analysis.load_data Csv.read_csv Json.read_json.

Definition main : Eff.M (Analysis.world (U:=scalar)) unit :=
  Analysis.main Scalar.leb Scalar.int Csv.read_csv Json.read_json.

End Reporter.

(** * Properties *)

(** ** Counting, ranking and selection *)

Section counting.
Import Pandas.
Context {U : Type} `{EqDecision U}.
Implicit Types (t : list (U * nat)) (l : list U) (s : list (cell U)).

Lemma total_bump x t : total (bump x t) = S (total t).
Proof.
  unfold total. induction t as [|[y n] t IH]; [done|].
  simpl. case_decide; csimpl in *; lia.
Qed.

Lemma total_tally l : total (tally l) = length l.
Proof.
  unfold tally.
  enough (Hg : ∀ t, total (foldl (fun t x => bump x t) t l) = total t + length l)
    by (rewrite Hg; done).
  induction l as [|x l IH]; intros t; simpl; [lia|].
  rewrite IH, total_bump. lia.
Qed.

Lemma fst_bump x t :
  (bump x t).*1 = if decide (x ∈ t.*1) then t.*1 else t.*1 ++ [x].
Proof.
  induction t as [|[y n] t IH]; [done|].
  cbn [bump]. destruct (decide (x = y)) as [->|Hne]; rewrite !fmap_cons; cbn [fst].
  - rewrite decide_True by apply list_elem_of_here. done.
  - rewrite IH. destruct (decide (x ∈ t.*1)) as [Hin|Hin].
    + rewrite decide_True by (by apply list_elem_of_further). done.
    + rewrite decide_False; [done|].
      intros [?|?]%elem_of_cons; done.
Qed.

Lemma fst_tally l : (tally l).*1 = unique l.
Proof.
  unfold tally, unique.
  enough (Hg : ∀ t, (foldl (fun t x => bump x t) t l).*1
     = foldl (fun acc x => if decide (x ∈ acc) then acc else acc ++ [x]) (t.*1) l)
    by apply (Hg []).
  induction l as [|x l IH]; intros t; simpl; [done|].
  rewrite IH, fst_bump. done.
Qed.

Lemma insert_desc_perm p t : insert_desc p t ≡ₚ p :: t.
Proof.
  induction t as [|q t IH]; simpl; [done|].
  case_decide; [done|]. rewrite IH. apply Permutation_swap.
Qed.

Lemma sort_desc_perm t : sort_desc t ≡ₚ t.
Proof.
  induction t as [|p t IH]; simpl; [done|].
  rewrite insert_desc_perm, IH. done.
Qed.

Lemma insert_desc_sorted p t :
  StronglySorted count_ge t → StronglySorted count_ge (insert_desc p t).
Proof.
  induction 1 as [|q t Hs IH Hq]; simpl.
  - repeat constructor.
  - case_decide as Hle.
    + constructor; [by constructor|].
      constructor; [exact Hle|].
      eapply Forall_impl; [exact Hq|]. unfold count_ge. intros; lia.
    + constructor; [exact IH|].
      rewrite insert_desc_perm. constructor; [|exact Hq].
      unfold count_ge. lia.
Qed.

Lemma sort_desc_sorted t : StronglySorted count_ge (sort_desc t).
Proof.
  induction t as [|p t IH]; simpl; [constructor|].
  by apply insert_desc_sorted.
Qed.

Lemma StronglySorted_take {A} (R : relation A) n (k : list A) :
  StronglySorted R k → StronglySorted R (take n k).
Proof.
  intros Hs. rewrite <- (take_drop n k) in Hs.
  by apply StronglySorted_app_1_l in Hs.
Qed.

Lemma head_nonneg {A} (n : Z) (k : list A) :
  (0 ≤ n)%Z → head n k = take (Z.to_nat n) k.
Proof. intros Hn. unfold head. by rewrite decide_True. Qed.

Lemma head_prefix {A} (n : Z) (k : list A) : head n k `prefix_of` k.
Proof. unfold head. case_decide; apply prefix_take. Qed.

Lemma head_sorted n t :
  StronglySorted count_ge t → StronglySorted count_ge (head n t).
Proof. unfold head. case_decide; apply StronglySorted_take. Qed.

(** The counts of a series add up to its present values. *)
Lemma total_value_counts s : total (value_counts s) = length (dropna s).
Proof.
  unfold value_counts, total.
  rewrite sort_desc_perm. apply total_tally.
Qed.

(** One entry per distinct present value. *)
Lemma length_value_counts s : length (value_counts s) = nunique s.
Proof.
  unfold value_counts, nunique.
  rewrite sort_desc_perm, <- fst_tally, length_fmap. done.
Qed.

Lemma dropna_present s : Forall is_Some s → length (dropna s) = length s.
Proof.
  unfold dropna. induction 1 as [|c s [x ->] _ IH]; [done|].
  simpl. by f_equal.
Qed.

(** *** Distinct labels *)

Lemma unique_spec l : NoDup (unique l) ∧ ∀ x, x ∈ unique l ↔ x ∈ l.
Proof.
  unfold unique.
  enough (Hg : ∀ acc, NoDup acc →
    NoDup (foldl (fun acc x => if decide (x ∈ acc) then acc else acc ++ [x]) acc l)
    ∧ ∀ x, x ∈ foldl (fun acc x => if decide (x ∈ acc) then acc else acc ++ [x]) acc l
           ↔ x ∈ acc ∨ x ∈ l).
  { destruct (Hg [] (NoDup_nil_2 )) as [Hn He]. split; [done|].
    intros x. rewrite He. rewrite elem_of_nil. tauto. }
  induction l as [|y l IH]; intros acc Hacc; simpl.
  - split; [done|]. intros x. rewrite elem_of_nil. tauto.
  - destruct (decide (y ∈ acc)) as [Hy|Hy].
    + destruct (IH acc Hacc) as [Hn He]. split; [done|].
      intros x. rewrite He, elem_of_cons.
      split; [tauto|]. intros [?|[->|?]]; tauto.
    + assert (Hacc' : NoDup (acc ++ [y])).
      { apply NoDup_app. split_and!; [done| |apply NoDup_singleton].
        intros x Hx ->%list_elem_of_singleton. done. }
      destruct (IH _ Hacc') as [Hn He]. split; [done|].
      intros x. rewrite He, elem_of_app, list_elem_of_singleton, elem_of_cons.
      tauto.
Qed.

Lemma insert_label_perm {A} (leb : A → A → bool) x (k : list A) :
  insert_label leb x k ≡ₚ x :: k.
Proof.
  induction k as [|y k IH]; simpl; [done|].
  destruct (leb x y); [done|]. rewrite IH. apply Permutation_swap.
Qed.

Lemma sort_labels_perm {A} (leb : A → A → bool) (k : list A) :
  sort_labels leb k ≡ₚ k.
Proof.
  induction k as [|x k IH]; simpl; [done|].
  rewrite insert_label_perm, IH. done.
Qed.

(** *** Sums over a partition by label *)

Lemma sum_list_with_plus {A} (g h : A → nat) (k : list A) :
  sum_list_with (fun a => g a + h a) k = sum_list_with g k + sum_list_with h k.
Proof. induction k as [|a k IH]; simpl; lia. Qed.

Lemma sum_list_with_ext_in {A} (g h : A → nat) (k : list A) :
  (∀ a, a ∈ k → g a = h a) → sum_list_with g k = sum_list_with h k.
Proof.
  induction k as [|a k IH]; simpl; intros Hgh; [done|].
  rewrite Hgh by apply list_elem_of_here.
  rewrite IH; [done|]. intros b Hb. apply Hgh. by apply list_elem_of_further.
Qed.

Lemma sum_list_fmap_with {A} (g : A → nat) (k : list A) :
  sum_list (g <$> k) = sum_list_with g k.
Proof. induction k as [|a k IH]; [done|]. simpl. by f_equal. Qed.

Lemma sum_indicator {K} `{EqDecision K} (x : K) (L : list K) :
  NoDup L → x ∈ L →
  sum_list_with (fun k => if decide (x = k) then 1 else 0) L = 1.
Proof.
  induction 1 as [|k L Hk Hn IH]; intros Hx; [by apply elem_of_nil in Hx|].
  simpl. destruct (decide (x = k)) as [->|Hne].
  - rewrite (sum_list_with_ext_in _ (fun _ => 0)).
    + clear. induction L; simpl; lia.
    + intros a Ha. rewrite decide_False; [done|]. by intros <-.
  - rewrite IH; [done|]. apply elem_of_cons in Hx as [?|?]; done.
Qed.

Lemma sum_partition {A K} `{EqDecision K} (f : A → K) (L : list K) (xs : list A) :
  NoDup L → Forall (fun a => f a ∈ L) xs →
  sum_list_with (fun k => length (filter (fun a => f a = k) xs)) L = length xs.
Proof.
  intros HL. induction 1 as [|a xs Ha _ IH]; simpl.
  - clear. induction L; simpl; lia.
  - transitivity (sum_list_with
      (fun k => (if decide (f a = k) then 1 else 0)
                + length (filter (fun a => f a = k) xs)) L).
    + apply sum_list_with_ext_in. intros k _.
      rewrite filter_cons. destruct (decide (f a = k)); done.
    + rewrite sum_list_with_plus, IH, (sum_indicator (f a) L HL Ha). done.
Qed.

(** The cells of a cross-tabulation add up to the rows in which both
    series are present. *)
Lemma grand_total_crosstab (leb : U → U → bool) (a b : list (cell U)) :
  grand_total (crosstab leb a b) = length (both a b).
Proof.
  unfold grand_total, crosstab. cbn [ct_cells].
  set (ps := both a b).
  set (I := sort_labels leb (unique ps.*1)).
  set (J := sort_labels leb (unique ps.*2)).
  assert (HI : NoDup I ∧ ∀ p, p ∈ ps → p.1 ∈ I).
  { unfold I. split.
    - rewrite sort_labels_perm. apply unique_spec.
    - intros p Hp. rewrite sort_labels_perm. apply unique_spec.
      by apply list_elem_of_fmap_2. }
  assert (HJ : NoDup J ∧ ∀ p, p ∈ ps → p.2 ∈ J).
  { unfold J. split.
    - rewrite sort_labels_perm. apply unique_spec.
    - intros p Hp. rewrite sort_labels_perm. apply unique_spec.
      by apply list_elem_of_fmap_2. }
  destruct HI as [HI1 HI2], HJ as [HJ1 HJ2].
  rewrite <- list_fmap_compose, sum_list_fmap_with.
  rewrite <- (sum_partition fst I ps HI1) by (apply Forall_forall; auto).
  apply sum_list_with_ext_in. intros i _. cbn.
  rewrite sum_list_fmap_with.
  rewrite <- (sum_partition snd J (filter (fun p => p.1 = i) ps) HJ1).
  - apply sum_list_with_ext_in. intros j _. unfold count_pair.
    rewrite list_filter_filter. f_equal. apply list_filter_iff.
    intros [x y]; simpl. split; [by intros [= -> ->]|by intros [-> ->]].
  - apply Forall_forall. intros p [_ Hp]%list_elem_of_filter. auto.
Qed.

End counting.

(** ** Basic statistics *)

Section basic_stats.
Import Pandas Analysis.

Lemma index_of_elem (name : string) (cols : list string) :
  name ∈ cols → is_Some (index_of name cols).
Proof.
  induction cols as [|c cols IH]; intros Hin; [by apply elem_of_nil in Hin|].
  simpl. case_decide as Hc; [by eexists|].
  apply elem_of_cons in Hin as [->|Hin]; [done|].
  destruct (IH Hin) as [i ->]. by eexists.
Qed.

Lemma getitem_elem {U} (d : DataFrame U) (name : string) :
  name ∈ columns d → ∃ s, getitem d name = Py.Ok s ∧ length s = len d.
Proof.
  intros [i Hi]%index_of_elem. unfold getitem. rewrite Hi.
  eexists. split; [done|]. by rewrite length_fmap.
Qed.

Lemma getitem_length {U} (d : DataFrame U) (name : string) s :
  getitem d name = Py.Ok s → length s = len d.
Proof.
  unfold getitem. destruct (index_of name (columns d)); [|done].
  intros [= <-]. by rewrite length_fmap.
Qed.

(** C1. For every loaded frame with the columns State and City,
    [basic_stats] returns a dictionary whose "Total Entries" is the number
    of rows, and leaves the world as it was. On the Dataset
    [(MH, Mumbai), (MH, Pune), (DL, Delhi)] it gives Total Entries 3,
    Unique States 2, Unique Cities 3 and MH with count 2 as the top
    State. *)
Theorem basic_stats_total_entries :
  (∀ (U : Type) (HU : EqDecision U) (w : world (U:=U)) (self : SIHAnalyzer)
     (d : DataFrame U),
     heap w !! df self = Some d →
     "State" ∈ columns d → "City" ∈ columns d →
     ∃ stats, basic_stats self w = (Py.Ok stats, w)
              ∧ dict_get "Total Entries" stats = Some (Count (len d)))
  ∧ (∃ stats rest,
       stats_of Dataset.scenario = Py.Ok stats
       ∧ dict_get "Total Entries" stats = Some (Count 3)
       ∧ dict_get "Unique States" stats = Some (Count 2)
       ∧ dict_get "Unique Cities" stats = Some (Count 3)
       ∧ dict_get "Top 5 States" stats = Some (Series ((Str "MH", 2) :: rest))).
Proof.
  split.
  - intros U HU w self d Hd HS HC.
    destruct (getitem_elem d "State" HS) as (st & Hst & _).
    destruct (getitem_elem d "City" HC) as (ci & Hci & _).
    unfold basic_stats, Eff.bind, deref, Eff.lift, stats_of. rewrite Hd, Hst, Hci. simpl.
    eexists. split; reflexivity.
  - do 2 eexists. vm_compute. repeat split; reflexivity.
Qed.

Lemma basic_stats_total_entries_witness :
  let w := mkWorld {[ 1%positive := Dataset.scenario ]} ∅ [] in
  let self := mkAnalyzer "combined_sih_data.csv" 1 [] "results" in
  ∃ stats, basic_stats self w = (Py.Ok stats, w)
           ∧ dict_get "Total Entries" stats = Some (Count (U:=scalar) 3).
Proof.
  intros w self.
  apply (proj1 basic_stats_total_entries scalar _ w self Dataset.scenario).
  - reflexivity.
  - vm_compute. repeat constructor.
  - vm_compute. repeat constructor.
Defined.

(** C2. For every Dataset (a frame with the columns State and City in
    which no row misses either value) the per-State counts of
    [value_counts] add up to the number of rows, so do the per-City counts,
    and so do the cells of the State by City cross-tabulation. *)
Theorem frequency_counts_sum_to_len {U : Type} `{EqDecision U}
    (leb : U → U → bool) (d : DataFrame U) :
  Dataset.invariant d →
  ∃ st ci,
    getitem d "State" = Py.Ok st ∧ getitem d "City" = Py.Ok ci
    ∧ total (value_counts st) = len d
    ∧ total (value_counts ci) = len d
    ∧ grand_total (crosstab leb st ci) = len d.
Proof.
  intros (st & ci & Hgs & Hgc & HS & HC). exists st, ci.
  split; [done|]. split; [done|].
  apply getitem_length in Hgs as Hst. apply getitem_length in Hgc as Hci.
  rewrite !total_value_counts, !dropna_present, grand_total_crosstab by done.
  split_and!; [done..|].
  assert (Hlen : length ci = length st) by congruence.
  rewrite <- Hst. clear Hst Hci Hgs Hgc. unfold both.
  revert ci HC Hlen. induction HS as [|a st [x ->] _ IH]; intros ci HC Hlen.
  - by destruct ci.
  - destruct HC as [|b ci [y ->] HC]; [done|]. simpl in *.
    f_equal. apply IH; [done|lia].
Qed.

Lemma frequency_counts_sum_to_len_witness :
  ∃ st ci,
    getitem Dataset.scenario "State" = Py.Ok st
    ∧ getitem Dataset.scenario "City" = Py.Ok ci
    ∧ total (value_counts st) = 3
    ∧ total (value_counts ci) = 3
    ∧ grand_total (crosstab Scalar.leb st ci) = 3.
Proof.
  apply (frequency_counts_sum_to_len Scalar.leb Dataset.scenario).
  do 2 eexists. split; [reflexivity|]. split; [reflexivity|].
  split; repeat constructor; eexists; reflexivity.
Defined.

(** C3, as the code has it. For every series and every [n >= 0], the
    selection [value_counts().head(n)] used by [basic_stats] (n = 5),
    [plot_top_states], [plot_city_distribution] and the dashboard (n = 8)
    is an initial part of the full ranking, has [min n distinct] entries
    and is in descending order of count. *)
Theorem top_n_selection {U : Type} `{EqDecision U} (s : list (cell U)) (n : Z) :
  (0 ≤ n)%Z →
  let ranking := value_counts s in
  let sel := head n ranking in
  sel `prefix_of` ranking
  ∧ sel ⊆ ranking
  ∧ length sel = Z.to_nat n `min` nunique s
  ∧ StronglySorted count_ge sel.
Proof.
  intros Hn ranking sel. split_and!.
  - apply head_prefix.
  - intros x Hx. destruct (head_prefix n ranking) as [k Hk].
    rewrite Hk. apply elem_of_app. by left.
  - unfold sel. rewrite head_nonneg, length_take by done.
    unfold ranking. by rewrite length_value_counts.
  - apply head_sorted, sort_desc_sorted.
Qed.

Lemma top_n_selection_witness :
  let s := [Some (Str "MH"); Some (Str "DL"); Some (Str "MH")] in
  let sel := head 5 (value_counts s) in
  sel `prefix_of` value_counts s
  ∧ sel ⊆ value_counts s
  ∧ length sel = Z.to_nat 5 `min` nunique s
  ∧ StronglySorted count_ge sel.
Proof.
  intros s. apply (top_n_selection s 5). lia.
Defined.

(** C3 as stated fails for a negative [n]: [head(-1)] keeps all entries
    but the last, so the selection of two distinct States has one entry,
    not [min(-1, 2)]. *)
Lemma top_n_selection_negative_n :
  let s := [Some (Str "MH"); Some (Str "DL"); Some (Str "MH")] in
  head (-1) (value_counts s) = [(Str "MH", 2)]
  ∧ Z.of_nat (length (head (-1) (value_counts s)))
    ≠ ((-1) `min` Z.of_nat (nunique s))%Z.
Proof. split; [reflexivity|]. vm_compute. discriminate. Qed.

End basic_stats.

(** ** The Collector *)

Section collector.
Import Pandas Text Eff Scraper.
Context (net : string → response).

Lemma from_dict_two (k : list (string * string)) :
  from_dict [("State", Some <$> k.*1); ("City", Some <$> k.*2)]
  = Py.Ok (Dataset.to_frame k).
Proof.
  unfold from_dict, Dataset.to_frame.
  rewrite decide_True.
  2:{ repeat constructor; simpl; by rewrite !length_fmap. }
  f_equal. f_equal. simpl. rewrite !length_fmap.
  apply list_eq. intros i. rewrite !list_lookup_fmap.
  destruct (decide (i < length k)) as [Hi|Hi].
  - rewrite lookup_seq_lt by done. simpl.
    destruct (lookup_lt_is_Some_2 k i Hi) as [[a b] Hab]. rewrite Hab. simpl.
    unfold cell_at. rewrite !list_lookup_fmap, Hab. done.
  - rewrite lookup_seq_ge by lia. rewrite lookup_ge_None_2 by lia. done.
Qed.

Lemma extract_spec rows states cities w :
  ∃ w', extract rows states cities w
        = (Py.Ok (states ++ (omap cells_of rows).*1,
                  cities ++ (omap cells_of rows).*2), w')
        ∧ files w' = files w
        ∧ requests w' = requests w.
Proof.
  revert states cities w. induction rows as [|row rows IH]; intros states cities w.
  - exists w. simpl. rewrite !app_nil_r. done.
  - simpl. unfold cells_of.
    destruct (find "td" (eqb_str "column10 style2 s") row) as [st|];
      [destruct (find "td" (eqb_str "column9 style2 s") row) as [ci|]|].
    + destruct (IH (states ++ [strip (text st)]) (cities ++ [strip (text ci)]) w)
        as (w' & -> & Hf & Hp).
      exists w'. simpl. rewrite <- !app_assoc. done.
    + unfold bind, print, modify. simpl.
      destruct (IH states cities (mkWorld (files w)
        (stdout w ++ [Line "State or City not found in a row"]) (requests w)))
        as (w' & -> & Hf & Hp).
      by exists w'.
    + unfold bind, print, modify. simpl.
      destruct (IH states cities (mkWorld (files w)
        (stdout w ++ [Line "State or City not found in a row"]) (requests w)))
        as (w' & -> & Hf & Hp).
      by exists w'.
Qed.

(** One scrape issues one request and returns the fragment of its URL;
    it writes the two per-URL files exactly when there is a fragment. *)
Lemma scrape_spec url w :
  ∃ w', scrape_sih_data net url w = (Py.Ok (fragment net url), w')
        ∧ files w'
          = match fragment net url with
            | Some df => <["sih_data.json" := Json.to_json df]>
                           (<["sih_data.csv" := Csv.to_csv df]> (files w))
            | None => files w
            end
        ∧ requests w' = requests w ++ [url].
Proof.
  unfold scrape_sih_data, fragment, records, fetched, requests_get,
    raise_for_status.
  destruct (net url) as [msg|st soup]; simpl.
  - eexists. unfold except_request, bind, raise, print, ret, modify. simpl.
    done.
  - destruct (decide (400 ≤ st < 600)) as [Hst|Hst]; simpl.
    + eexists. unfold except_request, bind, raise, print, ret, modify. simpl.
      rewrite decide_True by done. done.
    + unfold except_request, bind at 1 2 3 4 5, ret at 1 2, print at 1 2, modify.
      simpl. rewrite decide_False by done.
      set (w1 := mkWorld _ _ _).
      destruct (extract_spec (find_all "tr" (startswith "row") soup) [] [] w1)
        as (w2 & Hex & Hf & Hr).
      unfold bind at 1. rewrite Hex. simpl.
      fold (kept soup). destruct (kept soup) as [|p k] eqn:Hk.
      * simpl. unfold bind, print, ret, modify. simpl. eexists.
        split_and!; [done|by rewrite Hf|by rewrite Hr].
      * rewrite <- Hk. clear Hex.
        assert (Hne : bool_decide ((kept soup).*1 = [])
                      || bool_decide ((kept soup).*2 = []) = false).
        { rewrite Hk. done. }
        rewrite Hne. unfold bind at 1, lift.
        rewrite from_dict_two. unfold bind, write_file, ret, modify. simpl.
        eexists. split_and!; [done|by rewrite Hf|by rewrite Hr].
Qed.

Lemma scrape_all_spec urls acc w :
  ∃ w', scrape_all net urls acc w
        = (Py.Ok (acc ++ omap (fragment net) urls), w')
        ∧ files w' = per_url_files (files w) (omap (fragment net) urls)
        ∧ requests w' = requests w ++ urls.
Proof.
  revert acc w. induction urls as [|url urls IH]; intros acc w.
  - exists w. simpl. rewrite !app_nil_r. done.
  - simpl. unfold bind at 1 2, print at 1, modify. simpl.
    set (w1 := mkWorld _ _ _).
    destruct (scrape_spec url w1) as (w2 & -> & Hf & Hr).
    destruct (fragment net url) as [df|].
    + destruct (IH (acc ++ [df]) w2) as (w3 & -> & Hf3 & Hr3).
      exists w3. simpl. rewrite <- app_assoc. split_and!; [done| |].
      * rewrite Hf3, Hf. done.
      * rewrite Hr3, Hr. simpl. by rewrite <- app_assoc.
    + destruct (IH acc w2) as (w3 & -> & Hf3 & Hr3).
      exists w3. simpl. split_and!; [done| |].
      * rewrite Hf3, Hf. done.
      * rewrite Hr3, Hr. simpl. by rewrite <- app_assoc.
Qed.

Lemma per_url_files_csv fs frags :
  per_url_files fs frags !! "sih_data.csv"
  = match last frags with
    | Some df => Some (Csv.to_csv df)
    | None => fs !! "sih_data.csv"
    end.
Proof.
  unfold per_url_files.
  induction frags as [|df frags IH] using rev_ind; [done|].
  rewrite foldl_app, last_snoc. simpl.
  rewrite lookup_insert_ne by done. by rewrite lookup_insert_eq.
Qed.

Lemma per_url_files_json fs frags :
  per_url_files fs frags !! "sih_data.json"
  = match last frags with
    | Some df => Some (Json.to_json df)
    | None => fs !! "sih_data.json"
    end.
Proof.
  unfold per_url_files.
  induction frags as [|df frags IH] using rev_ind; [done|].
  rewrite foldl_app, last_snoc. simpl. by rewrite lookup_insert_eq.
Qed.

Lemma per_url_files_other fs frags name :
  name ≠ "sih_data.csv" → name ≠ "sih_data.json" →
  per_url_files fs frags !! name = fs !! name.
Proof.
  intros H1 H2. unfold per_url_files.
  induction frags as [|df frags IH] using rev_ind; [done|].
  rewrite foldl_app. simpl. by rewrite !lookup_insert_ne.
Qed.

(** *** Concatenation of fragments *)

Lemma unique_two_columns (ks : list (list (string * string))) :
  ks ≠ [] →
  unique ((Dataset.to_frame <$> ks) ≫= columns) = ["State"; "City"].
Proof.
  destruct ks as [|k ks]; [done|]. intros _. unfold unique. simpl.
  induction ks as [|k' ks IH]; [done|]. simpl. exact IH.
Qed.

Lemma reindex_to_frame (k : list (string * string)) :
  reindex ["State"; "City"] (Dataset.to_frame k) = rows (Dataset.to_frame k).
Proof.
  unfold reindex, Dataset.to_frame. simpl. rewrite <- list_fmap_compose.
  apply list_fmap_ext. by intros i [a b].
Qed.

Lemma concat_frames (ks : list (list (string * string))) :
  ks ≠ [] →
  concat (Dataset.to_frame <$> ks) = Py.Ok (Dataset.to_frame (mjoin ks)).
Proof.
  intros Hne. unfold concat.
  destruct (Dataset.to_frame <$> ks) eqn:Hks; [by destruct ks|].
  rewrite <- Hks. clear Hks. rewrite unique_two_columns by done.
  f_equal. unfold Dataset.to_frame at 2. f_equal.
  clear Hne. induction ks as [|k ks IH]; [done|].
  rewrite fmap_cons, bind_cons, IH, reindex_to_frame. simpl.
  by rewrite fmap_app.
Qed.

(** The fragments of a run are the frames of the non-empty record lists. *)
Lemma fragments_frames (urls : list string) :
  omap (fragment net) urls
  = Dataset.to_frame <$> filter (fun k => k ≠ []) (records net <$> urls).
Proof.
  induction urls as [|url urls IH]; [done|].
  rewrite fmap_cons, filter_cons. cbn [omap list_omap]. unfold fragment at 1.
  destruct (records net url) as [|p k] eqn:Hk.
  - rewrite decide_False by auto. done.
  - rewrite decide_True by done. rewrite fmap_cons. by f_equal.
Qed.

Lemma mjoin_nonempty {A} (ks : list (list A)) :
  mjoin (filter (fun k => k ≠ []) ks) = mjoin ks.
Proof.
  induction ks as [|k ks IH]; [done|]. rewrite filter_cons.
  destruct k as [|a k].
  - rewrite decide_False by auto. done.
  - rewrite decide_True by done. simpl. by rewrite IH.
Qed.

(** The combined Dataset of a run: the records of all URLs in order. *)
Lemma combined_frame (urls : list string) :
  omap (fragment net) urls ≠ [] →
  concat (omap (fragment net) urls)
  = Py.Ok (Dataset.to_frame (urls ≫= records net)).
Proof.
  intros Hne. rewrite (fragments_frames urls) in Hne |- *.
  rewrite concat_frames by (intros Hnil; apply Hne; by rewrite Hnil).
  rewrite mjoin_nonempty. do 2 f_equal. clear Hne.
  induction urls as [|url urls' IH]; [done|].
  rewrite fmap_cons, bind_cons. simpl. by f_equal.
Qed.

Lemma main_with_spec (urls : list string) w :
  let frags := omap (fragment net) urls in
  let D := Dataset.to_frame (urls ≫= records net) in
  ∃ w', main_with net urls w = (Py.Ok (), w')
        ∧ requests w' = requests w ++ urls
        ∧ files w'
          = match frags with
            | [] => files w
            | _ => <["combined_sih_data.json" := Json.to_json D]>
                     (<["combined_sih_data.csv" := Csv.to_csv D]>
                        (per_url_files (files w) frags))
            end
        ∧ (frags = [] →
           last (stdout w') = Some (Line "No data scraped from any URL.")).
Proof.
  intros frags D. unfold main_with, bind at 1.
  destruct (scrape_all_spec urls [] w) as (w1 & -> & Hf & Hr). simpl.
  fold frags in Hf |- *.
  pose proof (combined_frame urls) as Hc. fold frags D in Hc.
  destruct frags as [|df frags'] eqn:Hfr.
  - unfold print, modify. simpl. eexists. split_and!; [done|done|done|].
    intros _. simpl. by rewrite last_snoc.
  - unfold bind at 1, lift. rewrite Hc by done.
    unfold bind, write_file, print, modify. simpl.
    eexists. split_and!; [done|done|by rewrite Hf|done].
Qed.

(** C6. Whatever the network answers, a run over any list of URLs ends
    without an exception and requests every URL once, in order; a URL
    whose request fails or whose page has no row with both cells
    contributes nothing, the others contribute their fragments. When no
    URL yields a fragment, no file is written and the last message is
    the "nothing scraped" one. *)
Theorem failures_are_contained (urls : list string) (w : world) :
  (∀ url w0, ∃ w1, scrape_sih_data net url w0 = (Py.Ok (fragment net url), w1)
                  ∧ (fetched net url = None → fragment net url = None ∧ files w1 = files w0)
                  ∧ (∀ soup, fetched net url = Some soup → kept soup = [] →
                     fragment net url = None ∧ files w1 = files w0))
  ∧ (∃ w1, scrape_all net urls [] w = (Py.Ok (omap (fragment net) urls), w1))
  ∧ (∃ w', main_with net urls w = (Py.Ok (), w')
           ∧ requests w' = requests w ++ urls
           ∧ (Forall (fun url => fragment net url = None) urls →
              files w' = files w
              ∧ last (stdout w') = Some (Line "No data scraped from any URL."))).
Proof.
  split_and!.
  - intros url w0. destruct (scrape_spec url w0) as (w1 & Hs & Hf & _).
    exists w1. split_and!; [done| |].
    + intros Hfe. assert (Hn : fragment net url = None).
      { unfold fragment, records. by rewrite Hfe. }
      rewrite Hn in Hf. done.
    + intros soup Hfe Hk. assert (Hn : fragment net url = None).
      { unfold fragment, records. by rewrite Hfe, Hk. }
      rewrite Hn in Hf. done.
  - destruct (scrape_all_spec urls [] w) as (w1 & Hs & _). by exists w1.
  - destruct (main_with_spec urls w) as (w' & Hm & Hr & Hf & Hl).
    exists w'. split_and!; [done|done|]. intros Hall.
    assert (Hnil : omap (fragment net) urls = []).
    { clear -Hall. induction Hall as [|url urls Hu _ IH]; [done|].
      simpl. by rewrite Hu. }
    rewrite Hnil in Hf. auto.
Qed.

Lemma frames_rows (urls : list string) :
  Dataset.to_frame (urls ≫= records net)
  = mkDF ["State"; "City"] (omap (fragment net) urls ≫= rows).
Proof.
  unfold Dataset.to_frame. f_equal.
  induction urls as [|url urls IH]; [done|].
  rewrite bind_cons, fmap_app, IH. cbn [omap list_omap]. unfold fragment at 2.
  destruct (records net url) as [|p k]; [done|].
  by rewrite bind_cons.
Qed.

(** C7, as the code has it. After a run, [sih_data.csv] and
    [sih_data.json] hold the fragment of the last URL that yielded one
    (every such URL overwrites them; they are untouched when there is
    none), and when some URL yielded a fragment the combined files hold
    all fragments appended in URL order. *)
Theorem per_url_files_overwritten (urls : list string) (w : world) :
  let frags := omap (fragment net) urls in
  let w' := (main_with net urls w).2 in
  let combined := mkDF ["State"; "City"] (frags ≫= rows) in
  files w' !! "sih_data.csv"
  = match last frags with
    | Some df => Some (Csv.to_csv df)
    | None => files w !! "sih_data.csv"
    end
  ∧ files w' !! "sih_data.json"
    = match last frags with
      | Some df => Some (Json.to_json df)
      | None => files w !! "sih_data.json"
      end
  ∧ (frags ≠ [] →
     files w' !! "combined_sih_data.csv" = Some (Csv.to_csv combined)
     ∧ files w' !! "combined_sih_data.json" = Some (Json.to_json combined)).
Proof.
  intros frags w' combined.
  destruct (main_with_spec urls w) as (w1 & Hm & _ & Hf & _).
  unfold w'. rewrite Hm. cbn [snd]. rewrite Hf. clear Hm Hf.
  rewrite frames_rows. fold frags combined.
  destruct frags as [|df frags'] eqn:Hfr.
  - split_and!; [done|done|]. by intros [].
  - rewrite <- Hfr. split_and!.
    + rewrite !lookup_insert_ne by done. apply per_url_files_csv.
    + rewrite !lookup_insert_ne by done. apply per_url_files_json.
    + intros _. split.
      * rewrite lookup_insert_ne by done. by rewrite lookup_insert_eq.
      * by rewrite lookup_insert_eq.
Qed.

Lemma omap_nil_Forall {A B} (f : A → option B) (l : list A) :
  omap f l = [] ↔ Forall (fun x => f x = None) l.
Proof.
  induction l as [|x l IH]; simpl.
  - split; [constructor|done].
  - destruct (f x) eqn:Hx.
    + split; [done|]. intros Hall. apply Forall_cons in Hall as [Hc _]. congruence.
    + rewrite IH. split; [by constructor|]. by intros [_ ?]%Forall_cons.
Qed.

(** C10. Whatever the network answers, [scrape_sih_data] returns
    normally. It returns [None] exactly when the request fails or no
    selected row has both cells; otherwise it returns the frame with the
    columns State and City, in that order, and one row per selected row
    that has both cells, holding their stripped texts: both columns have
    the length of that row list and no cell is missing. *)
Theorem scrape_returns_records (url : string) (w : world) :
  ∃ o w',
    scrape_sih_data net url w = (Py.Ok o, w')
    ∧ (o = None ↔
         fetched net url = None
         ∨ ∃ soup, fetched net url = Some soup
                   ∧ Forall (fun row => cells_of row = None)
                            (find_all "tr" (startswith "row") soup))
    ∧ (∀ df, o = Some df →
         ∃ soup recs,
           fetched net url = Some soup
           ∧ recs = omap cells_of (find_all "tr" (startswith "row") soup)
           ∧ columns df = ["State"; "City"]
           ∧ rows df = (fun p => [Some p.1; Some p.2]) <$> recs
           ∧ getitem df "State" = Py.Ok (Some <$> recs.*1)
           ∧ getitem df "City" = Py.Ok (Some <$> recs.*2)
           ∧ length recs.*1 = length recs.*2).
Proof.
  destruct (scrape_spec url w) as (w' & Hs & _).
  exists (fragment net url), w'. split; [done|]. clear Hs.
  unfold fragment, records.
  destruct (fetched net url) as [soup|] eqn:Hfe.
  - unfold kept.
    pose proof (omap_nil_Forall cells_of (find_all "tr" (startswith "row") soup))
      as Hnil.
    destruct (omap cells_of (find_all "tr" (startswith "row") soup))
      as [|p k] eqn:Hk.
    + split.
      * split; [|done]. intros _. right. exists soup. split; [done|].
        by apply Hnil.
      * by intros df.
    + split.
      * split; [done|]. intros [?|(soup' & [= <-] & Hall)]; [done|].
        by apply Hnil in Hall.
      * intros df [= <-]. exists soup, (p :: k).
        split_and!; try done.
        -- unfold getitem, Dataset.to_frame. cbn [columns rows index_of].
           rewrite decide_True by done. f_equal.
           rewrite <- !list_fmap_compose. by apply list_fmap_ext.
        -- unfold getitem, Dataset.to_frame. cbn [columns rows index_of].
           rewrite decide_False, decide_True by done. cbn [fmap option_fmap option_map].
           f_equal. rewrite <- !list_fmap_compose. by apply list_fmap_ext.
        -- by rewrite !length_fmap.
  - split; [split; auto|]. by intros df.
Qed.

End collector.

(** C6 on a run over two failing URLs: it ends normally, writes nothing
    and reports that nothing was scraped. *)
Lemma failures_are_contained_witness :
  ∃ w', Scraper.main_with Scraper.example_net ["b"; "c"] Scraper.empty_world
        = (Py.Ok (), w')
        ∧ Scraper.files w' = ∅
        ∧ last (Scraper.stdout w')
          = Some (Scraper.Line "No data scraped from any URL.").
Proof.
  destruct (failures_are_contained Scraper.example_net ["b"; "c"]
              Scraper.empty_world) as (_ & _ & w' & Hm & _ & Hall).
  exists w'. split; [exact Hm|]. apply Hall.
  repeat constructor.
Defined.

Lemma per_url_files_overwritten_witness :
  let w' := (Scraper.main_with Scraper.example_net ["a"; "b"]
               Scraper.empty_world).2 in
  Scraper.files w' !! "combined_sih_data.csv"
  = Some (Csv.to_csv (Dataset.to_frame [("MH", "Mumbai")])).
Proof.
  intros w'.
  apply (per_url_files_overwritten Scraper.example_net ["a"; "b"]
           Scraper.empty_world).
  vm_compute. discriminate.
Defined.

(** C7 as stated fails when the last URL yields no fragment: after the run
    over ["a"; "b"] the per-URL file holds the fragment of ["a"], while the
    last URL, ["b"], has no records at all. *)
Lemma per_url_files_not_last_url :
  let w' := (Scraper.main_with Scraper.example_net ["a"; "b"]
               Scraper.empty_world).2 in
  last ["a"; "b"] = Some "b"
  ∧ Scraper.records Scraper.example_net "b" = []
  ∧ Scraper.files w' !! "sih_data.csv"
    = Some (Csv.to_csv (Dataset.to_frame [("MH", "Mumbai")]))
  ∧ Scraper.files w' !! "sih_data.csv"
    ≠ Some (Csv.to_csv (Dataset.to_frame (Scraper.records Scraper.example_net "b")))
  ∧ Scraper.files w' !! "sih_data.csv"
    ≠ Csv.to_csv <$> Scraper.fragment Scraper.example_net "b".
Proof. vm_compute. split_and!; try reflexivity; discriminate. Qed.

(** ** The Reporter *)

Section reporter.
Import Pandas Eff Analysis.
Context {U : Type} `{EqDecision U}.
Context (leb : U → U → bool) (int : nat → U).
Context (read_csv read_json : string → Py.result (DataFrame U)).

Local Abbreviation world := (world (U:=U)).
Local Abbreviation M := (Eff.M world).

Lemma keeps_ret {A} (a : A) : keeps_heap (U:=U) (ret a).
Proof. done. Qed.

Lemma keeps_raise {A} e : keeps_heap (U:=U) (raise (A:=A) e).
Proof. done. Qed.

Lemma keeps_lift {A} (r : Py.result A) : keeps_heap (U:=U) (lift r).
Proof. done. Qed.

Lemma keeps_emit e : keeps_heap (U:=U) (emit e).
Proof. done. Qed.

Lemma keeps_deref l : keeps_heap (U:=U) (deref l).
Proof. intros w. unfold deref. by destruct (heap w !! l). Qed.

Lemma keeps_read_file path : keeps_heap (U:=U) (read_file path).
Proof. intros w. unfold read_file. by destruct (disk w !! path). Qed.

Lemma keeps_bind {A B} (m : M A) (k : A → M B) :
  keeps_heap m → (∀ a, keeps_heap (U:=U) (k a)) → keeps_heap (U:=U) (bind m k).
Proof.
  intros Hm Hk w. unfold bind. specialize (Hm w).
  destruct (m w) as [[a|e] w1]; simpl in *; [|done].
  by rewrite Hk.
Qed.

Lemma keeps_emit_all es : keeps_heap (U:=U) (emit_all es).
Proof.
  induction es as [|e es IH]; simpl; [apply keeps_ret|].
  apply keeps_bind; [apply keeps_emit|done].
Qed.

Lemma keeps_save_and_show save path what : keeps_heap (U:=U) (save_and_show save path what).
Proof.
  unfold save_and_show. apply keeps_bind; [|intros; apply keeps_emit].
  destruct save; [|apply keeps_ret].
  apply keeps_bind; intros; apply keeps_emit.
Qed.

Create HintDb keeps.
Hint Resolve keeps_ret keeps_raise keeps_lift keeps_emit keeps_deref
  keeps_read_file keeps_emit_all keeps_save_and_show : keeps.

Ltac keeps :=
  repeat first
    [ progress (auto with keeps)
    | apply keeps_bind; [|intros ?] ].

(** A bar chart allocates its table, renames the columns of that new
    table, and reads the loaded frame only. *)
Lemma counts_chart_frame (self : SIHAnalyzer) (col name : string) (n : Z)
    (k : positive → M ()) (w : world) :
  (∀ l, keeps_heap (U:=U) (k l)) →
  heap ((d <- deref (df self) ;;
         c <- lift (getitem d col) ;;
         data <- alloc (reset_index int col (head n (value_counts c))) ;;
         set_columns data [name; "Count"] ;;;
         k data) w).2 !! df self
  = heap w !! df self.
Proof.
  intros Hk. unfold bind at 1, deref.
  destruct (heap w !! df self) as [d|] eqn:Hd; [|done].
  unfold bind at 1, lift. destruct (getitem d col) as [c|e]; [|done].
  unfold bind at 1, alloc. cbn [fst snd].
  set (l := fresh (dom (heap w))).
  assert (Hl : l ≠ df self).
  { intros Heq. apply (is_fresh (dom (heap w))). fold l. rewrite Heq.
    apply elem_of_dom. by eexists. }
  unfold bind at 1, set_columns. cbn [heap disk log].
  rewrite lookup_insert_eq. cbn [columns rows reset_index length].
  rewrite decide_True by done.
  rewrite Hk. cbn [heap]. by rewrite !lookup_insert_ne.
Qed.

(** C9. Each operation of the analyzer leaves the frame stored at
    [self.df] as it was: counts, selections and cross-tabulations are new
    values, and the only in-place update ([data.columns = ...]) is on the
    table the chart has just allocated. *)
Theorem operations_leave_df_unchanged (self : SIHAnalyzer) (w : world)
    (n top_n top_states top_cities : Z) (save : bool) :
  heap (basic_stats self w).2 !! df self = heap w !! df self
  ∧ heap (plot_top_states int self n save w).2 !! df self = heap w !! df self
  ∧ heap (plot_city_distribution int self top_n save w).2 !! df self
    = heap w !! df self
  ∧ heap (state_city_heatmap leb self top_states top_cities save w).2 !! df self
    = heap w !! df self
  ∧ heap (create_summary_dashboard leb self save w).2 !! df self
    = heap w !! df self.
Proof.
  split_and!.
  - f_equal. revert w. change (keeps_heap (U:=U) (basic_stats self)).
    unfold basic_stats. keeps.
  - unfold plot_top_states. apply counts_chart_frame. intros l. keeps.
  - unfold plot_city_distribution. apply counts_chart_frame. intros l. keeps.
  - f_equal. revert w.
    change (keeps_heap (U:=U) (state_city_heatmap leb self top_states top_cities save)).
    unfold state_city_heatmap. keeps.
  - f_equal. revert w. change (keeps_heap (U:=U) (create_summary_dashboard leb self save)).
    unfold create_summary_dashboard. keeps.
Qed.

(** C5. [load_data] chooses by the suffix of the path. With ".csv" the
    file is opened and its text goes to the CSV reader, with ".json" to
    the JSON reader; the result is that reader's frame, newly stored, or
    its error. With any other suffix a [ValueError] is raised at once:
    the world is unchanged, so no file was opened. *)
Theorem load_data_by_suffix (path : string) (w : world) :
  let opened := mkWorld (heap w) (disk w) (log w ++ [open_file path]) in
  let l := fresh (dom (heap w)) in
  let loaded (reader : string → Py.result (DataFrame U)) :=
    match disk w !! path with
    | None => (Py.Raise (Py.FileNotFoundError path), opened)
    | Some s =>
        match reader s with
        | Py.Ok d =>
            (Py.Ok l, mkWorld (<[l := d]> (heap w)) (disk w) (log opened))
        | Py.Raise e => (Py.Raise e, opened)
        end
    end in
  (Pathlib.suffix path = ".csv" →
     load_data read_csv read_json path w = loaded read_csv)
  ∧ (Pathlib.suffix path = ".json" →
     load_data read_csv read_json path w = loaded read_json)
  ∧ (Pathlib.suffix path ≠ ".csv" → Pathlib.suffix path ≠ ".json" →
     load_data read_csv read_json path w
     = (Py.Raise (Py.ValueError "Unsupported file format. Use CSV or JSON."), w)).
Proof.
  intros opened l loaded. unfold load_data, loaded. split_and!.
  - intros ->. rewrite decide_True by done.
    unfold bind, read_file, lift, alloc.
    destruct (disk w !! path) as [s|]; [|done]. cbn [disk heap log].
    by destruct (read_csv s).
  - intros Hs. rewrite Hs. rewrite decide_False, decide_True by done.
    unfold bind, read_file, lift, alloc.
    destruct (disk w !! path) as [s|]; [|done]. cbn [disk heap log].
    by destruct (read_json s).
  - intros H1 H2. by rewrite !decide_False.
Qed.

End reporter.

Lemma load_data_by_suffix_witness :
  let w := Analysis.mkWorld (U:=scalar) ∅ {[ "notes.txt" := "State,City" ]} [] in
  Analysis.load_data Csv.read_csv Json.read_json "notes.txt" w
  = (Py.Raise (Py.ValueError "Unsupported file format. Use CSV or JSON."), w).
Proof.
  intros w.
  apply (load_data_by_suffix Csv.read_csv Json.read_json "notes.txt" w).
  - vm_compute. discriminate.
  - vm_compute. discriminate.
Defined.

(** ** CSV round trip *)

Section csv_round_trip.
Import Pandas Text Csv.

Lemma str_app_cons (c : ascii) (s t : string) :
  String c s +:+ t = String c (s +:+ t).
Proof. done. Qed.

Lemma str_app_nil_r (s : string) : s +:+ "" = s.
Proof. induction s as [|c s IH]; [done|]. by rewrite str_app_cons, IH. Qed.

Lemma str_app_assoc (s t u : string) : (s +:+ t) +:+ u = s +:+ (t +:+ u).
Proof. induction s as [|c s IH]; [done|]. by rewrite !str_app_cons, IH. Qed.

Lemma snoc_app (g : string) (c : ascii) (f : string) :
  snoc g c +:+ f = g +:+ String c f.
Proof. unfold snoc. by rewrite str_app_assoc. Qed.

Lemma run_app (t : tok) (s1 s2 : string) :
  run t (s1 +:+ s2) = run (run t s1) s2.
Proof.
  revert t. induction s1 as [|c s1 IH]; intros t; [done|].
  rewrite str_app_cons. cbn [run]. apply IH.
Qed.

Lemma breaks_false (c : ascii) :
  breaks c = false → c ≠ comma ∧ c ≠ dquote ∧ c ≠ LF ∧ c ≠ CR.
Proof.
  unfold breaks, special, is_cr.
  rewrite !orb_false_iff, !bool_decide_eq_false. tauto.
Qed.

Lemma existsb_breaks (f : string) :
  existsb special f = false → existsb is_cr f = false →
  existsb breaks f = false.
Proof.
  induction f as [|c f IH]; [done|]. cbn [existsb].
  rewrite !orb_false_iff. intros [H1 H2] [H3 H4]. unfold breaks at 1.
  rewrite H1, H3. auto.
Qed.

Lemma in_field_plain (c : ascii) (t : tok) :
  breaks c = false → in_field c t = push c IN_FIELD t.
Proof.
  intros (? & ? & ? & ?)%breaks_false. unfold in_field.
  by rewrite !decide_False.
Qed.

(** Inside an unquoted field, plain characters accumulate. *)
Lemma run_in_field (f g : string) r ls (rest : string) :
  existsb breaks f = false →
  run (mkTok IN_FIELD g r ls) (f +:+ rest)
  = run (mkTok IN_FIELD (g +:+ f) r ls) rest.
Proof.
  revert g. induction f as [|c f IH]; intros g Hf.
  - by rewrite str_app_nil_r.
  - cbn in Hf. apply orb_false_iff in Hf as [Hc Hf].
    rewrite str_app_cons. cbn [run]. unfold step. cbn [state].
    rewrite in_field_plain by done. unfold push. cbn [field record lines].
    rewrite IH by done. by rewrite snoc_app.
Qed.

(** Inside a quoted field, the escaped text accumulates unescaped. *)
Lemma run_in_quoted (f g : string) r ls (rest : string) :
  run (mkTok IN_QUOTED_FIELD g r ls) (Csv.escape f +:+ rest)
  = run (mkTok IN_QUOTED_FIELD (g +:+ f) r ls) rest.
Proof.
  revert g. induction f as [|c f IH]; intros g.
  - by rewrite str_app_nil_r.
  - cbn [Csv.escape]. destruct (decide (c = dquote)) as [->|Hc].
    + rewrite !str_app_cons. cbn [run]. unfold step at 2. cbn [state].
      rewrite decide_True by done. unfold goto. cbn [field record lines].
      unfold step. cbn [state]. rewrite decide_True by done.
      unfold push. cbn [field record lines]. rewrite IH. by rewrite snoc_app.
    + rewrite str_app_cons. cbn [run]. unfold step. cbn [state].
      rewrite decide_False by done.
      unfold push. cbn [field record lines]. rewrite IH. by rewrite snoc_app.
Qed.

Lemma run_in_field_comma (f g : string) r ls (rest : string) :
  existsb breaks f = false →
  run (mkTok IN_FIELD g r ls) (f +:+ String comma rest)
  = run (mkTok START_FIELD "" (r ++ [g +:+ f]) ls) rest.
Proof. intros Hf. by rewrite run_in_field. Qed.

Lemma run_in_field_LF (f g : string) r ls (rest : string) :
  existsb breaks f = false →
  run (mkTok IN_FIELD g r ls) (f +:+ String LF rest)
  = run (mkTok START_RECORD "" [] (ls ++ [r ++ [g +:+ f]])) rest.
Proof. intros Hf. by rewrite run_in_field. Qed.

(** A record that starts with blanks is kept once a field follows. *)
Lemma run_whitespace_line (f g : string) r ls (rest : string) :
  existsb breaks f = false →
  run (mkTok WHITESPACE_LINE g r ls) (f +:+ String comma rest)
  = run (mkTok START_FIELD "" (r ++ [g +:+ f]) ls) rest.
Proof.
  revert g. induction f as [|c f IH]; intros g Hf.
  - by rewrite str_app_nil_r.
  - cbn in Hf. apply orb_false_iff in Hf as [Hc Hf].
    pose proof (breaks_false c Hc) as (? & ? & ? & ?).
    rewrite str_app_cons. cbn [run]. unfold step. cbn [state].
    rewrite !decide_False by done.
    destruct (decide (c = SP ∨ c = TAB)).
    + unfold push. cbn [field record lines]. rewrite IH by done.
      by rewrite snoc_app.
    + rewrite in_field_plain by done. unfold push. cbn [field record lines].
      rewrite run_in_field_comma by done. by rewrite snoc_app.
Qed.

(** The first field of a record, written and read back. *)
Lemma run_first_field (f : string) ls (rest : string) :
  existsb is_cr f = false →
  run (mkTok START_RECORD "" [] ls) (quote_field f +:+ String comma rest)
  = run (mkTok START_FIELD "" [f] ls) rest.
Proof.
  intros Hcr. unfold quote_field. destruct (existsb special f) eqn:Hsp.
  - rewrite !str_app_cons, str_app_assoc. cbn [run].
    change (step (mkTok START_RECORD "" [] ls) dquote)
      with (mkTok IN_QUOTED_FIELD "" [] ls).
    rewrite run_in_quoted. done.
  - pose proof (existsb_breaks f Hsp Hcr) as Hf.
    destruct f as [|c f]; [done|].
    cbn in Hf. apply orb_false_iff in Hf as [Hc Hf].
    pose proof (breaks_false c Hc) as (? & ? & ? & ?).
    rewrite str_app_cons. cbn [run]. unfold step. cbn [state].
    unfold start_record. rewrite !decide_False by done.
    destruct (decide (c = SP ∨ c = TAB)).
    + unfold push. cbn [field record lines].
      by rewrite run_whitespace_line.
    + unfold start_field. rewrite decide_False by done.
      rewrite in_field_plain by done. unfold push. cbn [field record lines].
      by rewrite run_in_field_comma.
Qed.

(** The last field of a record, written and read back. *)
Lemma run_last_field (f : string) r ls (rest : string) :
  existsb is_cr f = false →
  run (mkTok START_FIELD "" r ls) (quote_field f +:+ String LF rest)
  = run (mkTok START_RECORD "" [] (ls ++ [r ++ [f]])) rest.
Proof.
  intros Hcr. unfold quote_field. destruct (existsb special f) eqn:Hsp.
  - rewrite !str_app_cons, str_app_assoc. cbn [run].
    change (step (mkTok START_FIELD "" r ls) dquote)
      with (mkTok IN_QUOTED_FIELD "" r ls).
    rewrite run_in_quoted. done.
  - pose proof (existsb_breaks f Hsp Hcr) as Hf.
    destruct f as [|c f]; [done|].
    cbn in Hf. apply orb_false_iff in Hf as [Hc Hf].
    pose proof (breaks_false c Hc) as (? & ? & ? & ?).
    rewrite str_app_cons. cbn [run]. unfold step. cbn [state].
    unfold start_field. rewrite decide_False by done.
    rewrite in_field_plain by done. unfold push. cbn [field record lines].
    by rewrite run_in_field_LF.
Qed.

(** A record of two fields, written and read back. *)
Lemma run_row (a b : string) ls (rest : string) :
  existsb is_cr a = false → existsb is_cr b = false →
  run (mkTok START_RECORD "" [] ls) (write_row [a; b] +:+ rest)
  = run (mkTok START_RECORD "" [] (ls ++ [[a; b]])) rest.
Proof.
  intros Ha Hb. unfold write_row. rewrite decide_False by done.
  unfold join. cbn [fmap list_fmap String.concat].
  rewrite !str_app_assoc, !str_app_cons.
  change ("" +:+ ?x) with x.
  rewrite run_first_field by done.
  change (String LF "" +:+ rest) with (String LF rest).
  by rewrite run_last_field.
Qed.

Lemma concat_cons (x : string) (xs : list string) :
  String.concat "" (x :: xs) = x +:+ String.concat "" xs.
Proof. destruct xs; [by rewrite str_app_nil_r|done]. Qed.

(** The tokens of a written Dataset are its header and its records,
    whatever the cells hold but a carriage return outside quotes. *)
Lemma tokenize_to_csv (D : Dataset.Dataset) :
  Forall (fun r => existsb is_cr r.1 = false ∧ existsb is_cr r.2 = false) D →
  tokenize (to_csv (Dataset.to_frame D))
  = Py.Ok (["State"; "City"] :: ((fun r => [r.1; r.2]) <$> D)).
Proof.
  intros HD. unfold tokenize, to_csv, Dataset.to_frame. cbn [columns rows].
  rewrite run_row by done. rewrite <- list_fmap_compose.
  enough (Hg : ∀ ls,
    run (mkTok START_RECORD "" [] ls)
      (String.concat ""
         ((fun r : list (option string) => write_row (format_cell <$> r))
            ∘ (fun r : string * string => [Some r.1; Some r.2]) <$> D))
    = mkTok START_RECORD "" [] (ls ++ ((fun r => [r.1; r.2]) <$> D))).
  { rewrite Hg. done. }
  induction HD as [|[a b] D [Ha Hb] _ IH]; intros ls.
  - by rewrite app_nil_r.
  - rewrite fmap_cons, concat_cons. cbn [compose fmap list_fmap format_cell default fst snd].
    rewrite run_row, IH, <- app_assoc by done. done.
Qed.

Lemma convert_text (f : string) :
  is_na f = false → convert as_object f = Some (Str f).
Proof. intros Hf. unfold convert. by rewrite Hf. Qed.

(** Reading back a written Dataset whose two columns are kept as text
    gives the same frame. *)
Lemma read_csv_to_csv (D : Dataset.Dataset) :
  keeps_text D.*1 → keeps_text D.*2 →
  read_csv (to_csv (Dataset.to_frame D))
  = Py.Ok (Dataset.as_loaded (Dataset.to_frame D)).
Proof.
  intros [Hna1 Hty1] [Hna2 Hty2].
  assert (Hcells : Forall (fun r : string * string =>
            (is_na r.1 = false ∧ existsb is_cr r.1 = false)
            ∧ (is_na r.2 = false ∧ existsb is_cr r.2 = false)) D).
  { apply Forall_forall. intros r Hr. split.
    - eapply (proj1 (Forall_forall _ _) Hna1), (list_elem_of_fmap_2' fst); eauto.
    - eapply (proj1 (Forall_forall _ _) Hna2), (list_elem_of_fmap_2' snd); eauto. }
  unfold read_csv. rewrite tokenize_to_csv.
  2:{ eapply Forall_impl; [exact Hcells|]. intros r [[_ ?] [_ ?]]. done. }
  cbn [Py.bind].
  set (data := (fun r : string * string => [r.1; r.2]) <$> D).
  assert (Hw : length ["State"; "City"]
               `max` from_option length (length ["State"; "City"]) (data !! 0) = 2).
  { unfold data. by destruct D. }
  rewrite Hw. cbn [length]. rewrite Nat.sub_diag.
  rewrite bool_decide_eq_true_2.
  2:{ unfold data. apply Forall_fmap, Forall_true. intros [a b]. simpl. lia. }
  assert (Hbody : (fun r => drop 0 (pad 2 r)) <$> data = data).
  { unfold data. rewrite <- list_fmap_compose. apply list_fmap_ext.
    intros i [a b] _. done. }
  rewrite Hbody. cbn [seq fmap list_fmap].
  assert (Hc0 : (fun r : list string => default "" (r !! 0)) <$> data = D.*1).
  { unfold data. rewrite <- list_fmap_compose. apply list_fmap_ext.
    by intros i [a b] _. }
  assert (Hc1 : (fun r : list string => default "" (r !! 1)) <$> data = D.*2).
  { unfold data. rewrite <- list_fmap_compose. apply list_fmap_ext.
    by intros i [a b] _. }
  rewrite Hc0, Hc1. f_equal. unfold Dataset.as_loaded, Dataset.to_frame.
  cbn [columns rows]. f_equal. unfold data. rewrite <- !list_fmap_compose.
  destruct D as [|p D]; [done|].
  destruct Hty1 as [? | ->]; [done|]. destruct Hty2 as [? | ->]; [done|].
  apply list_fmap_ext. intros i [a b] Hi. cbn.
  apply list_elem_of_lookup_2 in Hi.
  pose proof (proj1 (Forall_forall _ _) Hcells _ Hi) as [[Ha _] [Hb _]].
  cbn [fst snd] in Ha, Hb.
  by rewrite !convert_text.
Qed.

End csv_round_trip.

(** ** JSON round trip *)

Section json_round_trip.
Import Pandas Text Json.

Lemma parse_chars_escape_char (c : ascii) (r : string) :
  parse_chars (escape_char c +:+ r)
  = '(t, rest) ← parse_chars r ; Some (String c t, rest).
Proof.
  destruct c as [[] [] [] [] [] [] [] []]; reflexivity.
Qed.

(** An escaped text is read back up to its closing quote. *)
Lemma parse_chars_escape (s rest : string) :
  parse_chars (Json.escape s +:+ String dquote rest) = Some (s, rest).
Proof.
  induction s as [|c s IH]; [done|].
  cbn [Json.escape]. rewrite str_app_assoc, parse_chars_escape_char, IH. done.
Qed.

Lemma record_text_eq (r : string * string) (rest : string) :
  record_text r +:+ rest
  = String "{" (String dquote (Json.escape "State" +:+ String dquote (String ":"
      (String dquote (Json.escape r.1 +:+ String dquote (String ","
      (String dquote (Json.escape "City" +:+ String dquote (String ":"
      (String dquote (Json.escape r.2 +:+ String dquote (String "}" rest)))))))))))).
Proof.
  unfold record_text, write_record, quoted, write_cell, join.
  cbn [zip_with String.concat].
  repeat (rewrite ?str_app_assoc, ?str_app_cons; change ("" +:+ ?x) with x).
  unfold quoted.
  repeat (rewrite ?str_app_assoc, ?str_app_cons; change ("" +:+ ?x) with x).
  done.
Qed.

Lemma parse_value_string (fuel : nat) (a rest : string) :
  parse_value (S fuel) (String dquote (Json.escape a +:+ String dquote rest))
  = Some (JString a, rest).
Proof.
  change (parse_value (S fuel) (String dquote ?x))
    with ('(t, rest) ← parse_chars x ; Some (JString t, rest)).
  by rewrite parse_chars_escape.
Qed.

(** A member whose value is a text, followed by [stop]. *)
Lemma parse_member (fuel : nat) (k a : string) (stop : ascii) (rest : string) :
  parse_members (S (S fuel))
    (String dquote (Json.escape k +:+ String dquote (String ":"
       (String dquote (Json.escape a +:+ String dquote (String stop rest))))))
  = if decide (stop = ","%char) then
      '(ms, rest') ← parse_members (S fuel) rest ;
      Some ((k, JString a) :: ms, rest')
    else if decide (stop = "}"%char) then Some ([(k, JString a)], rest)
    else if is_ws stop then
      match skip_ws rest with
      | String c3 r4 =>
          if decide (c3 = ","%char) then
            '(ms, rest') ← parse_members (S fuel) r4 ;
            Some ((k, JString a) :: ms, rest')
          else if decide (c3 = "}"%char) then Some ([(k, JString a)], r4)
          else None
      | EmptyString => None
      end
    else None.
Proof.
  change (parse_members (S (S fuel)) (String dquote ?x))
    with ('(k, r1) ← parse_chars x ;
          match skip_ws r1 with
          | String c1 r2 =>
              if decide (c1 = ":"%char) then
                '(v, r3) ← parse_value (S fuel) r2 ;
                match skip_ws r3 with
                | String c3 r4 =>
                    if decide (c3 = ","%char) then
                      '(ms, rest) ← parse_members (S fuel) r4 ;
                      Some ((k, v) :: ms, rest)
                    else if decide (c3 = "}"%char) then Some ([(k, v)], r4)
                    else None
                | EmptyString => None
                end
              else None
          | EmptyString => None
          end).
  rewrite parse_chars_escape. cbn [mbind option_bind].
  change (skip_ws (String ":" ?x)) with (String ":" x). cbv beta iota.
  rewrite decide_True by done.
  rewrite parse_value_string. cbn [mbind option_bind].
  unfold skip_ws at 1. cbn [lstrip]. fold skip_ws.
  destruct (decide (stop = ","%char)) as [->|H1]; [done|].
  destruct (decide (stop = "}"%char)) as [->|H2]; [done|].
  destruct (is_ws stop) eqn:Hws; [done|].
  by rewrite !decide_False.
Qed.

Lemma parse_value_record (r : string * string) (rest : string) (fuel : nat) :
  parse_value (4 + fuel) (record_text r +:+ rest) = Some (record_doc r, rest).
Proof.
  rewrite record_text_eq.
  change (parse_value (4 + fuel) (String "{" (String dquote ?x)))
    with ('(ms, rest) ← parse_members (3 + fuel) (String dquote x) ;
          Some (JObject ms, rest)).
  change (3 + fuel) with (S (S (S fuel))).
  rewrite parse_member. rewrite decide_True by done.
  rewrite parse_member. rewrite decide_False, decide_True by done.
  done.
Qed.

(** The elements of a written array of records, read back. *)
Lemma parse_elements_records (D : Dataset.Dataset) (rest : string) (fuel : nat) :
  D ≠ [] → length D + 4 ≤ fuel →
  parse_elements fuel (records_text D +:+ String "]" rest)
  = Some (record_doc <$> D, rest).
Proof.
  revert fuel. induction D as [|p D IH]; intros fuel Hne Hfuel; [done|].
  destruct fuel as [|fuel]; [simpl in Hfuel; lia|].
  change (parse_elements (S fuel) ?s)
    with ('(v, r) ← parse_value fuel s ;
          match skip_ws r with
          | String c r' =>
              if decide (c = ","%char) then
                '(vs, rest) ← parse_elements fuel r' ; Some (v :: vs, rest)
              else if decide (c = "]"%char) then Some ([v], r')
              else None
          | EmptyString => None
          end).
  assert (Hf : ∃ n, fuel = 4 + n) by (exists (fuel - 4); simpl in Hfuel; lia).
  destruct Hf as [n ->].
  destruct D as [|q D].
  - unfold records_text, join. cbn [fmap list_fmap String.concat].
    rewrite parse_value_record. done.
  - unfold records_text, join. cbn [fmap list_fmap String.concat].
    rewrite str_app_assoc, parse_value_record. cbn [mbind option_bind].
    rewrite str_app_assoc, str_app_cons.
    change (skip_ws (String "," ?x)) with (String "," x). cbv beta iota.
    rewrite decide_True by done.
    change ("" +:+ ?x) with x.
    unfold records_text, join in IH. cbn [fmap list_fmap] in IH.
    rewrite IH; [done|done|]. simpl in *. lia.
Qed.

Lemma str_length_app (a b : string) :
  String.length (a +:+ b) = String.length a + String.length b.
Proof.
  induction a as [|c a IH]; [done|]. rewrite str_app_cons. simpl. by rewrite IH.
Qed.

Lemma records_text_head (D : Dataset.Dataset) (rest : string) :
  D ≠ [] → ∃ x, records_text D +:+ rest = String "{" x.
Proof.
  destruct D as [|p D]; [done|]. intros _.
  unfold records_text, join.
  destruct D as [|q D]; cbn [fmap list_fmap String.concat].
  - rewrite record_text_eq. by eexists.
  - rewrite str_app_assoc, record_text_eq. by eexists.
Qed.

Lemma records_text_length (D : Dataset.Dataset) :
  length D ≤ String.length (records_text D).
Proof.
  induction D as [|p D IH]; [simpl; lia|].
  assert (Hp : 1 ≤ String.length (record_text p)).
  { pose proof (record_text_eq p "") as Hp. rewrite str_app_nil_r in Hp.
    rewrite Hp. simpl. lia. }
  unfold records_text, join in *.
  destruct D as [|q D]; cbn [fmap list_fmap String.concat]; [simpl; lia|].
  rewrite !str_length_app. cbn [fmap list_fmap] in IH. simpl in *. lia.
Qed.

Lemma to_json_records (D : Dataset.Dataset) :
  to_json (Dataset.to_frame D) = String "[" (records_text D +:+ "]").
Proof.
  unfold to_json, Dataset.to_frame, records_text. cbn [columns rows].
  rewrite <- list_fmap_compose. done.
Qed.

(** The document read from a written Dataset is the array of its
    records. *)
Lemma loads_to_json (D : Dataset.Dataset) :
  loads (to_json (Dataset.to_frame D)) = Some (JArray (record_doc <$> D)).
Proof.
  rewrite to_json_records. destruct D as [|p D]; [done|].
  set (E := p :: D). unfold loads.
  set (fuel := 2 * String.length (String "[" (records_text E +:+ "]")) + 1).
  replace (2 * String.length (String "[" (records_text E +:+ "]")) + 2)
    with (S fuel) by (unfold fuel; lia).
  assert (Hfuel : length E + 4 ≤ fuel).
  { unfold fuel. cbn [String.length]. rewrite str_length_app.
    pose proof (records_text_length E). cbn [String.length]. lia. }
  destruct (records_text_head E "]") as [x Hx]; [done|].
  change (parse_value (S fuel) (String "[" ?s))
    with (match skip_ws s with
          | String c' r' =>
              if decide (c' = "]"%char) then Some (JArray [], r')
              else '(vs, rest) ← parse_elements fuel (String c' r') ;
                   Some (JArray vs, rest)
          | EmptyString => None
          end).
  rewrite Hx. change (skip_ws (String "{" x)) with (String "{" x). cbv beta iota.
  rewrite decide_False by done. rewrite <- Hx.
  rewrite parse_elements_records by done. done.
Qed.

Lemma mapM_as_object_text (fields : list string) :
  mapM as_object (JString <$> fields) = Some ((fun f => Some (Str f)) <$> fields).
Proof.
  apply mapM_Some. induction fields as [|f fields IH]; constructor; done.
Qed.

(** A column that holds a text which is not a float keeps its texts. *)
Lemma convert_column_text (fields : list string) :
  fields ≠ [] → Json.keeps_text fields →
  convert_column (JString <$> fields) = Some ((fun f => Some (Str f)) <$> fields).
Proof.
  intros Hne [?|Hk]; [done|]. unfold convert_column.
  destruct fields as [|f fields]; [done|]. cbn [fmap list_fmap forallb is_bool].
  cbn [andb]. rewrite <- fmap_cons.
  assert (Hnone : mapM as_number (JString <$> f :: fields) = None).
  { destruct (mapM as_number (JString <$> f :: fields)) eqn:Hm; [|done].
    exfalso. apply Hk. assert (Hs : is_Some (mapM as_number (JString <$> f :: fields)))
      by (by eexists).
    apply mapM_is_Some_1 in Hs. rewrite Forall_fmap in Hs.
    eapply Forall_impl; [exact Hs|]. done. }
  rewrite Hnone. apply mapM_as_object_text.
Qed.

Lemma records_of_docs (D : Dataset.Dataset) :
  records_of (JArray (record_doc <$> D)) = Some (record_members <$> D).
Proof.
  unfold records_of. apply mapM_Some.
  induction D as [|p D IH]; constructor; done.
Qed.

Lemma column_names_records (D : Dataset.Dataset) :
  D ≠ [] → column_names (record_members <$> D) = ["State"; "City"].
Proof.
  destruct D as [|p D]; [done|]. intros _. unfold column_names, unique.
  cbn. induction D as [|q D IH]; [done|]. exact IH.
Qed.

(** Reading back a written, non-empty Dataset whose two columns are
    kept as text gives the same frame. *)
Lemma read_json_to_json (D : Dataset.Dataset) :
  D ≠ [] → Json.keeps_text D.*1 → Json.keeps_text D.*2 →
  read_json (to_json (Dataset.to_frame D))
  = Py.Ok (Dataset.as_loaded (Dataset.to_frame D)).
Proof.
  intros Hne H1 H2. unfold read_json.
  rewrite loads_to_json, records_of_docs, column_names_records by done.
  unfold convert_columns. cbn [mapM].
  assert (Hc1 : member "State" <$> (record_members <$> D) = JString <$> D.*1).
  { rewrite <- !list_fmap_compose. apply list_fmap_ext. by intros i [a b] _. }
  assert (Hc2 : member "City" <$> (record_members <$> D) = JString <$> D.*2).
  { rewrite <- !list_fmap_compose. apply list_fmap_ext. by intros i [a b] _. }
  rewrite Hc1, Hc2.
  rewrite !convert_column_text; [|by destruct D|done|by destruct D|done].
  cbn [mbind option_bind mret option_ret]. f_equal.
  unfold Dataset.as_loaded, Dataset.to_frame. cbn [columns rows]. f_equal.
  rewrite length_fmap, <- list_fmap_compose.
  apply list_eq. intros i. rewrite !list_lookup_fmap.
  destruct (decide (i < length D)) as [Hi|Hi].
  - rewrite lookup_seq_lt by done.
    destruct (lookup_lt_is_Some_2 D i Hi) as [[a b] Hab]. rewrite Hab.
    cbn. rewrite !list_lookup_fmap, Hab. done.
  - rewrite lookup_seq_ge by lia. rewrite lookup_ge_None_2 by lia. done.
Qed.

End json_round_trip.

(** ** Round trip of a Dataset through its files *)

Section round_trip.
Import Pandas.

Lemma pairs_as_loaded (D : Dataset.Dataset) :
  Dataset.pairs (Dataset.as_loaded (Dataset.to_frame D))
  = Py.Ok (Dataset.loaded_pairs D).
Proof.
  unfold Dataset.pairs, Dataset.as_loaded, Dataset.to_frame, getitem.
  cbn [columns rows index_of]. rewrite decide_True by done.
  rewrite decide_False, decide_True by done.
  cbn [Py.bind fmap option_fmap option_map]. f_equal.
  unfold Dataset.loaded_pairs. rewrite <- !list_fmap_compose.
  induction D as [|[a b] D IH]; [done|].
  rewrite !fmap_cons. cbn [zip zip_with]. f_equal. exact IH.
Qed.

(** C4, as the code has it. A Dataset written with [to_csv(index=False)]
    and read back with [read_csv] is the identical frame, and so is its
    (State, City) sequence, when no cell is a missing-value marker of the
    reader and neither column reads entirely as numbers or as booleans.
    A non-empty Dataset written with [to_json(orient="records")] and read
    back with [read_json] is the identical frame when each column holds a
    text that is not a float. *)
Theorem round_trip_of_text_columns (D : Dataset.Dataset) :
  (Csv.keeps_text D.*1 → Csv.keeps_text D.*2 →
     Csv.read_csv (Csv.to_csv (Dataset.to_frame D))
     = Py.Ok (Dataset.as_loaded (Dataset.to_frame D))
     ∧ (df ←? Csv.read_csv (Csv.to_csv (Dataset.to_frame D)) ; Dataset.pairs df)
       = Py.Ok (Dataset.loaded_pairs D))
  ∧ (D ≠ [] → Json.keeps_text D.*1 → Json.keeps_text D.*2 →
     Json.read_json (Json.to_json (Dataset.to_frame D))
     = Py.Ok (Dataset.as_loaded (Dataset.to_frame D))
     ∧ (df ←? Json.read_json (Json.to_json (Dataset.to_frame D)) ; Dataset.pairs df)
       = Py.Ok (Dataset.loaded_pairs D)).
Proof.
  split.
  - intros H1 H2. rewrite read_csv_to_csv by done. split; [done|].
    cbn [Py.bind]. apply pairs_as_loaded.
  - intros Hne H1 H2. rewrite read_json_to_json by done. split; [done|].
    cbn [Py.bind]. apply pairs_as_loaded.
Qed.

End round_trip.

Lemma round_trip_of_text_columns_witness :
  let D := [("MH", "Mumbai"); ("MH", "Pune, East"); ("DL", "New Delhi")] in
  Csv.read_csv (Csv.to_csv (Dataset.to_frame D))
  = Py.Ok (Dataset.as_loaded (Dataset.to_frame D))
  ∧ Json.read_json (Json.to_json (Dataset.to_frame D))
    = Py.Ok (Dataset.as_loaded (Dataset.to_frame D)).
Proof.
  intros D. split.
  - apply (proj1 (round_trip_of_text_columns D)).
    + split; [repeat constructor|right; reflexivity].
    + split; [repeat constructor|right; reflexivity].
  - apply (proj2 (round_trip_of_text_columns D)).
    + discriminate.
    + right. intros Hall. apply Forall_cons in Hall as [[x Hx] _]. discriminate Hx.
    + right. intros Hall. apply Forall_cons in Hall as [[x Hx] _]. discriminate Hx.
Defined.

(** C4 as stated fails. An empty State text is written as an empty CSV
    field and read back as a missing value; a State text of digits is
    written as a JSON string and read back as an integer. *)
Lemma round_trip_changes_cells :
  (let D := [("", "Delhi")] in
   Csv.read_csv (Csv.to_csv (Dataset.to_frame D))
   = Py.Ok (Pandas.mkDF ["State"; "City"] [[None; Some (Str "Delhi")]])
   ∧ (df ←? Csv.read_csv (Csv.to_csv (Dataset.to_frame D)) ; Dataset.pairs df)
     ≠ Py.Ok (Dataset.loaded_pairs D))
  ∧ (let D := [("1", "Delhi")] in
     Json.read_json (Json.to_json (Dataset.to_frame D))
     = Py.Ok (Pandas.mkDF ["State"; "City"] [[Some (Int 1); Some (Str "Delhi")]])
     ∧ (df ←? Json.read_json (Json.to_json (Dataset.to_frame D)) ; Dataset.pairs df)
       ≠ Py.Ok (Dataset.loaded_pairs D)).
Proof.
  split; (split; [vm_compute; reflexivity|vm_compute; discriminate]).
Qed.

(** * Further properties of the code *)

(** ** The console and the files of the Collector *)

Section collector_console.
Import Pandas Text Eff Scraper.
Context (net : string → response).

Lemma extract_cons row rows states cities :
  extract (row :: rows) states cities
  = match cells_of row with
    | Some p => extract rows (states ++ [p.1]) (cities ++ [p.2])
    | None => print (Line "State or City not found in a row") ;;;
              extract rows states cities
    end.
Proof.
  cbn [extract]. unfold cells_of.
  destruct (find "td" (eqb_str "column10 style2 s") row) as [st|]; [|done].
  by destruct (find "td" (eqb_str "column9 style2 s") row) as [ci|].
Qed.

Lemma extract_world rows states cities w :
  extract rows states cities w
  = (Py.Ok (states ++ (omap cells_of rows).*1, cities ++ (omap cells_of rows).*2),
     mkWorld (files w)
       (stdout w ++ replicate (length (filter (fun row => cells_of row = None) rows))
                      (Line "State or City not found in a row"))
       (requests w)).
Proof.
  revert states cities w. induction rows as [|row rows IH]; intros states cities w.
  - simpl. rewrite !app_nil_r. by destruct w.
  - rewrite extract_cons, filter_cons. cbn [omap list_omap].
    destruct (cells_of row) as [[s c]|].
    + rewrite decide_False by done. rewrite IH. cbn [fmap list_fmap fst snd].
      by rewrite <- !app_assoc.
    + rewrite decide_True by done. unfold bind, print, modify. rewrite IH.
      cbn [files stdout requests length replicate]. by rewrite <- app_assoc.
Qed.

Lemma kept_skipped (soup : node) :
  length (kept soup) + length (skipped soup)
  = length (find_all "tr" (startswith "row") soup).
Proof.
  unfold kept, skipped. induction (find_all "tr" (startswith "row") soup) as [|row rows IH];
    [done|].
  rewrite filter_cons. cbn [omap list_omap]. destruct (cells_of row).
  - rewrite decide_False by done. simpl. lia.
  - rewrite decide_True by done. simpl. lia.
Qed.

Lemma fetched_Some (url : string) (soup : node) :
  fetched net url = Some soup →
  ∃ st, net url = Response st soup ∧ ¬ (400 ≤ st < 600).
Proof.
  unfold fetched. destruct (net url) as [msg|st soup']; [done|].
  case_decide; [done|]. intros [= ->]. by exists st.
Qed.

(** The world after the scrape of a page that was fetched. *)
Lemma scrape_fetched (url : string) (soup : node) (w : world) :
  fetched net url = Some soup →
  scrape_sih_data net url w
  = (Py.Ok (fragment net url),
     mkWorld
       (match fragment net url with
        | Some df => <["sih_data.json" := Json.to_json df]>
                       (<["sih_data.csv" := Csv.to_csv df]> (files w))
        | None => files w
        end)
       (stdout w
        ++ [Line ("Successfully fetched data from " +:+ url);
            Line ("Found " +:+ pretty (length (find_all "tr" (startswith "row") soup))
                  +:+ " rows")]
        ++ replicate (length (skipped soup)) (Line "State or City not found in a row")
        ++ (if decide (kept soup = [])
            then [Line "No data extracted. Check the HTML structure."] else []))
       (requests w ++ [url])).
Proof.
  intros Hfe. destruct (fetched_Some url soup Hfe) as (st & Hnet & Hst).
  unfold fragment, records. rewrite Hfe.
  unfold scrape_sih_data, requests_get, raise_for_status. rewrite Hnet.
  unfold except_request, bind at 1 2 3 4 5, ret at 1 2, print at 1 2, modify.
  cbn [fst snd files stdout requests]. rewrite decide_False by done.
  unfold bind at 1. rewrite extract_world. cbn [fst snd files stdout requests app].
  fold (kept soup). fold (skipped soup).
  destruct (kept soup) as [|p k] eqn:Hk.
  - cbn [fmap list_fmap bool_decide orb]. rewrite decide_True by done.
    rewrite bool_decide_eq_true_2 by done. cbn [orb].
    unfold bind, print, ret, modify. cbn [files stdout requests].
    by rewrite <- !app_assoc.
  - rewrite <- Hk.
    assert (Hne : bool_decide ((kept soup).*1 = [])
                  || bool_decide ((kept soup).*2 = []) = false).
    { rewrite Hk. done. }
    rewrite Hne. unfold bind at 1, lift.
    rewrite from_dict_two. unfold bind, write_file, ret, modify.
    cbn [files stdout requests]. rewrite decide_False by (by rewrite Hk).
    rewrite Hk. by rewrite <- !app_assoc, !app_nil_r.
Qed.

Lemma scrape_failed (url : string) (w : world) :
  fetched net url = None →
  ∃ msg, scrape_sih_data net url w
         = (Py.Ok None,
            mkWorld (files w) (stdout w ++ [Line ("Error fetching data: " +:+ msg)])
                    (requests w ++ [url])).
Proof.
  unfold fetched, scrape_sih_data, requests_get, raise_for_status.
  destruct (net url) as [msg|st soup].
  - intros _. exists msg. done.
  - case_decide as Hst; [|done]. intros _. eexists.
    unfold except_request, bind, raise, print, ret, modify. simpl.
    rewrite decide_True by done. done.
Qed.

(** X1. What one call of [scrape_sih_data] prints. When the request fails
    it adds a single "Error fetching data" line. On a fetched page it adds
    the "Successfully fetched" line, the "Found N rows" line, one "State
    or City not found in a row" line for every selected row that lacks a
    cell, and the "No data extracted" line when no row was kept; the rows
    kept and the rows reported add up to N. *)
Theorem scrape_reports_every_row (url : string) (w : world) :
  let w' := (scrape_sih_data net url w).2 in
  match fetched net url with
  | None => ∃ msg, stdout w' = stdout w ++ [Line ("Error fetching data: " +:+ msg)]
  | Some soup =>
      let rows := find_all "tr" (startswith "row") soup in
      stdout w'
      = stdout w
        ++ [Line ("Successfully fetched data from " +:+ url);
            Line ("Found " +:+ pretty (length rows) +:+ " rows")]
        ++ replicate (length (skipped soup)) (Line "State or City not found in a row")
        ++ (if decide (kept soup = [])
            then [Line "No data extracted. Check the HTML structure."] else [])
      ∧ length (kept soup) + length (skipped soup) = length rows
  end.
Proof.
  intros w'. unfold w'. destruct (fetched net url) as [soup|] eqn:Hfe.
  - rewrite (scrape_fetched url soup w Hfe). split; [done|apply kept_skipped].
  - destruct (scrape_failed url w Hfe) as [msg ->]. by exists msg.
Qed.

(** What a scrape prints is added to the console and does not depend
    on what the console holds. *)
Lemma scrape_stdout_frame (url : string) (w : world) :
  stdout (scrape_sih_data net url w).2
  = stdout w ++ stdout (scrape_sih_data net url empty_world).2.
Proof.
  destruct (fetched net url) as [soup|] eqn:Hfe.
  - by rewrite !(scrape_fetched url soup _ Hfe).
  - destruct (scrape_failed url w Hfe) as [msg Hw].
    destruct (scrape_failed url empty_world Hfe) as [msg' Hw'].
    rewrite Hw, Hw'. cbn [snd stdout empty_world app].
    unfold scrape_sih_data, requests_get, fetched in *.
    destruct (net url) as [m|st soup].
    + unfold except_request, bind, raise, print, ret, modify in Hw, Hw'.
      simpl in Hw, Hw'. congruence.
    + destruct (decide (400 ≤ st < 600)) as [Hst|Hst]; [|done].
      unfold raise_for_status, except_request, bind, raise, print, ret, modify
        in Hw, Hw'.
      simpl in Hw, Hw'. rewrite decide_True in Hw, Hw' by done.
      simpl in Hw, Hw'. congruence.
Qed.

Lemma scrape_result (url : string) (w : world) :
  (scrape_sih_data net url w).1 = Py.Ok (fragment net url).
Proof. destruct (scrape_spec net url w) as (w' & -> & _). done. Qed.

Lemma scrape_all_stdout (urls : list string) acc (w : world) :
  stdout (scrape_all net urls acc w).2
  = stdout w
    ++ (urls ≫= fun url =>
          Line ("Starting data scraping for " +:+ url +:+ "...")
          :: stdout (scrape_sih_data net url empty_world).2).
Proof.
  revert acc w. induction urls as [|url urls IH]; intros acc w.
  - simpl. by rewrite app_nil_r.
  - cbn [scrape_all]. unfold bind at 1 2, print at 1, modify. cbn [fst snd].
    set (w1 := mkWorld _ _ _).
    pose proof (scrape_result url w1) as Hr.
    pose proof (scrape_stdout_frame url w1) as Hs.
    destruct (scrape_sih_data net url w1) as [r w2]. cbn [fst snd] in *. subst r.
    rewrite IH, Hs. unfold w1. cbn [stdout]. rewrite bind_cons.
    by rewrite <- !app_assoc.
Qed.

Lemma records_nil_fragments (urls : list string) :
  urls ≫= records net = [] ↔ omap (fragment net) urls = [].
Proof.
  induction urls as [|url urls IH]; [done|].
  rewrite bind_cons. cbn [omap list_omap]. unfold fragment at 1.
  destruct (records net url) as [|p k]; [exact IH|]. done.
Qed.

Lemma length_records (urls : list string) :
  length (urls ≫= records net)
  = sum_list ((fun url => length (records net url)) <$> urls).
Proof.
  induction urls as [|url urls IH]; [done|].
  rewrite bind_cons, length_app, IH. done.
Qed.

(** X2. The console of a whole run: for every URL in order its "Starting"
    line and what its scrape prints, then either the "nothing scraped"
    line or the report, whose shape is the number of records of all URLs
    by 2 and whose preview is the first five records. That number is the
    sum of the records of the URLs. *)
Theorem main_console (urls : list string) (w : world) :
  let D := urls ≫= records net in
  stdout (main_with net urls w).2
  = stdout w
    ++ (urls ≫= fun url =>
          Line ("Starting data scraping for " +:+ url +:+ "...")
          :: stdout (scrape_sih_data net url empty_world).2)
    ++ (if decide (D = []) then [Line "No data scraped from any URL."]
        else [Line (String LF "Data scraping successful!");
              Shape (length D) 2;
              Line (String LF "First few rows:");
              Frame (Dataset.to_frame (take 5 D))])
  ∧ length D = sum_list ((fun url => length (records net url)) <$> urls).
Proof.
  intros D. split; [|apply length_records].
  pose proof (scrape_all_stdout urls [] w) as Hs.
  destruct (scrape_all_spec net urls [] w) as (w1 & Ha & _).
  unfold main_with, bind at 1. rewrite Ha in Hs |- *. cbn [snd app] in Hs |- *.
  pose proof (combined_frame net urls) as Hc.
  pose proof (records_nil_fragments urls) as Hn. fold D in Hc, Hn.
  destruct (omap (fragment net) urls) as [|df frags] eqn:Hfr.
  - rewrite decide_True by (by apply Hn).
    unfold print, modify. cbn [snd stdout]. by rewrite Hs, <- app_assoc.
  - rewrite decide_False by (intros HD; by apply Hn in HD).
    unfold bind at 1, lift. rewrite Hc by done.
    unfold bind, write_file, print, modify. cbn [snd stdout files requests].
    rewrite Hs, <- !app_assoc. cbn [app]. do 3 f_equal.
    unfold len, Dataset.to_frame. cbn [rows columns length].
    rewrite length_fmap. do 2 f_equal. f_equal.
    unfold head. rewrite decide_True by lia. by rewrite fmap_take.
Qed.

Lemma per_url_files_dom fs frags : dom fs ⊆ dom (per_url_files fs frags).
Proof.
  unfold per_url_files.
  induction frags as [|df frags IH] using rev_ind; [done|].
  rewrite foldl_app. simpl. rewrite !dom_insert. set_solver.
Qed.

(** X3. A run changes no file but [sih_data.csv], [sih_data.json],
    [combined_sih_data.csv] and [combined_sih_data.json], and removes no
    file. *)
Theorem main_writes_only_its_files (urls : list string) (w : world) :
  let w' := (main_with net urls w).2 in
  (∀ name : string,
     name ∉ ["sih_data.csv"; "sih_data.json";
             "combined_sih_data.csv"; "combined_sih_data.json"] →
     files w' !! name = files w !! name)
  ∧ dom (files w) ⊆ dom (files w').
Proof.
  intros w'. unfold w'.
  destruct (main_with_spec net urls w) as (w1 & -> & _ & Hf & _). cbn [snd].
  rewrite Hf. clear Hf. split.
  - intros name Hname.
    assert (H1 : name ≠ "sih_data.csv") by (intros ->; apply Hname; set_solver).
    assert (H2 : name ≠ "sih_data.json") by (intros ->; apply Hname; set_solver).
    assert (H3 : name ≠ "combined_sih_data.csv") by (intros ->; apply Hname; set_solver).
    assert (H4 : name ≠ "combined_sih_data.json") by (intros ->; apply Hname; set_solver).
    destruct (omap (fragment net) urls) as [|df frags]; [done|].
    rewrite !lookup_insert_ne by done. by apply per_url_files_other.
  - destruct (omap (fragment net) urls) as [|df frags]; [done|].
    rewrite !dom_insert. pose proof (per_url_files_dom (files w) (df :: frags)).
    set_solver.
Qed.

End collector_console.

Lemma main_writes_only_its_files_witness :
  let w := Scraper.mkWorld {[ "notes.txt" := "kept" ]} [] [] in
  Scraper.files (Scraper.main_with Scraper.example_net ["a"; "b"] w).2 !! "notes.txt"
  = Some "kept".
Proof.
  intros w.
  etrans; [apply (proj1 (main_writes_only_its_files Scraper.example_net ["a"; "b"] w))|].
  - vm_compute. intros H. repeat (apply elem_of_cons in H as [H|H]; [discriminate H|]).
    by apply elem_of_nil in H.
  - reflexivity.
Defined.

(** ** The texts the Collector keeps *)

Section stripping.
Import Text.
Context (sp : ascii → bool).

Lemma str_rev_app_acc (s acc : string) :
  String.rev_app s acc = String.rev s +:+ acc.
Proof.
  unfold String.rev. revert acc. induction s as [|c s IH]; intros acc; [done|].
  cbn [String.rev_app]. rewrite IH, (IH (String c "")).
  by rewrite str_app_assoc.
Qed.

Lemma str_rev_cons (c : ascii) (s : string) :
  String.rev (String c s) = String.rev s +:+ String c "".
Proof. unfold String.rev at 1. cbn [String.rev_app]. apply str_rev_app_acc. Qed.

Lemma str_rev_app (a b : string) :
  String.rev (a +:+ b) = String.rev b +:+ String.rev a.
Proof.
  induction a as [|c a IH].
  - by rewrite str_app_nil_r.
  - rewrite str_app_cons, !str_rev_cons. by rewrite IH, str_app_assoc.
Qed.

Lemma str_rev_involutive (s : string) : String.rev (String.rev s) = s.
Proof.
  induction s as [|c s IH]; [done|].
  rewrite str_rev_cons, str_rev_app, IH. done.
Qed.

Lemma lstrip_head (s : string) : head_is sp (lstrip sp s) = false.
Proof.
  induction s as [|c s IH]; [done|].
  cbn [lstrip]. destruct (sp c) eqn:Hc; [done|]. by cbn.
Qed.

Lemma lstrip_stripped (s : string) : head_is sp s = false → lstrip sp s = s.
Proof. destruct s as [|c s]; [done|]. cbn. by intros ->. Qed.

Lemma lstrip_split (s : string) : ∃ p, s = p +:+ lstrip sp s.
Proof.
  induction s as [|c s [p IH]]; [by exists ""|].
  cbn [lstrip]. destruct (sp c).
  - exists (String c p). by rewrite str_app_cons, <- IH.
  - by exists "".
Qed.

Lemma head_is_app (r x : string) :
  r ≠ "" → head_is sp (r +:+ x) = head_is sp r.
Proof. by destruct r. Qed.

(** A stripped text has no blank at either end, and stripping it again
    gives the same text. *)
Lemma strip_with_clean (s : string) :
  let r := strip_with sp s in
  head_is sp r = false ∧ head_is sp (String.rev r) = false
  ∧ strip_with sp r = r.
Proof.
  intros r. unfold r, strip_with.
  set (a := lstrip sp s).
  set (b := lstrip sp (String.rev a)).
  assert (Ha : head_is sp a = false) by apply lstrip_head.
  assert (Hb : head_is sp b = false) by apply lstrip_head.
  assert (Hr : head_is sp (String.rev b) = false).
  { destruct (lstrip_split (String.rev a)) as [p Hp]. fold b in Hp.
    apply (f_equal String.rev) in Hp.
    rewrite str_rev_involutive, str_rev_app in Hp.
    destruct (String.rev b) as [|c t] eqn:Hrb; [done|].
    rewrite <- (head_is_app _ (String.rev p)) by done. by rewrite <- Hp. }
  split_and!; [done|by rewrite str_rev_involutive|].
  rewrite (lstrip_stripped (String.rev b)) by done.
  rewrite str_rev_involutive. by rewrite (lstrip_stripped b).
Qed.

End stripping.

Section collector_cells.
Import Pandas Text Eff Scraper.
Context (net : string → response).

Lemma strip_clean (s : string) : padded (strip s) = false ∧ strip (strip s) = strip s.
Proof.
  destruct (strip_with_clean py_isspace s) as (H1 & H2 & H3).
  unfold padded, strip. by rewrite H1, H2.
Qed.

Lemma kept_clean (soup : node) :
  Forall (fun r => (padded r.1 = false ∧ strip r.1 = r.1)
                   ∧ (padded r.2 = false ∧ strip r.2 = r.2)) (kept soup).
Proof.
  unfold kept. induction (find_all "tr" (startswith "row") soup) as [|row rows IH];
    [constructor|].
  cbn [omap list_omap]. destruct (cells_of row) as [[s c]|] eqn:Hc; [|done].
  constructor; [|done]. unfold cells_of in Hc.
  destruct (find "td" (eqb_str "column10 style2 s") row) as [st|]; [|done].
  destruct (find "td" (eqb_str "column9 style2 s") row) as [ci|]; [|done].
  injection Hc as <- <-. split; apply strip_clean.
Qed.

(** X4. Every cell of a frame returned by [scrape_sih_data] is present and
    has no whitespace at its start or at its end: stripping it again
    changes nothing. *)
Theorem scraped_cells_are_stripped (url : string) (w : world) (df : DataFrame string) :
  (scrape_sih_data net url w).1 = Py.Ok (Some df) →
  Forall (Forall (fun c : option string =>
                    ∃ x, c = Some x ∧ padded x = false ∧ strip x = x)) (rows df).
Proof.
  destruct (scrape_spec net url w) as (w' & -> & _). cbn [fst].
  unfold fragment, records. intros [= Hdf].
  destruct (fetched net url) as [soup|]; [|done].
  pose proof (kept_clean soup) as Hk.
  destruct (kept soup) as [|p k]; [done|]. injection Hdf as <-.
  unfold Dataset.to_frame. cbn [rows]. apply Forall_fmap.
  eapply Forall_impl; [exact Hk|]. intros [s c] [[? ?] [? ?]]. cbn [fst snd] in *.
  repeat constructor; eexists; done.
Qed.

End collector_cells.

Lemma scraped_cells_are_stripped_witness :
  Forall (Forall (fun c : option string =>
                    ∃ x, c = Some x ∧ Text.padded x = false ∧ Text.strip x = x))
         (Pandas.rows (Dataset.to_frame [("MH", "Mumbai")])).
Proof.
  apply (scraped_cells_are_stripped Scraper.example_net "a" Scraper.empty_world).
  vm_compute. reflexivity.
Defined.

(** ** The constructor of the analyzer *)

Section constructor.
Import Pandas Eff Analysis.
Context {U : Type} `{EqDecision U}.
Context (read_csv read_json : string → Py.result (DataFrame U)).

Local Abbreviation world := (world (U:=U)).

Lemma load_data_ok (path s : string) (d : DataFrame U) (w : world) :
  (Pathlib.suffix path = ".csv" ∧ read_csv s = Py.Ok d
   ∨ Pathlib.suffix path = ".json" ∧ read_json s = Py.Ok d) →
  disk w !! path = Some s →
  load_data read_csv read_json path w
  = (Py.Ok (fresh (dom (heap w))),
     mkWorld (<[fresh (dom (heap w)) := d]> (heap w)) (disk w)
             (log w ++ [open_file path])).
Proof.
  intros Hs Hdisk. unfold load_data.
  destruct Hs as [[Hs Hr]|[Hs Hr]]; rewrite Hs.
  - rewrite decide_True by done.
    unfold bind at 1, read_file. rewrite Hdisk.
    unfold bind, lift. rewrite Hr. reflexivity.
  - rewrite decide_False, decide_True by done.
    unfold bind at 1, read_file. rewrite Hdisk.
    unfold bind, lift. rewrite Hr. reflexivity.
Qed.

Lemma setup_style_ok (w : world) :
  setup_style w
  = (Py.Ok ["#3498db"; "#2ecc71"; "#e74c3c"; "#f1c40f"; "#9b59b6";
            "#1abc9c"; "#e67e22"; "#34495e"; "#7f8c8d"; "#16a085"],
     mkWorld (heap w) (disk w)
       (log w ++ [plt (style_use "seaborn-v0_8-darkgrid");
                  plt (rc_set "font.family" "sans-serif");
                  plt (rc_set "font.sans-serif" "Arial");
                  plt (rc_set "axes.labelsize" "12");
                  plt (rc_set "axes.titlesize" "14");
                  plt (rc_set "xtick.labelsize" "10");
                  plt (rc_set "ytick.labelsize" "10")])).
Proof.
  unfold setup_style, bind, emit, ret. cbn [heap disk log].
  by rewrite <- !app_assoc.
Qed.

(** The analyzer built on a file that holds a frame. *)
Lemma init_ok (path s : string) (d : DataFrame U) (w : world) :
  (Pathlib.suffix path = ".csv" ∧ read_csv s = Py.Ok d
   ∨ Pathlib.suffix path = ".json" ∧ read_json s = Py.Ok d) →
  disk w !! path = Some s →
  init read_csv read_json path w
  = (Py.Ok (mkAnalyzer path (fresh (dom (heap w)))
              ["#3498db"; "#2ecc71"; "#e74c3c"; "#f1c40f"; "#9b59b6";
               "#1abc9c"; "#e67e22"; "#34495e"; "#7f8c8d"; "#16a085"]
              "results"),
     mkWorld (<[fresh (dom (heap w)) := d]> (heap w)) (disk w)
       (log w ++ [open_file path;
                  plt (style_use "seaborn-v0_8-darkgrid");
                  plt (rc_set "font.family" "sans-serif");
                  plt (rc_set "font.sans-serif" "Arial");
                  plt (rc_set "axes.labelsize" "12");
                  plt (rc_set "axes.titlesize" "14");
                  plt (rc_set "xtick.labelsize" "10");
                  plt (rc_set "ytick.labelsize" "10");
                  makedirs "results"])).
Proof.
  intros Hs Hdisk. unfold init.
  unfold bind at 1. rewrite (load_data_ok path s d w Hs Hdisk).
  unfold bind at 1. rewrite setup_style_ok.
  unfold bind, emit, ret. cbn [heap disk log]. by rewrite <- !app_assoc.
Qed.

Lemma init_raises (path : string) (e : Py.exn) (w w1 : world) :
  load_data read_csv read_json path w = (Py.Raise e, w1) →
  init read_csv read_json path w = (Py.Raise e, w1).
Proof. intros Hl. unfold init, bind at 1. by rewrite Hl. Qed.

Lemma load_data_cases (path : string) (w : world) :
  (∃ s d, disk w !! path = Some s
          ∧ (Pathlib.suffix path = ".csv" ∧ read_csv s = Py.Ok d
             ∨ Pathlib.suffix path = ".json" ∧ read_json s = Py.Ok d))
  ∨ (∃ e w1, load_data read_csv read_json path w = (Py.Raise e, w1)
             ∧ heap w1 = heap w ∧ disk w1 = disk w
             ∧ (log w1 = log w ∨ log w1 = log w ++ [open_file path])).
Proof.
  unfold load_data.
  destruct (decide (Pathlib.suffix path = ".csv")) as [Hc|Hc].
  - unfold bind, read_file, lift.
    destruct (disk w !! path) as [s|] eqn:Hd.
    + destruct (read_csv s) as [d|e] eqn:Hr.
      * left. exists s, d. auto.
      * right. do 2 eexists. split; [done|]. cbn. auto.
    + right. do 2 eexists. split; [done|]. cbn. auto.
  - destruct (decide (Pathlib.suffix path = ".json")) as [Hj|Hj].
    + unfold bind, read_file, lift.
      destruct (disk w !! path) as [s|] eqn:Hd.
      * destruct (read_json s) as [d|e] eqn:Hr.
        -- left. exists s, d. auto.
        -- right. do 2 eexists. split; [done|]. cbn. auto.
      * right. do 2 eexists. split; [done|]. cbn. auto.
    + right. do 2 eexists. split; [done|]. cbn. auto.
Qed.

(** X5. The constructor. When [SIHAnalyzer(path)] returns, the path has
    the suffix ".csv" or ".json", the file exists and its reader accepted
    it; the frame of the reader is stored under a fresh reference, the
    palette has ten colours, the results directory is "results", and the
    log has gained the opening of the file, the style settings and the
    creation of the directory, in this order. When it raises, no frame was
    stored, no style was set and no directory was created: at most the
    file was opened. *)
Theorem init_builds_on_the_loaded_file (path : string) (w : world) :
  let l := fresh (dom (heap w)) in
  (∀ self w', init read_csv read_json path w = (Py.Ok self, w') →
     ∃ s d,
       disk w !! path = Some s
       ∧ (Pathlib.suffix path = ".csv" ∧ read_csv s = Py.Ok d
          ∨ Pathlib.suffix path = ".json" ∧ read_json s = Py.Ok d)
       ∧ data_path self = path ∧ df self = l
       ∧ length (colors self) = 10 ∧ results_dir self = "results"
       ∧ heap w' = <[l := d]> (heap w) ∧ disk w' = disk w
       ∧ log w'
         = log w ++ [open_file path;
                     plt (style_use "seaborn-v0_8-darkgrid");
                     plt (rc_set "font.family" "sans-serif");
                     plt (rc_set "font.sans-serif" "Arial");
                     plt (rc_set "axes.labelsize" "12");
                     plt (rc_set "axes.titlesize" "14");
                     plt (rc_set "xtick.labelsize" "10");
                     plt (rc_set "ytick.labelsize" "10");
                     makedirs "results"])
  ∧ (∀ e w', init read_csv read_json path w = (Py.Raise e, w') →
       heap w' = heap w ∧ disk w' = disk w
       ∧ (log w' = log w ∨ log w' = log w ++ [open_file path])).
Proof.
  intros l.
  destruct (load_data_cases path w)
    as [(s & d & Hd & Hs)|(e0 & w1 & Hl & Hh & Hk & Hlog)].
  - pose proof (init_ok path s d w Hs Hd) as Hi. split.
    + intros self w' Hok. rewrite Hi in Hok. injection Hok as <- <-.
      exists s, d. split_and!; done.
    + intros e w' Hr. rewrite Hi in Hr. discriminate Hr.
  - pose proof (init_raises path e0 w w1 Hl) as Hi. split.
    + intros self w' Hok. rewrite Hi in Hok. discriminate Hok.
    + intros e w' Hr. rewrite Hi in Hr. injection Hr as <- <-. done.
Qed.

End constructor.

Lemma init_builds_on_the_loaded_file_witness :
  let text := "State,City" +:+ String Text.LF "MH,Pune" +:+ String Text.LF "" in
  let w := Analysis.mkWorld (U:=scalar) ∅ {[ "teams.csv" := text ]} [] in
  ∃ s d,
    Analysis.disk w !! "teams.csv" = Some s
    ∧ (Pathlib.suffix "teams.csv" = ".csv" ∧ Csv.read_csv s = Py.Ok d
       ∨ Pathlib.suffix "teams.csv" = ".json" ∧ Json.read_json s = Py.Ok d).
Proof.
  intros text w.
  assert (Hi : ∃ self w', Analysis.init Csv.read_csv Json.read_json "teams.csv" w
                          = (Py.Ok self, w'))
    by (do 2 eexists; vm_compute; reflexivity).
  destruct Hi as (self & w' & Hi).
  destruct (proj1 (init_builds_on_the_loaded_file Csv.read_csv Json.read_json
                     "teams.csv" w) self w' Hi) as (s & d & Hs & Hr & _).
  exists s, d. exact (conj Hs Hr).
Defined.

(** ** What the Reporter reads from the Collector's files *)

Section written_files.
Import Pandas Text.

(** The frame read back from a written Dataset: every text converted
    under the type inferred for its column. *)
Lemma read_csv_written (D : Dataset.Dataset) :
  Forall (fun r => existsb Csv.is_cr r.1 = false ∧ existsb Csv.is_cr r.2 = false) D →
  Csv.read_csv (Csv.to_csv (Dataset.to_frame D))
  = Py.Ok (mkDF ["State"; "City"]
             ((fun r => [Csv.convert (Csv.infer D.*1) r.1;
                         Csv.convert (Csv.infer D.*2) r.2]) <$> D)).
Proof.
  intros HD. unfold Csv.read_csv. rewrite tokenize_to_csv by done.
  cbn [Py.bind].
  set (data := (fun r : string * string => [r.1; r.2]) <$> D).
  assert (Hw : length ["State"; "City"]
               `max` from_option length (length ["State"; "City"]) (data !! 0) = 2).
  { unfold data. by destruct D. }
  rewrite Hw. cbn [length]. rewrite Nat.sub_diag.
  rewrite bool_decide_eq_true_2.
  2:{ unfold data. apply Forall_fmap, Forall_true. intros [a b]. simpl. lia. }
  assert (Hbody : (fun r => drop 0 (Csv.pad 2 r)) <$> data = data).
  { unfold data. rewrite <- list_fmap_compose. apply list_fmap_ext.
    intros i [a b] _. done. }
  rewrite Hbody. cbn [seq fmap list_fmap].
  assert (Hc0 : (fun r : list string => default "" (r !! 0)) <$> data = D.*1).
  { unfold data. rewrite <- list_fmap_compose. apply list_fmap_ext.
    by intros i [a b] _. }
  assert (Hc1 : (fun r : list string => default "" (r !! 1)) <$> data = D.*2).
  { unfold data. rewrite <- list_fmap_compose. apply list_fmap_ext.
    by intros i [a b] _. }
  rewrite Hc0, Hc1. do 2 f_equal. unfold data. rewrite <- list_fmap_compose.
  apply list_fmap_ext. by intros i [a b] _.
Qed.

(** Under the type inferred for its column, a field reads as missing
    exactly when it is a missing-value marker. *)
Lemma convert_infer_missing (fields : list string) (f : string) :
  f ∈ fields →
  Csv.convert (Csv.infer fields) f = None ↔ Csv.is_na f = true.
Proof.
  intros Hf. unfold Csv.convert. destruct (Csv.is_na f) eqn:Hna; [done|].
  split; [|done]. unfold Csv.infer.
  assert (Hp : f ∈ filter (fun f => Csv.is_na f = false) fields)
    by (by apply list_elem_of_filter).
  case_bool_decide as Hi.
  { destruct (proj1 (Forall_forall _ _) Hi f Hf) as [z ->]. done. }
  case_bool_decide as Hfl.
  { destruct (proj1 (Forall_forall _ _) Hfl f Hp) as [z ->]. done. }
  case_bool_decide as Hb.
  { destruct (proj1 (Forall_forall _ _) Hb f Hp) as [z ->]. done. }
  done.
Qed.

Lemma getitem_State {U} (rs : list (list (option U))) :
  getitem (mkDF ["State"; "City"] rs) "State" = Py.Ok (cell_at 0 <$> rs).
Proof. unfold getitem. cbn [columns rows index_of]. by rewrite decide_True. Qed.

Lemma getitem_City {U} (rs : list (list (option U))) :
  getitem (mkDF ["State"; "City"] rs) "City" = Py.Ok (cell_at 1 <$> rs).
Proof.
  unfold getitem. cbn [columns rows index_of].
  rewrite decide_False, decide_True by done. done.
Qed.

(** X6. A Dataset without carriage returns, written with
    [to_csv(index=False)] and read back with [read_csv], keeps its two
    columns and its number of rows, whatever its texts are; a cell is
    missing after the round trip exactly when its text is one of the
    missing-value markers of the reader. *)
Theorem csv_round_trip_keeps_shape (D : Dataset.Dataset) :
  Forall (fun r => existsb Csv.is_cr r.1 = false ∧ existsb Csv.is_cr r.2 = false) D →
  ∃ df st ci,
    Csv.read_csv (Csv.to_csv (Dataset.to_frame D)) = Py.Ok df
    ∧ columns df = ["State"; "City"]
    ∧ len df = length D
    ∧ getitem df "State" = Py.Ok st
    ∧ getitem df "City" = Py.Ok ci
    ∧ Forall2 (fun c f => c = None ↔ Csv.is_na f = true) st D.*1
    ∧ Forall2 (fun c f => c = None ↔ Csv.is_na f = true) ci D.*2.
Proof.
  intros HD. do 3 eexists. split; [by apply read_csv_written|].
  split; [done|]. split; [unfold len; cbn [rows]; by rewrite length_fmap|].
  rewrite getitem_State, getitem_City. split; [done|]. split; [done|].
  rewrite <- !list_fmap_compose. split.
  - apply Forall2_fmap, Forall_Forall2_diag, Forall_forall. intros [a b] Hr.
    cbn. apply convert_infer_missing. eapply (list_elem_of_fmap_2' fst); eauto.
  - apply Forall2_fmap, Forall_Forall2_diag, Forall_forall. intros [a b] Hr.
    cbn. apply convert_infer_missing. eapply (list_elem_of_fmap_2' snd); eauto.
Qed.

Lemma convert_column_strings (fields : list string) :
  ∃ col, Json.convert_column (Json.JString <$> fields) = Some col
         ∧ length col = length fields.
Proof.
  unfold Json.convert_column.
  destruct (forallb Json.is_bool (Json.JString <$> fields)).
  { rewrite mapM_as_object_text. eexists. split; [done|]. by rewrite length_fmap. }
  destruct (mapM Json.as_number (Json.JString <$> fields)) as [nums|] eqn:Hn.
  - apply length_mapM in Hn. rewrite length_fmap in Hn.
    destruct (mapM (fun x : option scalar => x ≫= Numeral.integral) nums)
      as [zs|] eqn:Hz.
    + apply length_mapM in Hz. eexists. split; [done|].
      rewrite length_fmap. congruence.
    + eexists. split; [done|]. congruence.
  - rewrite mapM_as_object_text. eexists. split; [done|]. by rewrite length_fmap.
Qed.

Lemma read_json_written (D : Dataset.Dataset) :
  D ≠ [] →
  ∃ rs, Json.read_json (Json.to_json (Dataset.to_frame D))
        = Py.Ok (mkDF ["State"; "City"] rs)
        ∧ length rs = length D.
Proof.
  intros Hne. unfold Json.read_json.
  rewrite loads_to_json, records_of_docs, column_names_records by done.
  unfold Json.convert_columns. cbn [mapM].
  assert (Hc1 : Json.member "State" <$> (Json.record_members <$> D)
                = Json.JString <$> D.*1).
  { rewrite <- !list_fmap_compose. apply list_fmap_ext. by intros i [a b] _. }
  assert (Hc2 : Json.member "City" <$> (Json.record_members <$> D)
                = Json.JString <$> D.*2).
  { rewrite <- !list_fmap_compose. apply list_fmap_ext. by intros i [a b] _. }
  rewrite Hc1, Hc2.
  destruct (convert_column_strings D.*1) as (c1 & -> & _).
  destruct (convert_column_strings D.*2) as (c2 & -> & _).
  cbn [mbind option_bind mret option_ret]. eexists. split; [done|].
  by rewrite !length_fmap, length_seq.
Qed.

(** X7. A non-empty Dataset written with [to_json(orient="records")] and
    read back with [read_json] keeps its two columns and its number of
    rows, whatever its texts are. The empty Dataset is read back as a frame
    without columns. *)
Theorem json_round_trip_keeps_shape :
  (∀ D : Dataset.Dataset, D ≠ [] →
     ∃ df, Json.read_json (Json.to_json (Dataset.to_frame D)) = Py.Ok df
           ∧ columns df = ["State"; "City"]
           ∧ len df = length D)
  ∧ Json.read_json (Json.to_json (Dataset.to_frame [])) = Py.Ok (mkDF [] []).
Proof.
  split; [|vm_compute; reflexivity].
  intros D Hne. destruct (read_json_written D Hne) as (rs & Hr & Hl).
  eexists. split; [exact Hr|]. done.
Qed.

End written_files.

Lemma csv_round_trip_keeps_shape_witness :
  ∃ df st ci,
    Csv.read_csv (Csv.to_csv (Dataset.to_frame [("", "Delhi"); ("7", "Pune")]))
    = Py.Ok df
    ∧ Pandas.columns df = ["State"; "City"]
    ∧ Pandas.len df = 2
    ∧ Pandas.getitem df "State" = Py.Ok st
    ∧ Pandas.getitem df "City" = Py.Ok ci
    ∧ Forall2 (fun c f => c = None ↔ Csv.is_na f = true) st [""; "7"]
    ∧ Forall2 (fun c f => c = None ↔ Csv.is_na f = true) ci ["Delhi"; "Pune"].
Proof.
  apply (csv_round_trip_keeps_shape [("", "Delhi"); ("7", "Pune")]).
  repeat constructor.
Defined.

Lemma json_round_trip_keeps_shape_witness :
  ∃ df, Json.read_json (Json.to_json (Dataset.to_frame [("1", "Delhi")])) = Py.Ok df
        ∧ Pandas.columns df = ["State"; "City"]
        ∧ Pandas.len df = 1.
Proof.
  apply (proj1 json_round_trip_keeps_shape [("1", "Delhi")]). discriminate.
Defined.

Section pipeline.
Import Pandas Text Eff.
Context (net : string → Scraper.response).

Lemma suffix_combined :
  Pathlib.suffix "combined_sih_data.csv" = ".csv"
  ∧ Pathlib.suffix "combined_sih_data.json" = ".json".
Proof. split; reflexivity. Qed.

Lemma stats_total {U} `{EqDecision U} (self : Analysis.SIHAnalyzer)
    (w : Analysis.world (U:=U)) (d : DataFrame U) :
  Analysis.heap w !! Analysis.df self = Some d →
  "State" ∈ columns d → "City" ∈ columns d →
  ∃ stats, Analysis.basic_stats self w = (Py.Ok stats, w)
           ∧ Analysis.dict_get "Total Entries" stats = Some (Analysis.Count (len d)).
Proof.
  intros Hd HS HC.
  destruct (getitem_elem d "State" HS) as (st & Hst & _).
  destruct (getitem_elem d "City" HC) as (ci & Hci & _).
  unfold Analysis.basic_stats, Eff.bind, Analysis.deref, Eff.lift, Analysis.stats_of.
  rewrite Hd, Hst, Hci. simpl. eexists. split; reflexivity.
Qed.

(** The analyzer built on a file that holds a frame with the two
    columns. *)
Lemma init_loaded (path : string) (s : string) (d : DataFrame scalar)
    (w : Analysis.world (U:=scalar)) :
  (Pathlib.suffix path = ".csv" ∧ Csv.read_csv s = Py.Ok d
   ∨ Pathlib.suffix path = ".json" ∧ Json.read_json s = Py.Ok d) →
  Analysis.disk w !! path = Some s →
  ∃ self w',
    Analysis.init Csv.read_csv Json.read_json path w = (Py.Ok self, w')
    ∧ Analysis.heap w' !! Analysis.df self = Some d.
Proof.
  intros Hs Hdisk. do 2 eexists.
  split; [exact (init_ok Csv.read_csv Json.read_json path s d w Hs Hdisk)|].
  cbn [Analysis.heap Analysis.df]. apply lookup_insert_eq.
Qed.

(** X8. The two scripts agree on their files. After a run of the
    Collector that kept at least one record, the analyzer built on
    [combined_sih_data.json] loads, and [basic_stats] reports as "Total
    Entries" the number of records the Collector kept; so does the
    analyzer built on [combined_sih_data.csv] when no kept text holds a
    carriage return. *)
Theorem collector_feeds_reporter (urls : list string) (w : Scraper.world)
    (h : gmap positive (DataFrame scalar)) (lg : list Analysis.effect) :
  let D := urls ≫= Scraper.records net in
  let written := Scraper.files (Scraper.main_with net urls w).2 in
  let analyzed (path : string) :=
    ∃ self w' stats,
      Analysis.init Csv.read_csv Json.read_json path (Analysis.mkWorld h written lg)
      = (Py.Ok self, w')
      ∧ Analysis.basic_stats self w' = (Py.Ok stats, w')
      ∧ Analysis.dict_get "Total Entries" stats
        = Some (Analysis.Count (length D)) in
  D ≠ [] →
  (Forall (fun r => existsb Csv.is_cr r.1 = false ∧ existsb Csv.is_cr r.2 = false) D →
   analyzed "combined_sih_data.csv")
  ∧ analyzed "combined_sih_data.json".
Proof.
  intros D written analyzed HD.
  assert (Hfr : omap (Scraper.fragment net) urls ≠ []).
  { intros Hnil. apply HD. by apply records_nil_fragments. }
  destruct (main_with_spec net urls w) as (w1 & Hm & _ & Hf & _).
  assert (Hcsv : written !! "combined_sih_data.csv"
                 = Some (Csv.to_csv (Dataset.to_frame D))).
  { unfold written. rewrite Hm. cbn [snd]. rewrite Hf.
    destruct (omap (Scraper.fragment net) urls); [done|].
    rewrite lookup_insert_ne by done. by rewrite lookup_insert_eq. }
  assert (Hjson : written !! "combined_sih_data.json"
                  = Some (Json.to_json (Dataset.to_frame D))).
  { unfold written. rewrite Hm. cbn [snd]. rewrite Hf.
    destruct (omap (Scraper.fragment net) urls); [done|].
    by rewrite lookup_insert_eq. }
  destruct suffix_combined as [Hs1 Hs2].
  split.
  - intros Hcr. unfold analyzed.
    destruct (init_loaded "combined_sih_data.csv" _ _
                (Analysis.mkWorld h written lg)
                (or_introl (conj Hs1 (read_csv_written D Hcr))) Hcsv)
      as (self & w' & Hi & Hh).
    destruct (stats_total self w' _ Hh) as (stats & Hb & Ht);
      [apply list_elem_of_here|apply list_elem_of_further, list_elem_of_here|].
    exists self, w', stats. split; [done|]. split; [done|].
    rewrite Ht. unfold len. cbn [rows]. by rewrite length_fmap.
  - unfold analyzed. destruct (read_json_written D HD) as (rs & Hr & Hl).
    destruct (init_loaded "combined_sih_data.json" _ _
                (Analysis.mkWorld h written lg)
                (or_intror (conj Hs2 Hr)) Hjson)
      as (self & w' & Hi & Hh).
    destruct (stats_total self w' _ Hh) as (stats & Hb & Ht);
      [apply list_elem_of_here|apply list_elem_of_further, list_elem_of_here|].
    exists self, w', stats. split; [done|]. split; [done|].
    rewrite Ht. unfold len. cbn [rows]. by rewrite Hl.
Qed.

End pipeline.

Lemma collector_feeds_reporter_witness :
  let written :=
    Scraper.files (Scraper.main_with Scraper.example_net ["a"; "b"]
                     Scraper.empty_world).2 in
  let analyzed (path : string) :=
    ∃ self w' stats,
      Analysis.init Csv.read_csv Json.read_json path (Analysis.mkWorld ∅ written [])
      = (Py.Ok self, w')
      ∧ Analysis.basic_stats self w' = (Py.Ok stats, w')
      ∧ Analysis.dict_get "Total Entries" stats = Some (Analysis.Count 1) in
  analyzed "combined_sih_data.csv" ∧ analyzed "combined_sih_data.json".
Proof.
  intros written analyzed.
  destruct (collector_feeds_reporter Scraper.example_net ["a"; "b"]
              Scraper.empty_world ∅ []) as [Hcsv Hjson].
  - vm_compute. discriminate.
  - split; [|exact Hjson]. apply Hcsv. vm_compute. repeat constructor.
Defined.

(** ** A missing column *)

Section reporter_errors.
Import Pandas Eff Analysis.
Context {U : Type} `{EqDecision U}.
Context (leb : U → U → bool) (int : nat → U).

Local Abbreviation world := (world (U:=U)).

Lemma index_of_missing (name : string) (cols : list string) :
  name ∉ cols → index_of name cols = None.
Proof.
  induction cols as [|c cols IH]; [done|]. intros Hn.
  apply not_elem_of_cons in Hn as [Hc Hn].
  cbn [index_of]. rewrite decide_False by done. by rewrite IH.
Qed.

Lemma getitem_missing (d : DataFrame U) (name : string) :
  name ∉ columns d → getitem d name = Py.Raise (Py.KeyError name).
Proof. intros Hn. unfold getitem. by rewrite index_of_missing. Qed.

(** X9. A frame without the column State makes [basic_stats],
    [plot_top_states] and [state_city_heatmap] raise [KeyError State]; one
    without City makes [plot_city_distribution] raise [KeyError City], and
    so do [basic_stats] and [state_city_heatmap] when State is there. In
    each case the world is unchanged: nothing was drawn, saved or
    printed. *)
Theorem missing_column_stops_before_drawing (self : SIHAnalyzer) (w : world)
    (d : DataFrame U) (n top_states top_cities : Z) (save : bool) :
  heap w !! df self = Some d →
  ("State" ∉ columns d →
     basic_stats self w = (Py.Raise (Py.KeyError "State"), w)
     ∧ plot_top_states int self n save w = (Py.Raise (Py.KeyError "State"), w)
     ∧ state_city_heatmap leb self top_states top_cities save w
       = (Py.Raise (Py.KeyError "State"), w))
  ∧ ("City" ∉ columns d →
     plot_city_distribution int self n save w = (Py.Raise (Py.KeyError "City"), w)
     ∧ ("State" ∈ columns d →
        basic_stats self w = (Py.Raise (Py.KeyError "City"), w)
        ∧ state_city_heatmap leb self top_states top_cities save w
          = (Py.Raise (Py.KeyError "City"), w))).
Proof.
  intros Hd. split.
  - intros HS. pose proof (getitem_missing d "State" HS) as Hg.
    unfold basic_stats, plot_top_states, state_city_heatmap, stats_of.
    unfold bind, deref, lift. rewrite Hd, Hg. done.
  - intros HC. pose proof (getitem_missing d "City" HC) as Hg.
    split.
    + unfold plot_city_distribution, bind, deref, lift. rewrite Hd, Hg. done.
    + intros HS. destruct (getitem_elem d "State" HS) as (st & Hst & _).
      unfold basic_stats, state_city_heatmap, stats_of.
      unfold bind, deref, lift. rewrite Hd, Hst, Hg. done.
Qed.

(** X10. [create_summary_dashboard] switches the style to
    "dark_background" and opens its figure before it reads the frame. On a
    frame without State it raises [KeyError State] after these calls; on
    one with State and without City it raises [KeyError City] after the
    first panel was drawn. Nothing is saved or shown. *)
Theorem dashboard_restyles_before_reading (self : SIHAnalyzer) (w : world)
    (d : DataFrame U) (save : bool) :
  heap w !! df self = Some d →
  let opened := [plt (style_use "dark_background"); plt (figure 20 12);
                 plt (decorate "add_gridspec"); plt (add_subplot "gs[0, 0]")] in
  ("State" ∉ columns d →
     create_summary_dashboard leb self save w
     = (Py.Raise (Py.KeyError "State"),
        mkWorld (heap w) (disk w) (log w ++ opened)))
  ∧ (∀ st, getitem d "State" = Py.Ok st → "City" ∉ columns d →
     let state_data := head 8 (value_counts st) in
     create_summary_dashboard leb self save w
     = (Py.Raise (Py.KeyError "City"),
        mkWorld (heap w) (disk w)
          (log w ++ opened
           ++ [plt (barplot_xy (snd <$> state_data) (fst <$> state_data)
                      (Named "viridis" None) "ax1");
               plt (title "Top States"); plt (decorate "ax1.set_xlabel");
               plt (add_subplot "gs[0, 1]")]))).
Proof.
  intros Hd opened. split.
  - intros HS. pose proof (getitem_missing d "State" HS) as Hg.
    unfold create_summary_dashboard, bind, emit, deref, lift.
    cbn [heap disk log]. rewrite Hd, Hg. cbn [heap disk log].
    by rewrite <- !app_assoc.
  - intros st Hst HC sd. pose proof (getitem_missing d "City" HC) as Hg.
    unfold create_summary_dashboard, bind, emit, deref, lift.
    cbn [heap disk log]. rewrite Hd, Hst. cbn [heap disk log].
    rewrite Hd, Hg. by rewrite <- !app_assoc.
Qed.

End reporter_errors.

Lemma missing_column_stops_before_drawing_witness :
  let d := Pandas.mkDF ["Region"; "City"] [[Some (Str "MH"); Some (Str "Pune")]] in
  let w := Analysis.mkWorld {[ 1%positive := d ]} ∅ [] in
  let self := Analysis.mkAnalyzer "teams.csv" 1 [] "results" in
  Analysis.plot_top_states Scalar.int self 10 true w
  = (Py.Raise (Py.KeyError "State"), w).
Proof.
  intros d w self.
  assert (Hd : Analysis.heap w !! Analysis.df self = Some d) by reflexivity.
  assert (HS : "State" ∉ Pandas.columns d).
  { intros H. repeat (apply elem_of_cons in H as [H|H]; [discriminate H|]).
    by apply elem_of_nil in H. }
  pose proof (missing_column_stops_before_drawing Scalar.leb Scalar.int
                self w d 10 10 10 true Hd) as [Hmiss _].
  exact (proj1 (proj2 (Hmiss HS))).
Defined.

Lemma dashboard_restyles_before_reading_witness :
  let d := Pandas.mkDF ["Region"; "City"] [[Some (Str "MH"); Some (Str "Pune")]] in
  let w := Analysis.mkWorld {[ 1%positive := d ]} ∅ [] in
  let self := Analysis.mkAnalyzer "teams.csv" 1 [] "results" in
  Analysis.create_summary_dashboard Scalar.leb self true w
  = (Py.Raise (Py.KeyError "State"),
     Analysis.mkWorld {[ 1%positive := d ]} ∅
       [Analysis.plt (Analysis.style_use "dark_background");
        Analysis.plt (Analysis.figure 20 12);
        Analysis.plt (Analysis.decorate "add_gridspec");
        Analysis.plt (Analysis.add_subplot "gs[0, 0]")]).
Proof.
  intros d w self.
  assert (Hd : Analysis.heap w !! Analysis.df self = Some d) by reflexivity.
  assert (HS : "State" ∉ Pandas.columns d).
  { intros H. repeat (apply elem_of_cons in H as [H|H]; [discriminate H|]).
    by apply elem_of_nil in H. }
  pose proof (dashboard_restyles_before_reading Scalar.leb self w d true Hd)
    as [Hmiss _].
  exact (Hmiss HS).
Defined.

(** ** The files the analyzer accepts *)

Section paths.
Import Pathlib.

Lemma split_on_nonempty (sep : ascii) (s : string) : split_on sep s ≠ [].
Proof.
  destruct s as [|c s]; [done|]. cbn [split_on].
  case_decide; [done|]. by destruct (split_on sep s).
Qed.

Lemma split_on_app (sep : ascii) (a b : string) :
  split_on sep (a +:+ String sep b) = split_on sep a ++ split_on sep b.
Proof.
  induction a as [|c a IH].
  - change ("" +:+ String sep b) with (String sep b). cbn [split_on].
    by rewrite decide_True.
  - rewrite str_app_cons. cbn [split_on]. rewrite IH.
    case_decide; [done|].
    pose proof (split_on_nonempty sep a). by destruct (split_on sep a).
Qed.

Lemma split_on_plain (sep : ascii) (s : string) :
  Text.existsb (fun c => bool_decide (c = sep)) s = false →
  split_on sep s = [s].
Proof.
  induction s as [|c s IH]; [done|]. cbn [Text.existsb split_on].
  intros [Hc Hs]%orb_false_iff. apply bool_decide_eq_false in Hc.
  rewrite decide_False by done. by rewrite IH.
Qed.

(** The name of a path is its last component. *)
Lemma name_of_file (dir file : string) :
  (dir = "" ∨ ∃ d, dir = d +:+ "/") →
  Text.existsb (fun c => bool_decide (c = "/"%char)) file = false →
  file ≠ "" → file ≠ "." →
  name (dir +:+ file) = file.
Proof.
  intros Hdir Hf H1 H2. unfold name, parts.
  destruct Hdir as [->|[d ->]].
  - change ("" +:+ file) with file. rewrite split_on_plain by done.
    rewrite filter_cons, decide_True by done. done.
  - rewrite str_app_assoc. change ("/" +:+ file) with (String "/" file).
    rewrite split_on_app, (split_on_plain _ file) by done.
    rewrite filter_app, filter_cons, decide_True by done.
    rewrite filter_nil. by rewrite last_snoc.
Qed.

Lemma rfind_none (c : ascii) (s : string) :
  Text.existsb (fun x => bool_decide (x = c)) s = false → rfind c s = None.
Proof.
  induction s as [|a s IH]; [done|]. cbn [Text.existsb rfind].
  intros [Ha Hs]%orb_false_iff. apply bool_decide_eq_false in Ha.
  rewrite IH by done. by rewrite decide_False.
Qed.

Lemma rfind_last (c : ascii) (a b : string) :
  Text.existsb (fun x => bool_decide (x = c)) b = false →
  rfind c (a +:+ String c b) = Some (String.length a).
Proof.
  intros Hb. induction a as [|x a IH].
  - change ("" +:+ String c b) with (String c b). cbn [rfind].
    rewrite rfind_none by done. by rewrite decide_True.
  - rewrite str_app_cons. cbn [rfind]. by rewrite IH.
Qed.

Lemma substring_all (s : string) : substring 0 (String.length s) s = s.
Proof. induction s as [|c s IH]; [done|]. cbn. by rewrite IH. Qed.

Lemma substring_tail (a b : string) :
  substring (String.length a) (String.length b) (a +:+ b) = b.
Proof.
  induction a as [|c a IH]; [apply substring_all|].
  rewrite str_app_cons. cbn [String.length substring]. exact IH.
Qed.

(** The suffix of a path whose last component is [stem.ext]. *)
Lemma suffix_of_file (dir stem ext : string) :
  (dir = "" ∨ ∃ d, dir = d +:+ "/") →
  Text.existsb (fun c => bool_decide (c = "/"%char)) (stem +:+ String "." ext) = false →
  Text.existsb (fun c => bool_decide (c = "."%char)) ext = false →
  stem ≠ "" → ext ≠ "" →
  suffix (dir +:+ stem +:+ String "." ext) = String "." ext.
Proof.
  intros Hdir Hslash Hdot Hstem Hext. unfold suffix.
  rewrite name_of_file; [|done|done|by destruct stem|].
  2:{ destruct stem as [|c [|c' stem]]; [done| |done].
      destruct ext; [done|]. done. }
  rewrite rfind_last by done.
  rewrite str_length_app. cbn [String.length].
  rewrite decide_True.
  2:{ destruct stem; [done|]. destruct ext; [done|]. cbn [String.length]. lia. }
  replace (String.length stem + S (String.length ext) - String.length stem)
    with (String.length (String "." ext)) by (cbn [String.length]; lia).
  apply substring_tail.
Qed.

End paths.

Section accepted_files.
Import Pandas Eff Analysis.
Context {U : Type} `{EqDecision U}.
Context (read_csv read_json : string → Py.result (DataFrame U)).

(** X11. For a path [dir/stem.ext] (the directory part empty or ending in
    a slash, the stem not empty, the extension not empty and without dots)
    the suffix is [.ext]: [load_data] reads the file with the CSV reader
    for "csv", with the JSON reader for "json", and raises the
    [ValueError] for any other extension, such as "CSV". *)
Theorem load_data_by_extension (dir stem ext : string) (w : world (U:=U)) :
  (dir = "" ∨ ∃ d, dir = d +:+ "/") →
  Text.existsb (fun c => bool_decide (c = "/"%char)) (stem +:+ String "." ext) = false →
  Text.existsb (fun c => bool_decide (c = "."%char)) ext = false →
  stem ≠ "" → ext ≠ "" →
  let path := dir +:+ stem +:+ String "." ext in
  Pathlib.suffix path = String "." ext
  ∧ (ext = "csv" →
     load_data read_csv read_json path w
     = (s <- read_file path ;; d <- lift (read_csv s) ;; alloc d) w)
  ∧ (ext = "json" →
     load_data read_csv read_json path w
     = (s <- read_file path ;; d <- lift (read_json s) ;; alloc d) w)
  ∧ (ext ≠ "csv" → ext ≠ "json" →
     load_data read_csv read_json path w
     = (Py.Raise (Py.ValueError "Unsupported file format. Use CSV or JSON."), w)).
Proof.
  intros Hdir Hslash Hdot Hstem Hext path.
  pose proof (suffix_of_file dir stem ext Hdir Hslash Hdot Hstem Hext) as Hs.
  fold path in Hs. split; [exact Hs|]. unfold load_data. rewrite Hs.
  split_and!.
  - intros ->. by rewrite decide_True.
  - intros ->. rewrite decide_False, decide_True by done. done.
  - intros H1 H2. rewrite !decide_False; [done| |]; intros [= ?]; done.
Qed.

End accepted_files.

Lemma load_data_by_extension_witness :
  let w := Analysis.mkWorld (U:=scalar) ∅ {[ "data/teams.CSV" := "State,City" ]} [] in
  Pathlib.suffix "data/teams.CSV" = ".CSV"
  ∧ Analysis.load_data Csv.read_csv Json.read_json "data/teams.CSV" w
    = (Py.Raise (Py.ValueError "Unsupported file format. Use CSV or JSON."), w).
Proof.
  intros w.
  assert (Hdir : "data/" = "" ∨ ∃ d, "data/" = d +:+ "/") by (right; by exists "data").
  pose proof (load_data_by_extension Csv.read_csv Json.read_json
                "data/" "teams" "CSV" w Hdir eq_refl eq_refl) as Hl.
  destruct Hl as (Hs & _ & _ & Hno); [discriminate|discriminate|].
  split; [exact Hs|]. apply Hno; discriminate.
Defined.

(** ** Counts and the entries of the statistics *)

Section exact_counts.
Import Pandas.
Context {U : Type} `{EqDecision U}.
Implicit Types (t : list (U * nat)) (l : list U) (s : list (cell U)).

Lemma count_of_bump x y t :
  count_of x (bump y t) = count_of x t + (if decide (y = x) then 1 else 0).
Proof.
  unfold count_of. induction t as [|[z n] t IH].
  - cbn. destruct (decide (y = x)); lia.
  - cbn [bump]. destruct (decide (y = z)) as [->|Hyz]; cbn [sum_list_with fst snd].
    + destruct (decide (z = x)); lia.
    + rewrite IH. lia.
Qed.

Lemma count_of_tally x l :
  count_of x (tally l) = length (filter (fun y => y = x) l).
Proof.
  unfold tally.
  enough (Hg : ∀ t, count_of x (foldl (fun t y => bump y t) t l)
                    = count_of x t + length (filter (fun y => y = x) l))
    by (rewrite Hg; done).
  induction l as [|y l IH]; intros t; cbn [foldl].
  - rewrite filter_nil. cbn. lia.
  - rewrite IH, count_of_bump, filter_cons.
    destruct (decide (y = x)); cbn [length]; lia.
Qed.

Lemma count_of_perm x t t' : t ≡ₚ t' → count_of x t = count_of x t'.
Proof. unfold count_of. intros Hp. induction Hp; cbn; lia. Qed.

Lemma occurrences_dropna x s :
  length (filter (fun y => y = x) (dropna s)) = occurrences x s.
Proof.
  unfold occurrences, dropna. induction s as [|c s IH]; [done|].
  rewrite filter_cons. destruct c as [y|]; cbn [omap list_omap id].
  - rewrite filter_cons. destruct (decide (y = x)) as [->|Hne].
    + rewrite decide_True by done. cbn [length]. by rewrite IH.
    + rewrite decide_False by (intros [= ?]; done). exact IH.
  - rewrite decide_False by done. exact IH.
Qed.

Lemma count_of_value_counts x s :
  count_of x (value_counts s) = occurrences x s.
Proof.
  unfold value_counts. rewrite (count_of_perm x _ _ (sort_desc_perm _)).
  by rewrite count_of_tally, occurrences_dropna.
Qed.

Lemma count_of_absent x t : x ∉ t.*1 → count_of x t = 0.
Proof.
  unfold count_of. induction t as [|[z n] t IH]; [done|].
  rewrite fmap_cons. intros [Hz Hx]%not_elem_of_cons. cbn [sum_list_with fst snd] in *.
  rewrite decide_False by done. by rewrite IH.
Qed.

Lemma count_of_listed x k t : NoDup t.*1 → (x, k) ∈ t → count_of x t = k.
Proof.
  unfold count_of. induction t as [|[z n] t IH]; intros Hn Hx.
  - by apply elem_of_nil in Hx.
  - rewrite fmap_cons in Hn. apply NoDup_cons in Hn as [Hz Hn].
    cbn [sum_list_with fst snd] in *.
    apply elem_of_cons in Hx as [[= -> ->]|Hx].
    + rewrite decide_True by done.
      fold (count_of z t). rewrite count_of_absent by done. lia.
    + rewrite decide_False.
      * rewrite IH by done. done.
      * intros ->. apply Hz. apply list_elem_of_fmap. by exists (x, k).
Qed.

Lemma value_counts_labels s : (value_counts s).*1 ≡ₚ unique (dropna s).
Proof.
  unfold value_counts. rewrite sort_desc_perm. by rewrite fst_tally.
Qed.

Lemma occurrences_pos x s : Some x ∈ s ↔ 0 < occurrences x s.
Proof.
  unfold occurrences. induction s as [|c s IH].
  - rewrite filter_nil. cbn. split; [by intros ?%elem_of_nil|lia].
  - rewrite filter_cons, elem_of_cons. destruct (decide (c = Some x)) as [->|Hc].
    + cbn [length]. split; [lia|auto].
    + rewrite <- IH. split; [intros [?|?]; [congruence|done]|auto].
Qed.

Lemma elem_of_dropna x s : x ∈ dropna s ↔ Some x ∈ s.
Proof.
  unfold dropna. rewrite list_elem_of_omap. split.
  - intros (c & Hc & Hx). destruct c; cbn in Hx; [|done]. by injection Hx as ->.
  - intros Hx. by exists (Some x).
Qed.

(** X12. The ranking [value_counts] gives lists every value of the series
    once, with the number of cells that hold it, and lists nothing else;
    the ranking behind "Top 5 States" and the bar charts counts rows
    exactly. *)
Theorem value_counts_are_exact s :
  NoDup (value_counts s).*1
  ∧ (∀ x k, (x, k) ∈ value_counts s ↔ 0 < k ∧ k = occurrences x s)
  ∧ (∀ x, count_of x (value_counts s) = occurrences x s).
Proof.
  assert (Hn : NoDup (value_counts s).*1).
  { rewrite value_counts_labels. apply unique_spec. }
  assert (Hl : ∀ x, x ∈ (value_counts s).*1 ↔ Some x ∈ s).
  { intros x. rewrite value_counts_labels.
    rewrite (proj2 (unique_spec (dropna s)) x). apply elem_of_dropna. }
  split; [exact Hn|]. split; [|intros x; apply count_of_value_counts].
  intros x k. split.
  - intros Hx. pose proof (count_of_listed x k _ Hn Hx) as Hk.
    rewrite count_of_value_counts in Hk. subst k. split; [|done].
    apply occurrences_pos, Hl. apply list_elem_of_fmap. by exists (x, occurrences x s).
  - intros [Hpos ->]. apply occurrences_pos, Hl in Hpos.
    apply list_elem_of_fmap in Hpos as ([y k] & Hy & Hin). cbn in Hy. subst y.
    pose proof (count_of_listed x k _ Hn Hin) as Hk.
    rewrite count_of_value_counts in Hk. by subst k.
Qed.

(** *** Relations between the entries of [basic_stats] *)

Lemma length_dropna s : length (dropna s) ≤ length s.
Proof.
  unfold dropna. induction s as [|[x|] s IH]; cbn [omap list_omap id length]; lia.
Qed.

Lemma length_unique l : length (unique l) ≤ length l.
Proof.
  destruct (unique_spec l) as [Hn He].
  apply submseteq_length, NoDup_submseteq; [done|]. intros x. apply He.
Qed.

Lemma nunique_le s : nunique s ≤ length s.
Proof.
  unfold nunique. etrans; [apply length_unique|apply length_dropna].
Qed.

Lemma total_take n t : total (take n t) ≤ total t.
Proof.
  unfold total. rewrite !sum_list_fmap_with. rewrite <- (take_drop n t) at 2.
  rewrite sum_list_with_app. lia.
Qed.

Lemma unique_nonempty l : l ≠ [] → unique l ≠ [].
Proof.
  destruct l as [|x l]; [done|]. intros _ Hnil.
  assert (Hx : x ∈ unique (x :: l)) by (apply unique_spec, list_elem_of_here).
  rewrite Hnil in Hx. by apply elem_of_nil in Hx.
Qed.

End exact_counts.

Section stats.
Import Pandas Analysis.
Context {U : Type} `{EqDecision U}.

(** X13. The entries of [basic_stats] fit together: the numbers of unique
    States and Cities are at most the number of rows, a top-5 entry has
    [min 5 unique] lines and its counts add up to at most the number of
    rows. On a frame without missing values the counts of a top-5 entry add
    up to the number of rows when there are at most five distinct values,
    and a frame with rows has at least one State and one City. *)
Theorem stats_are_consistent (d : DataFrame U) (stats : list (string * stat)) :
  stats_of d = Py.Ok stats →
  ∃ us uc ts tc,
    stats = [("Total Entries", Count (len d));
             ("Unique States", Count us); ("Unique Cities", Count uc);
             ("Top 5 States", Series ts); ("Top 5 Cities", Series tc)]
    ∧ us ≤ len d ∧ uc ≤ len d
    ∧ length ts = 5 `min` us ∧ length tc = 5 `min` uc
    ∧ total ts ≤ len d ∧ total tc ≤ len d
    ∧ (Dataset.invariant d →
       (us ≤ 5 → total ts = len d) ∧ (uc ≤ 5 → total tc = len d)
       ∧ (0 < len d → 0 < us ∧ 0 < uc)).
Proof.
  unfold stats_of. intros Hs.
  destruct (getitem d "State") as [st|e] eqn:Hst; [|done].
  destruct (getitem d "City") as [ci|e] eqn:Hci; [|done].
  cbn [Py.bind] in Hs. injection Hs as <-.
  apply getitem_length in Hst as Hlst. apply getitem_length in Hci as Hlci.
  exists (nunique st), (nunique ci), (head 5 (value_counts st)),
    (head 5 (value_counts ci)).
  rewrite !head_nonneg by lia. change (Z.to_nat 5) with 5.
  rewrite !length_take, !length_value_counts.
  pose proof (nunique_le st). pose proof (nunique_le ci).
  pose proof (total_take 5 (value_counts st)) as Ht1.
  pose proof (total_take 5 (value_counts ci)) as Ht2.
  rewrite total_value_counts in Ht1, Ht2.
  pose proof (length_dropna st). pose proof (length_dropna ci).
  split_and!; [done|lia..|].
  intros (st' & ci' & Hst' & Hci' & HS & HC).
  assert (st' = st) as -> by congruence. assert (ci' = ci) as -> by congruence.
  split_and!.
  - intros Hle. rewrite take_ge by (rewrite length_value_counts; lia).
    by rewrite total_value_counts, dropna_present.
  - intros Hle. rewrite take_ge by (rewrite length_value_counts; lia).
    by rewrite total_value_counts, dropna_present.
  - intros Hpos. unfold nunique.
    assert (Hd1 : dropna st ≠ []).
    { intros Hnil. apply (f_equal length) in Hnil.
      rewrite dropna_present in Hnil by done. simpl in Hnil. lia. }
    assert (Hd2 : dropna ci ≠ []).
    { intros Hnil. apply (f_equal length) in Hnil.
      rewrite dropna_present in Hnil by done. simpl in Hnil. lia. }
    apply unique_nonempty in Hd1, Hd2.
    destruct (unique (dropna st)); [done|]. destruct (unique (dropna ci)); [done|].
    simpl. lia.
Qed.

End stats.

Lemma stats_are_consistent_witness :
  ∃ us uc ts tc,
    [("Total Entries", Analysis.Count 3);
     ("Unique States", Analysis.Count 2); ("Unique Cities", Analysis.Count 3);
     ("Top 5 States", Analysis.Series [(Str "MH", 2); (Str "DL", 1)]);
     ("Top 5 Cities",
      Analysis.Series [(Str "Mumbai", 1); (Str "Pune", 1); (Str "Delhi", 1)])]
    = [("Total Entries", Analysis.Count (Pandas.len Dataset.scenario));
       ("Unique States", Analysis.Count us); ("Unique Cities", Analysis.Count uc);
       ("Top 5 States", Analysis.Series ts); ("Top 5 Cities", Analysis.Series tc)]
    ∧ us ≤ Pandas.len Dataset.scenario ∧ uc ≤ Pandas.len Dataset.scenario
    ∧ length ts = 5 `min` us ∧ length tc = 5 `min` uc
    ∧ Pandas.total ts ≤ Pandas.len Dataset.scenario
    ∧ Pandas.total tc ≤ Pandas.len Dataset.scenario.
Proof.
  destruct (stats_are_consistent Dataset.scenario _ eq_refl)
    as (us & uc & ts & tc & H1 & H2 & H3 & H4 & H5 & H6 & H7 & _).
  exists us, uc, ts, tc. split_and!; assumption.
Defined.

(** ** What the charts add to the log *)

Section effects.
Import Pandas Eff Analysis.
Context {U : Type} `{EqDecision U}.
Context (leb : U → U → bool) (int : nat → U).

Local Abbreviation world := (world (U:=U)).
Local Abbreviation M := (Eff.M world).
Implicit Types (P : effect (U:=U) → Prop).

Lemma bind_Ok {A B} (m : M A) (k : A → M B) (w w' : world) (b : B) :
  bind m k w = (Py.Ok b, w') →
  ∃ a w1, m w = (Py.Ok a, w1) ∧ k a w1 = (Py.Ok b, w').
Proof.
  unfold bind. destruct (m w) as [[a|e] w1]; [|done]. intros Hk. by exists a, w1.
Qed.

Lemma emits_silent {A} P (m : M A) :
  (∀ w, log (m w).2 = log w) → emits P m.
Proof. intros Hm w. exists []. by rewrite Hm, app_nil_r. Qed.

Lemma emits_ret {A} P (a : A) : emits P (ret a).
Proof. by apply emits_silent. Qed.

Lemma emits_lift {A} P (r : Py.result A) : emits P (lift r).
Proof. by apply emits_silent. Qed.

Lemma emits_deref P l : emits P (deref l).
Proof. apply emits_silent. intros w. unfold deref. by destruct (heap w !! l). Qed.

Lemma emits_alloc P d : emits P (alloc d).
Proof. by apply emits_silent. Qed.

Lemma emits_set_columns P l names : emits P (set_columns l names).
Proof.
  apply emits_silent. intros w. unfold set_columns.
  destruct (heap w !! l); [|done]. by case_decide.
Qed.

Lemma emits_emit P e : P e → emits P (emit e).
Proof. intros He w. exists [e]. split; [done|]. by constructor. Qed.

Lemma emits_bind {A B} P (m : M A) (k : A → M B) :
  emits P m → (∀ a, emits P (k a)) → emits P (bind m k).
Proof.
  intros Hm Hk w. unfold bind. destruct (Hm w) as (es1 & H1 & HP1).
  destruct (m w) as [[a|e] w1]; cbn [snd] in *.
  - destruct (Hk a w1) as (es2 & H2 & HP2). exists (es1 ++ es2).
    rewrite H2, H1, app_assoc. split; [done|]. by apply Forall_app.
  - by exists es1.
Qed.

Lemma emits_emit_all P es : Forall P es → emits P (emit_all es).
Proof.
  induction 1 as [|e es He _ IH]; cbn [emit_all]; [apply emits_ret|].
  apply emits_bind; [by apply emits_emit|done].
Qed.

Lemma draws_bar_labels dy counts : Forall draws (bar_labels (U:=U) dy counts).
Proof.
  unfold bar_labels. apply Forall_forall. intros e He.
  apply elem_of_lookup_imap in He as (i & v & -> & _). exact I.
Qed.

Lemma ends_with_bind {A B} P tail (m : M A) (k : A → M B) :
  emits P m → (∀ a, ends_with P tail (k a)) → ends_with P tail (bind m k).
Proof.
  intros Hm Hk w b w' Hb. apply bind_Ok in Hb as (a & w1 & Hmw & Hkw).
  destruct (Hm w) as (es1 & H1 & HP1). rewrite Hmw in H1. cbn [snd] in H1.
  destruct (Hk a w1 b w' Hkw) as (es2 & H2 & HP2).
  exists (es1 ++ es2). rewrite H2, H1, !app_assoc. split; [done|]. by apply Forall_app.
Qed.

Lemma ends_with_save (path what : string) :
  ends_with draws
    [plt (savefig path); print (what +:+ " saved as " +:+ path); plt show]
    (save_and_show (U:=U) true path what).
Proof.
  intros w a w' Hs. exists [].
  unfold save_and_show, bind, emit in Hs. cbn [log heap disk] in Hs.
  injection Hs as _ <-. cbn [log app]. split; [|constructor].
  by rewrite <- !app_assoc.
Qed.

Lemma emits_show (path what : string) :
  emits draws (save_and_show (U:=U) false path what).
Proof.
  unfold save_and_show. apply emits_bind; [apply emits_ret|].
  intros _. by apply emits_emit.
Qed.


Ltac emits_step :=
  lazymatch goal with
  | |- emits _ (bind _ _) => apply emits_bind; [|intros ?]
  | |- emits _ (ret _) => apply emits_ret
  | |- emits _ (lift _) => apply emits_lift
  | |- emits _ (deref _) => apply emits_deref
  | |- emits _ (alloc _) => apply emits_alloc
  | |- emits _ (set_columns _ _) => apply emits_set_columns
  | |- emits _ (save_and_show false _ _) => apply emits_show
  | |- emits _ (emit_all _) => apply emits_emit_all; apply draws_bar_labels
  | |- emits _ (emit _) => apply emits_emit; exact I
  end.

Ltac emits_all := repeat emits_step.

Ltac ends_step :=
  lazymatch goal with
  | |- ends_with _ _ (save_and_show true _ _) => apply ends_with_save
  | |- ends_with _ _ (bind _ _) => apply ends_with_bind; [emits_all|intros ?]
  end.

Ltac ends_all := repeat ends_step.

Lemma saving_top_states (self : SIHAnalyzer) (n : Z) :
  saving self "top_states.png" "Plot" (plot_top_states int self n).
Proof. split; unfold plot_top_states; [emits_all|ends_all]. Qed.

Lemma saving_city_distribution (self : SIHAnalyzer) (n : Z) :
  saving self "city_distribution.png" "Plot" (plot_city_distribution int self n).
Proof. split; unfold plot_city_distribution; [emits_all|ends_all]. Qed.

Lemma saving_heatmap (self : SIHAnalyzer) (ks kc : Z) :
  saving self "state_city_heatmap.png" "Plot" (state_city_heatmap leb self ks kc).
Proof. split; unfold state_city_heatmap; [emits_all|ends_all]. Qed.

Lemma saving_dashboard (self : SIHAnalyzer) :
  saving self "sih_dashboard.png" "Dashboard" (create_summary_dashboard leb self).
Proof. split; unfold create_summary_dashboard; [emits_all|ends_all]. Qed.

(** X14. Each of the four charts only issues drawing calls when [save] is
    false: nothing is saved and nothing is printed. With [save] true a
    chart that returns has issued drawing calls and then, once, [savefig]
    on its own file in the results directory, the message, and [show]. *)
Theorem charts_save_only_on_request (self : SIHAnalyzer) (n ks kc : Z) :
  saving self "top_states.png" "Plot" (plot_top_states int self n)
  ∧ saving self "city_distribution.png" "Plot" (plot_city_distribution int self n)
  ∧ saving self "state_city_heatmap.png" "Plot" (state_city_heatmap leb self ks kc)
  ∧ saving self "sih_dashboard.png" "Dashboard" (create_summary_dashboard leb self).
Proof.
  split; [apply saving_top_states|].
  split; [apply saving_city_distribution|].
  split; [apply saving_heatmap|apply saving_dashboard].
Qed.

End effects.

Lemma charts_save_only_on_request_witness :
  let w := Analysis.mkWorld {[ 1%positive := Dataset.scenario ]} ∅ [] in
  let self := Analysis.mkAnalyzer "combined_sih_data.csv" 1 [] "results" in
  ∃ es,
    Analysis.log (Analysis.plot_top_states Scalar.int self 10 true w).2
    = Analysis.log w ++ es
      ++ [Analysis.plt (Analysis.savefig "results/top_states.png");
          Analysis.print "Plot saved as results/top_states.png";
          Analysis.plt Analysis.show]
    ∧ Forall Analysis.draws es.
Proof.
  intros w self.
  assert (Hr : ∃ w', Analysis.plot_top_states Scalar.int self 10 true w
                     = (Py.Ok (), w'))
    by (eexists; vm_compute; reflexivity).
  destruct Hr as [w' Hr]. rewrite Hr.
  exact (proj2 (proj1 (charts_save_only_on_request Scalar.leb Scalar.int self 10 10 10))
           w () w' Hr).
Defined.

(** ** The bar charts *)

Section bar_charts.
Import Pandas Eff Analysis.
Context {U : Type} `{EqDecision U}.
Context (int : nat → U).

Local Abbreviation world := (world (U:=U)).
Local Abbreviation M := (Eff.M world).

Lemma emit_all_run (es : list effect) (w : world) :
  emit_all es w = (Py.Ok (), mkWorld (heap w) (disk w) (log w ++ es)).
Proof.
  revert w. induction es as [|e es IH]; intros w; cbn [emit_all].
  - unfold ret. rewrite app_nil_r. by destruct w.
  - unfold bind, emit. rewrite IH. cbn [heap disk log]. by rewrite <- app_assoc.
Qed.

Lemma save_and_show_run (save : bool) (path what : string) (w : world) :
  save_and_show save path what w
  = (Py.Ok (),
     mkWorld (heap w) (disk w)
       (log w ++ (if save
                  then [plt (savefig path); print (what +:+ " saved as " +:+ path)]
                  else [])
        ++ [plt show])).
Proof.
  unfold save_and_show, bind, emit, ret. destruct save; cbn [heap disk log].
  - by rewrite <- !app_assoc.
  - done.
Qed.

(** The table of a bar chart: the selection as a frame, with its
    columns renamed in place. *)
Lemma counts_chart_run (self : SIHAnalyzer) (name label : string) (n : Z)
    (k : positive → M ()) (w : world) (d : DataFrame U) col :
  heap w !! df self = Some d →
  getitem d name = Py.Ok col →
  (d <- deref (df self) ;;
   c <- lift (getitem d name) ;;
   data <- alloc (reset_index int name (head n (value_counts c))) ;;
   set_columns data [label; "Count"] ;;;
   k data) w
  = k (fresh (dom (heap w)))
      (mkWorld (<[fresh (dom (heap w)) :=
                   mkDF [label; "Count"]
                     ((fun p => [Some p.1; Some (int p.2)])
                        <$> head n (value_counts col))]> (heap w))
               (disk w) (log w)).
Proof.
  intros Hd Hg. unfold bind at 1, deref. rewrite Hd.
  unfold bind at 1, lift. rewrite Hg.
  unfold bind at 1, alloc. cbn [fst snd].
  unfold bind at 1, set_columns. cbn [heap disk log].
  rewrite lookup_insert_eq. cbn [columns rows reset_index length].
  rewrite decide_True by done. by rewrite insert_insert_eq.
Qed.

Lemma getitem_Count (label : string) (sel : list (U * nat)) :
  label ≠ "Count" →
  getitem (mkDF [label; "Count"] ((fun p => [Some p.1; Some (int p.2)]) <$> sel))
    "Count"
  = Py.Ok ((fun p => Some (int p.2)) <$> sel).
Proof.
  intros Hne. unfold getitem. cbn [columns rows index_of].
  rewrite decide_False, decide_True by done. cbn [fmap option_fmap option_map].
  f_equal. rewrite <- list_fmap_compose. by apply list_fmap_ext.
Qed.

(** X15. The calls of the two bar charts on a frame that has the column.
    The table drawn is the top-n selection of the ranking under the
    columns State (or City) and Count, stored as a new frame; the column
    Count read back for the labels exists because of the renaming, and
    there is one label per bar, holding the count of the bar. *)
Theorem bar_charts_draw_the_ranking (self : SIHAnalyzer) (w : world)
    (d : DataFrame U) (n : Z) (save : bool) :
  heap w !! df self = Some d →
  let chart (label : string) (sel : list (U * nat)) :=
    mkDF [label; "Count"] ((fun p => [Some p.1; Some (int p.2)]) <$> sel) in
  let labels (dy : Q) (sel : list (U * nat)) :=
    bar_labels dy ((fun p => Some (int p.2)) <$> sel) in
  let closing (file : string) :=
    (if save
     then [plt (savefig (os_path_join (results_dir self) file));
           print ("Plot saved as " +:+ os_path_join (results_dir self) file)]
     else []) ++ [plt show] in
  (∀ col, getitem d "State" = Py.Ok col →
     let sel := head n (value_counts col) in
     (plot_top_states int self n save w).2
     = mkWorld (<[fresh (dom (heap w)) := chart "State" sel]> (heap w)) (disk w)
         (log w
          ++ [plt (figure 12 6);
              plt (barplot (chart "State" sel) "State" "Count"
                     (Colors (head n (colors self))));
              plt (title "Top States by Number of Selected Teams")]
          ++ labels 1%Q sel
          ++ [plt (decorate "grid"); plt (decorate "set_axisbelow");
              plt (decorate "xticks"); plt (decorate "spines");
              plt (decorate "tight_layout")]
          ++ closing "top_states.png"))
  ∧ (∀ col, getitem d "City" = Py.Ok col →
     let sel := head n (value_counts col) in
     (plot_city_distribution int self n save w).2
     = mkWorld (<[fresh (dom (heap w)) := chart "City" sel]> (heap w)) (disk w)
         (log w
          ++ [plt (figure 15 7);
              plt (barplot (chart "City" sel) "City" "Count"
                     (Named "viridis" (Some n)));
              plt (title "Distribution of Teams Across Top Cities")]
          ++ labels (1 # 2)%Q sel
          ++ [plt (decorate "grid"); plt (decorate "set_axisbelow");
              plt (decorate "xticks"); plt (decorate "tight_layout")]
          ++ closing "city_distribution.png")).
Proof.
  intros Hd chart labels closing. split.
  - intros col Hg sel. unfold plot_top_states.
    rewrite (counts_chart_run self "State" "State" n _ w d col Hd Hg).
    fold sel. fold (chart "State" sel).
    unfold bind at 1, emit at 1. cbn [heap disk log].
    unfold bind at 1, deref at 1. cbn [heap]. rewrite lookup_insert_eq.
    unfold bind at 1, emit at 1. cbn [heap disk log].
    unfold bind at 1, emit at 1. cbn [heap disk log].
    unfold bind at 1 2, deref at 1. cbn [heap]. rewrite lookup_insert_eq.
    unfold lift. unfold chart at 1. rewrite getitem_Count by done.
    unfold bind at 1. rewrite emit_all_run. cbn [heap disk log].
    unfold bind, emit. cbn [heap disk log].
    rewrite save_and_show_run. cbn [snd heap disk log].
    unfold closing, labels. by rewrite <- !app_assoc.
  - intros col Hg sel. unfold plot_city_distribution.
    rewrite (counts_chart_run self "City" "City" n _ w d col Hd Hg).
    fold sel. fold (chart "City" sel).
    unfold bind at 1, emit at 1. cbn [heap disk log].
    unfold bind at 1, deref at 1. cbn [heap]. rewrite lookup_insert_eq.
    unfold bind at 1, emit at 1. cbn [heap disk log].
    unfold bind at 1, emit at 1. cbn [heap disk log].
    unfold bind at 1 2, deref at 1. cbn [heap]. rewrite lookup_insert_eq.
    unfold lift. unfold chart at 1. rewrite getitem_Count by done.
    unfold bind at 1. rewrite emit_all_run. cbn [heap disk log].
    unfold bind, emit. cbn [heap disk log].
    rewrite save_and_show_run. cbn [snd heap disk log].
    unfold closing, labels. by rewrite <- !app_assoc.
Qed.

End bar_charts.

Lemma bar_charts_draw_the_ranking_witness :
  let w := Analysis.mkWorld {[ 1%positive := Dataset.scenario ]} ∅ [] in
  let self := Analysis.mkAnalyzer "combined_sih_data.csv" 1 [] "results" in
  Analysis.log (Analysis.plot_top_states Scalar.int self 1 false w).2
  = [Analysis.plt (Analysis.figure 12 6);
     Analysis.plt
       (Analysis.barplot
          (Pandas.mkDF ["State"; "Count"] [[Some (Str "MH"); Some (Int 2)]])
          "State" "Count" (Analysis.Colors []));
     Analysis.plt (Analysis.title "Top States by Number of Selected Teams");
     Analysis.plt (Analysis.text 0 (Some (Int 2)) 1 (Some (Int 2)));
     Analysis.plt (Analysis.decorate "grid");
     Analysis.plt (Analysis.decorate "set_axisbelow");
     Analysis.plt (Analysis.decorate "xticks");
     Analysis.plt (Analysis.decorate "spines");
     Analysis.plt (Analysis.decorate "tight_layout");
     Analysis.plt Analysis.show].
Proof.
  intros w self.
  rewrite (proj1 (bar_charts_draw_the_ranking Scalar.int self w Dataset.scenario
                    1 false eq_refl) _ eq_refl).
  vm_compute. reflexivity.
Defined.

(** ** The heat map *)

Section heat_map.
Import Pandas.
Context {U : Type} `{EqDecision U}.
Context (leb : U → U → bool).

Lemma index_of_lookup {A} `{EqDecision A} (x : A) (l : list A) (k : nat) :
  index_of x l = Some k → l !! k = Some x.
Proof.
  revert k. induction l as [|y l IH]; intros k; [done|]. cbn [index_of].
  case_decide as Hy; [by intros [= <-]; subst|].
  destruct (index_of x l) as [k'|]; [|done]. intros [= <-]. by apply IH.
Qed.

Lemma index_of_absent {A} `{EqDecision A} (x : A) (l : list A) :
  index_of x l = None → x ∉ l.
Proof.
  induction l as [|y l IH]; [intros _; apply not_elem_of_nil|]. cbn [index_of].
  case_decide as Hy; [done|].
  destruct (index_of x l) as [k'|]; [done|]. intros _.
  apply not_elem_of_cons. split; [congruence|by apply IH].
Qed.

Lemma zip_fmap_same {A B} (f : A → B) (l : list A) :
  zip l (f <$> l) = (fun x => (x, f x)) <$> l.
Proof. induction l as [|x l IH]; [done|]. cbn. by rewrite IH. Qed.

Lemma count_pair_absent (i j : U) (ps : list (U * U)) :
  i ∉ ps.*1 ∨ j ∉ ps.*2 → count_pair i j ps = 0.
Proof.
  intros Hij. unfold count_pair.
  destruct (filter (fun p => p = (i, j)) ps) as [|p k] eqn:Hf; [done|].
  assert (Hp : p ∈ filter (fun p => p = (i, j)) ps) by (rewrite Hf; apply list_elem_of_here).
  apply list_elem_of_filter in Hp as [-> Hp]. exfalso.
  destruct Hij as [Hi|Hj].
  - apply Hi, list_elem_of_fmap. by exists (i, j).
  - apply Hj, list_elem_of_fmap. by exists (i, j).
Qed.

Lemma crosstab_labels (a b : list (cell U)) :
  let ps := both a b in
  let ct := crosstab leb a b in
  (NoDup (ct_index ct) ∧ ∀ x, x ∈ ct_index ct ↔ x ∈ ps.*1)
  ∧ (NoDup (ct_columns ct) ∧ ∀ y, y ∈ ct_columns ct ↔ y ∈ ps.*2).
Proof.
  intros ps ct. unfold ct, crosstab. cbn [ct_index ct_columns]. fold ps. split.
  - split.
    + rewrite sort_labels_perm. apply unique_spec.
    + intros x. rewrite sort_labels_perm. apply unique_spec.
  - split.
    + rewrite sort_labels_perm. apply unique_spec.
    + intros x. rewrite sort_labels_perm. apply unique_spec.
Qed.

(** Every cell of the table is the number of rows with that pair. *)
Lemma ct_cell_crosstab (a b : list (cell U)) (i j : U) :
  ct_cell (crosstab leb a b) i j = count_pair i j (both a b).
Proof.
  destruct (crosstab_labels a b) as [[_ HI] [_ HJ]].
  unfold ct_cell.
  destruct (index_of i (ct_index (crosstab leb a b))) as [x|] eqn:Hx.
  2:{ apply index_of_absent in Hx. rewrite count_pair_absent; [done|].
      left. by rewrite <- HI. }
  destruct (index_of j (ct_columns (crosstab leb a b))) as [y|] eqn:Hy.
  2:{ apply index_of_absent in Hy. rewrite count_pair_absent; [done|].
      right. by rewrite <- HJ. }
  apply index_of_lookup in Hx, Hy. unfold crosstab in *.
  cbn [ct_index ct_columns ct_cells] in *.
  rewrite list_lookup_fmap, Hx. cbn. rewrite list_lookup_fmap, Hy. done.
Qed.

Lemma row_sum (ps : list (U * U)) (J : list U) (i : U) :
  NoDup J → (∀ p, p ∈ ps → p.2 ∈ J) →
  sum_list ((fun j => count_pair i j ps) <$> J)
  = length (filter (fun p => p.1 = i) ps).
Proof.
  intros HJ Hin. rewrite sum_list_fmap_with.
  rewrite <- (sum_partition snd J (filter (fun p => p.1 = i) ps) HJ).
  - apply sum_list_with_ext_in. intros j _. unfold count_pair.
    rewrite list_filter_filter. f_equal. apply list_filter_iff.
    intros [x y]; simpl. split; [by intros [= -> ->]|by intros [-> ->]].
  - apply Forall_forall. intros p [_ Hp]%list_elem_of_filter. auto.
Qed.

Lemma col_sum (ps : list (U * U)) (I : list U) (j : U) :
  NoDup I → (∀ p, p ∈ ps → p.1 ∈ I) →
  sum_list ((fun i => count_pair i j ps) <$> I)
  = length (filter (fun p => p.2 = j) ps).
Proof.
  intros HI Hin. rewrite sum_list_fmap_with.
  rewrite <- (sum_partition fst I (filter (fun p => p.2 = j) ps) HI).
  - apply sum_list_with_ext_in. intros i _. unfold count_pair.
    rewrite list_filter_filter. f_equal. apply list_filter_iff.
    intros [x y]; simpl. split; [by intros [= -> ->]|by intros [-> ->]].
  - apply Forall_forall. intros p [_ Hp]%list_elem_of_filter. auto.
Qed.

(** The row totals of the table: for every State, its rows. *)
Lemma sum_axis1_crosstab (a b : list (cell U)) :
  sum_axis1 (crosstab leb a b)
  = (fun i => (i, length (filter (fun p => p.1 = i) (both a b))))
      <$> ct_index (crosstab leb a b).
Proof.
  destruct (crosstab_labels a b) as [_ [HJ1 HJ2]].
  unfold sum_axis1. unfold crosstab at 2. cbn [ct_cells].
  rewrite <- list_fmap_compose.
  change (ct_index (crosstab leb a b))
    with (sort_labels leb (unique (both a b).*1)).
  rewrite zip_fmap_same. apply list_fmap_ext. intros _ i _. cbn. f_equal.
  apply row_sum; [exact HJ1|]. intros p Hp. apply HJ2, list_elem_of_fmap. by exists p.
Qed.

(** The column totals of the table: for every City, its rows. *)
Lemma sum_axis0_crosstab (a b : list (cell U)) :
  sum_axis0 (crosstab leb a b)
  = (fun j => (j, length (filter (fun p => p.2 = j) (both a b))))
      <$> ct_columns (crosstab leb a b).
Proof.
  destruct (crosstab_labels a b) as [[HI1 HI2] _].
  unfold sum_axis0.
  set (J := ct_columns (crosstab leb a b)).
  rewrite <- zip_fmap_same. f_equal.
  apply list_eq. intros k. rewrite !list_lookup_fmap.
  destruct (decide (k < length J)) as [Hk|Hk].
  - rewrite lookup_seq_lt by done.
    destruct (lookup_lt_is_Some_2 J k Hk) as [j Hj]. rewrite Hj. cbn. f_equal.
    transitivity (sum_list ((fun i => count_pair i j (both a b))
                              <$> ct_index (crosstab leb a b))).
    + f_equal. rewrite <- list_fmap_compose. apply list_fmap_ext.
      intros _ i _. cbn.
      change (sort_labels leb (unique (both a b).*2)) with J.
      by rewrite list_lookup_fmap, Hj.
    + apply col_sum; [exact HI1|].
      intros p Hp. apply HI2, list_elem_of_fmap. by exists p.
  - rewrite lookup_seq_ge by lia. rewrite lookup_ge_None_2 by lia. done.
Qed.

(** The labels [nlargest] selects from totals listed per label. *)
Lemma nlargest_top (f : U → nat) (K : list U) (n : Z) :
  NoDup K →
  let top := (nlargest n ((fun x => (x, f x)) <$> K)).*1 in
  NoDup top ∧ top ⊆ K
  ∧ length top = Z.to_nat n `min` length K
  ∧ ∀ x y, x ∈ top → y ∈ K → y ∉ top → f y ≤ f x.
Proof.
  intros HK top. unfold top, nlargest.
  set (t := (fun x => (x, f x)) <$> K).
  set (L := sort_desc t).
  assert (HL : L ≡ₚ t) by apply sort_desc_perm.
  assert (HL1 : L.*1 ≡ₚ K).
  { rewrite HL. unfold t. rewrite <- list_fmap_compose.
    rewrite <- (list_fmap_id K) at 2. by rewrite (list_fmap_ext _ id K). }
  assert (Hent : ∀ p, p ∈ L → p.2 = f p.1).
  { intros p Hp. rewrite HL in Hp. unfold t in Hp.
    apply list_elem_of_fmap in Hp as (x & -> & _). done. }
  assert (Hs : StronglySorted count_ge (take (Z.to_nat n) L ++ drop (Z.to_nat n) L)).
  { rewrite take_drop. apply sort_desc_sorted. }
  rewrite fmap_take. split_and!.
  - eapply sublist_NoDup; [|apply sublist_take]. by rewrite HL1.
  - intros x Hx. apply elem_of_take in Hx as (i & Hx & _).
    apply list_elem_of_lookup_2 in Hx. by rewrite HL1 in Hx.
  - rewrite length_take, length_fmap. f_equal.
    rewrite <- (length_fmap fst L). by rewrite HL1.
  - intros x y Hx Hy Hny. rewrite <- fmap_take in Hx, Hny.
    apply list_elem_of_fmap in Hx as ([x' a] & -> & Hx). cbn [fst] in *.
    assert (Hy' : (y, f y) ∈ L).
    { rewrite HL. unfold t. apply list_elem_of_fmap. by exists y. }
    rewrite <- (take_drop (Z.to_nat n) L) in Hy'.
    apply elem_of_app in Hy' as [Hy'|Hy'].
    { exfalso. apply Hny, list_elem_of_fmap. by exists (y, f y). }
    pose proof (StronglySorted_app_1_elem_of _ _ _ _ _ Hs Hx Hy') as Hge.
    unfold count_ge in Hge. cbn [snd] in Hge.
    assert (Ha : a = f x').
    { apply (Hent (x', a)). rewrite <- (take_drop (Z.to_nat n) L).
      apply elem_of_app. by left. }
    lia.
Qed.


Lemma totals_of_present (a b : list (cell U)) (x : U) :
  Forall is_Some a → Forall is_Some b → length a = length b →
  length (filter (fun p => p.1 = x) (both a b)) = occurrences x a
  ∧ length (filter (fun p => p.2 = x) (both a b)) = occurrences x b.
Proof.
  intros Ha. revert b. unfold both, occurrences.
  induction Ha as [|c a [u ->] _ IH]; intros b Hb Hlen.
  - destruct b; [done|discriminate Hlen].
  - destruct Hb as [|c' b [v ->] Hb]; [discriminate Hlen|].
    injection Hlen as Hlen. destruct (IH b Hb Hlen) as [IH1 IH2].
    cbn [zip zip_with omap list_omap]. rewrite !filter_cons. cbn [fst snd].
    split.
    + destruct (decide (u = x)) as [->|Hne].
      * rewrite decide_True by done. cbn [length]. by rewrite IH1.
      * rewrite decide_False by (intros [= ?]; done). exact IH1.
    + destruct (decide (v = x)) as [->|Hne].
      * rewrite decide_True by done. cbn [length]. by rewrite IH2.
      * rewrite decide_False by (intros [= ?]; done). exact IH2.
Qed.

(** X16. The block the heat maps draw. Its cells are the numbers of rows
    with the State of the line and the City of the column; its States are
    distinct States of the table, [min k states] many, and no State left
    out has more rows than a State shown; likewise for the Cities. When no
    value is missing these totals are the counts of [value_counts]. *)
Theorem heat_map_shows_the_largest_totals (st ci : list (cell U)) (ks kc : Z) :
  let ps := both st ci in
  let ct := crosstab leb st ci in
  let shown := Analysis.top_block ct ks kc in
  let rows_of (i : U) := length (filter (fun p => p.1 = i) ps) in
  let cols_of (j : U) := length (filter (fun p => p.2 = j) ps) in
  ct_cells shown
  = (fun i => (fun j => count_pair i j ps) <$> ct_columns shown) <$> ct_index shown
  ∧ (NoDup (ct_index shown) ∧ ct_index shown ⊆ ct_index ct
     ∧ length (ct_index shown) = Z.to_nat ks `min` length (ct_index ct)
     ∧ ∀ i i', i ∈ ct_index shown → i' ∈ ct_index ct → i' ∉ ct_index shown →
               rows_of i' ≤ rows_of i)
  ∧ (NoDup (ct_columns shown) ∧ ct_columns shown ⊆ ct_columns ct
     ∧ length (ct_columns shown) = Z.to_nat kc `min` length (ct_columns ct)
     ∧ ∀ j j', j ∈ ct_columns shown → j' ∈ ct_columns ct → j' ∉ ct_columns shown →
               cols_of j' ≤ cols_of j)
  ∧ (Forall is_Some st → Forall is_Some ci → length st = length ci →
     ∀ x, rows_of x = occurrences x st ∧ cols_of x = occurrences x ci).
Proof.
  intros ps ct shown rows_of cols_of.
  destruct (crosstab_labels st ci) as [[HI _] [HJ _]]. fold ct in HI, HJ.
  unfold shown, Analysis.top_block. cbn [loc ct_index ct_columns ct_cells].
  unfold ct. rewrite sum_axis1_crosstab, sum_axis0_crosstab. fold ct ps.
  split; [|split; [|split]].
  - apply list_fmap_ext. intros _ i _. apply list_fmap_ext. intros _ j _.
    apply ct_cell_crosstab.
  - exact (nlargest_top rows_of (ct_index ct) ks HI).
  - exact (nlargest_top cols_of (ct_columns ct) kc HJ).
  - intros Hs Hc Hlen x. by apply totals_of_present.
Qed.

End heat_map.

Lemma heat_map_shows_the_largest_totals_witness :
  let st := [Some (Str "MH"); Some (Str "DL"); Some (Str "MH")] in
  let ci := [Some (Str "Pune"); Some (Str "Delhi"); Some (Str "Mumbai")] in
  Pandas.ct_index (Analysis.top_block (Pandas.crosstab Scalar.leb st ci) 1 2)
  = [Str "MH"]
  ∧ ∀ x, length (filter (fun p => p.1 = x) (Pandas.both st ci))
         = Pandas.occurrences x st.
Proof.
  intros st ci. split; [vm_compute; reflexivity|].
  intros x.
  apply (proj2 (proj2 (proj2 (heat_map_shows_the_largest_totals Scalar.leb st ci 1 2)))).
  - repeat constructor; by eexists.
  - repeat constructor; by eexists.
  - reflexivity.
Defined.

(** ** The run of the analysis script *)

Section reporter_main.
Import Pandas Eff Analysis.
Context {U : Type} `{EqDecision U}.
Context (leb : U → U → bool) (int : nat → U).
Context (read_csv read_json : string → Py.result (DataFrame U)).

Local Abbreviation world := (world (U:=U)).
Local Abbreviation M := (Eff.M world).

Lemma saved_app (l k : list (effect (U:=U))) : saved (l ++ k) = saved l ++ saved k.
Proof. unfold saved. apply omap_app. Qed.

Lemma reported_app (l k : list (effect (U:=U))) :
  reported (l ++ k) = reported l ++ reported k.
Proof. unfold reported. apply omap_app. Qed.

Lemma draws_quiet (es : list (effect (U:=U))) :
  Forall draws es → saved es = [] ∧ reported es = [].
Proof.
  induction 1 as [|e es He _ [IH1 IH2]]; [done|].
  unfold saved, reported in *. cbn [omap list_omap].
  destruct e as [| | | |c]; try done. destruct c; try done; by rewrite ?IH1, ?IH2.
Qed.

(** A chart that returns after saving adds one image and no statistic. *)
Lemma saving_adds_one (self : SIHAnalyzer) (file what : string)
    (chart : bool → M ()) (w w' : world) :
  saving self file what chart →
  chart true w = (Py.Ok (), w') →
  saved (log w') = saved (log w) ++ [os_path_join (results_dir self) file]
  ∧ reported (log w') = reported (log w).
Proof.
  intros [_ Hends] Hrun. destruct (Hends w () w' Hrun) as (es & -> & Hes).
  destruct (draws_quiet es Hes) as [Hs Hr].
  rewrite !saved_app, !reported_app, Hs, Hr. cbn. by rewrite app_nil_r.
Qed.

Lemma basic_stats_keys (self : SIHAnalyzer) (w w' : world) stats :
  basic_stats self w = (Py.Ok stats, w') →
  w' = w
  ∧ stats.*1 = ["Total Entries"; "Unique States"; "Unique Cities";
                "Top 5 States"; "Top 5 Cities"].
Proof.
  unfold basic_stats, bind, deref, lift, stats_of.
  destruct (heap w !! df self) as [d|]; [|done].
  destruct (getitem d "State") as [st|]; [|done].
  destruct (getitem d "City") as [ci|]; [|done].
  cbn [Py.bind]. by intros [= <- <-].
Qed.

(** X17. The run of the analysis script. Without
    [combined_sih_data.csv] it raises [FileNotFoundError] after trying to
    open the file, and does nothing else. When it returns it has printed
    the five statistics in the order of the dictionary and saved the four
    images, in this order, in the results directory. *)
Theorem main_saves_the_four_images (w : world) :
  (disk w !! "combined_sih_data.csv" = None →
   main leb int read_csv read_json w
   = (Py.Raise (Py.FileNotFoundError "combined_sih_data.csv"),
      mkWorld (heap w) (disk w) (log w ++ [open_file "combined_sih_data.csv"])))
  ∧ (∀ w', main leb int read_csv read_json w = (Py.Ok (), w') →
     saved (log w')
     = saved (log w)
       ++ ["results/top_states.png"; "results/city_distribution.png";
           "results/state_city_heatmap.png"; "results/sih_dashboard.png"]
     ∧ reported (log w')
       = reported (log w)
         ++ ["Total Entries"; "Unique States"; "Unique Cities";
             "Top 5 States"; "Top 5 Cities"]).
Proof.
  split.
  - intros Hd. unfold main, init, load_data.
    rewrite decide_True by reflexivity.
    unfold bind, read_file. by rewrite Hd.
  - intros w' Hm. unfold main in Hm.
    apply bind_Ok in Hm as (self & w1 & Hi & Hm).
    destruct (load_data_cases read_csv read_json "combined_sih_data.csv" w)
      as [(s & d & Hd & Hs)|(e0 & w0 & Hl & _)].
    2:{ rewrite (init_raises _ _ _ _ _ _ Hl) in Hi. discriminate Hi. }
    rewrite (init_ok _ _ _ _ _ _ Hs Hd) in Hi. injection Hi as <- <-.
    apply bind_Ok in Hm as ([] & w2 & He1 & Hm).
    unfold emit in He1. injection He1 as <-.
    apply bind_Ok in Hm as (stats & w3 & Hb & Hm).
    apply basic_stats_keys in Hb as [-> Hkeys].
    apply bind_Ok in Hm as ([] & w4 & He2 & Hm).
    rewrite emit_all_run in He2. injection He2 as <-.
    apply bind_Ok in Hm as ([] & w5 & He3 & Hm).
    unfold emit in He3. injection He3 as <-.
    apply bind_Ok in Hm as ([] & w6 & Hc1 & Hm).
    apply bind_Ok in Hm as ([] & w7 & Hc2 & Hm).
    apply bind_Ok in Hm as ([] & w8 & Hc3 & Hc4).
    apply (saving_adds_one _ _ _ _ _ _ (saving_top_states int _ _)) in Hc1 as [S1 R1].
    apply (saving_adds_one _ _ _ _ _ _ (saving_city_distribution int _ _)) in Hc2
      as [S2 R2].
    apply (saving_adds_one _ _ _ _ _ _ (saving_heatmap leb _ _ _)) in Hc3 as [S3 R3].
    apply (saving_adds_one _ _ _ _ _ _ (saving_dashboard leb _)) in Hc4 as [S4 R4].
    rewrite S4, S3, S2, S1, R4, R3, R2, R1. cbn [log heap disk results_dir].
    rewrite !saved_app, !reported_app.
    assert (Hr : reported ((fun kv : string * stat => print_stat (U:=U) kv.1) <$> stats)
                 = stats.*1).
    { clear. unfold reported. induction stats as [|[k v] stats IH]; [done|].
      cbn. by rewrite IH. }
    assert (Hsv : saved ((fun kv : string * stat => print_stat (U:=U) kv.1) <$> stats)
                  = []).
    { clear. unfold saved. induction stats as [|[k v] stats IH]; [done|]. cbn. exact IH. }
    rewrite Hr, Hsv, Hkeys. cbn. rewrite !app_nil_r, <- !app_assoc. done.
Qed.

End reporter_main.

Lemma main_saves_the_four_images_witness :
  let text := "State,City" +:+ String Text.LF "MH,Pune" +:+ String Text.LF "" in
  let w := Analysis.mkWorld (U:=scalar) ∅ {[ "combined_sih_data.csv" := text ]} [] in
  ∃ w',
    Analysis.main Scalar.leb Scalar.int Csv.read_csv Json.read_json w = (Py.Ok (), w')
    ∧ Analysis.saved (Analysis.log w')
      = Analysis.saved (Analysis.log w)
        ++ ["results/top_states.png"; "results/city_distribution.png";
            "results/state_city_heatmap.png"; "results/sih_dashboard.png"].
Proof.
  intros text w.
  assert (Hr : ∃ w', Analysis.main Scalar.leb Scalar.int Csv.read_csv Json.read_json w
                     = (Py.Ok (), w'))
    by (eexists; vm_compute; reflexivity).
  destruct Hr as [w' Hr]. exists w'. split; [exact Hr|].
  exact (proj1 (proj2 (main_saves_the_four_images Scalar.leb Scalar.int
                         Csv.read_csv Json.read_json w) w' Hr)).
Defined.

(** ** A second run of the Collector *)

Section rerun.
Import Pandas Text Eff Scraper.
Context (net : string → response).

Lemma per_url_files_rewritten fs fs' frags (name : string) :
  frags ≠ [] → name ∈ ["sih_data.csv"; "sih_data.json"] →
  per_url_files fs frags !! name = per_url_files fs' frags !! name.
Proof.
  intros Hne Hname.
  destruct (last frags) as [df|] eqn:Hl.
  2:{ apply last_None in Hl. done. }
  apply elem_of_cons in Hname as [->|Hname].
  - by rewrite !per_url_files_csv, Hl.
  - apply list_elem_of_singleton in Hname as ->.
    by rewrite !per_url_files_json, Hl.
Qed.

(** X18. A second run on a site that answers as before leaves every
    file as the first run left it: the four files are written again with
    the same contents, and nothing is added or removed. *)
Theorem rerun_keeps_the_files (urls : list string) (w : world) :
  let once := (main_with net urls w).2 in
  files (main_with net urls once).2 = files once.
Proof.
  intros once. unfold once.
  destruct (main_with_spec net urls w) as (w1 & -> & _ & Hf1 & _). cbn [snd].
  destruct (main_with_spec net urls w1) as (w2 & -> & _ & Hf2 & _). cbn [snd].
  rewrite Hf2. clear Hf2.
  destruct (omap (fragment net) urls) as [|df frags] eqn:Hfr; [done|].
  set (fr := df :: frags) in *.
  apply map_eq. intros name.
  destruct (decide (name = "combined_sih_data.json")) as [->|H1].
  { rewrite Hf1. by rewrite !lookup_insert_eq. }
  rewrite lookup_insert_ne by done.
  destruct (decide (name = "combined_sih_data.csv")) as [->|H2].
  { rewrite Hf1. rewrite lookup_insert_eq, lookup_insert_ne by done.
    by rewrite lookup_insert_eq. }
  rewrite lookup_insert_ne by done.
  destruct (decide (name ∈ ["sih_data.csv"; "sih_data.json"])) as [Hn|Hn].
  - rewrite Hf1 at 2. rewrite !lookup_insert_ne by done.
    by apply per_url_files_rewritten.
  - apply per_url_files_other.
    + intros ->. apply Hn. apply list_elem_of_here.
    + intros ->. apply Hn. apply list_elem_of_further, list_elem_of_here.
Qed.

End rerun.

(** ** The statistics of the scraped texts *)

Section relabel.
Import Pandas.
Context {A B : Type} `{EqDecision A} `{EqDecision B}.
Context (f : A → B) `{!Inj (=) (=) f}.

Lemma bump_fmap (x : A) (t : list (A * nat)) :
  bump (f x) (prod_map f id <$> t) = prod_map f id <$> bump x t.
Proof.
  induction t as [|[y n] t IH]; [done|]. cbn [bump fmap list_fmap prod_map fst snd id].
  destruct (decide (x = y)) as [->|Hne].
  - by rewrite decide_True.
  - rewrite decide_False by (intros Heq; by apply (inj f) in Heq).
    cbn [fmap list_fmap prod_map fst snd id]. f_equal. exact IH.
Qed.

Lemma tally_fmap (l : list A) : tally (f <$> l) = prod_map f id <$> tally l.
Proof.
  unfold tally.
  enough (Hg : ∀ t, foldl (fun t x => bump x t) (prod_map f id <$> t) (f <$> l)
                    = prod_map f id <$> foldl (fun t x => bump x t) t l)
    by apply (Hg []).
  induction l as [|x l IH]; intros t; [done|].
  cbn [fmap list_fmap foldl]. rewrite bump_fmap. apply IH.
Qed.

Lemma insert_desc_fmap (p : A * nat) (t : list (A * nat)) :
  insert_desc (prod_map f id p) (prod_map f id <$> t)
  = prod_map f id <$> insert_desc p t.
Proof.
  induction t as [|q t IH]; [done|]. cbn [insert_desc fmap list_fmap].
  destruct p as [x n], q as [y m]. cbn [prod_map fst snd id] in *.
  destruct (decide (m ≤ n)); [done|].
  cbn [fmap list_fmap prod_map fst snd id]. f_equal. exact IH.
Qed.

Lemma sort_desc_fmap (t : list (A * nat)) :
  sort_desc (prod_map f id <$> t) = prod_map f id <$> sort_desc t.
Proof.
  induction t as [|p t IH]; [done|]. cbn [sort_desc fmap list_fmap foldr].
  fold (sort_desc (prod_map f id <$> t)). fold (sort_desc t).
  rewrite IH. apply insert_desc_fmap.
Qed.

Lemma dropna_fmap (s : list (cell A)) : dropna ((fun c : option A => f <$> c) <$> s) = f <$> dropna s.
Proof.
  unfold dropna. induction s as [|[x|] s IH]; [done| |]; cbn; by rewrite ?IH.
Qed.

(** Counting commutes with a relabelling that keeps distinct values
    distinct. *)
Lemma value_counts_fmap (s : list (cell A)) :
  value_counts ((fun c : option A => f <$> c) <$> s) = prod_map f id <$> value_counts s.
Proof.
  unfold value_counts. by rewrite dropna_fmap, tally_fmap, sort_desc_fmap.
Qed.

Lemma nunique_fmap (s : list (cell A)) : nunique ((fun c : option A => f <$> c) <$> s) = nunique s.
Proof.
  rewrite <- !length_value_counts, value_counts_fmap. by rewrite length_fmap.
Qed.

End relabel.

Section scraped_statistics.
Import Pandas Analysis.

Local Instance Str_inj : Inj (=) (=) Str.
Proof. by intros x y [= ->]. Qed.

Lemma loaded_columns (D : Dataset.Dataset) :
  getitem (Dataset.as_loaded (Dataset.to_frame D)) "State"
  = Py.Ok ((fun c : option string => Str <$> c) <$> (Some <$> D.*1))
  ∧ getitem (Dataset.as_loaded (Dataset.to_frame D)) "City"
    = Py.Ok ((fun c : option string => Str <$> c) <$> (Some <$> D.*2)).
Proof.
  unfold Dataset.as_loaded, Dataset.to_frame. cbn [columns rows].
  rewrite getitem_State, getitem_City.
  split; f_equal; rewrite <- !list_fmap_compose; by apply list_fmap_ext.
Qed.

Lemma head_fmap {A B} (g : A → B) (n : Z) (l : list A) :
  head n (g <$> l) = g <$> head n l.
Proof. unfold head. rewrite length_fmap. case_decide; by rewrite fmap_take. Qed.

(** X19. The statistics of the analyzer are those of the scraped texts.
    For a Dataset whose two columns the CSV reader keeps as text, writing
    it with [to_csv], reading it back and taking [basic_stats] gives the
    number of records, the numbers of distinct State and City texts, and
    the five most frequent State and City texts with their
    frequencies. *)
Theorem statistics_of_the_scraped_texts (D : Dataset.Dataset) :
  Csv.keeps_text D.*1 → Csv.keeps_text D.*2 →
  (df ←? Csv.read_csv (Csv.to_csv (Dataset.to_frame D)) ; stats_of df)
  = Py.Ok [("Total Entries", Count (length D));
           ("Unique States", Count (nunique (Some <$> D.*1)));
           ("Unique Cities", Count (nunique (Some <$> D.*2)));
           ("Top 5 States",
            Series (prod_map Str id <$> head 5 (value_counts (Some <$> D.*1))));
           ("Top 5 Cities",
            Series (prod_map Str id <$> head 5 (value_counts (Some <$> D.*2))))].
Proof.
  intros H1 H2. rewrite read_csv_to_csv by done. cbn [Py.bind].
  destruct (loaded_columns D) as [HS HC].
  unfold stats_of. rewrite HS, HC. cbn [Py.bind].
  rewrite !(nunique_fmap Str), !(value_counts_fmap Str), !head_fmap.
  do 3 f_equal. unfold len, Dataset.as_loaded, Dataset.to_frame. cbn [rows].
  by rewrite !length_fmap.
Qed.

End scraped_statistics.

Lemma statistics_of_the_scraped_texts_witness :
  let D := [("MH", "Mumbai"); ("MH", "Pune"); ("DL", "Delhi")] in
  (df ←? Csv.read_csv (Csv.to_csv (Dataset.to_frame D)) ; Analysis.stats_of df)
  = Py.Ok [("Total Entries", Analysis.Count 3);
           ("Unique States", Analysis.Count 2);
           ("Unique Cities", Analysis.Count 3);
           ("Top 5 States", Analysis.Series [(Str "MH", 2); (Str "DL", 1)]);
           ("Top 5 Cities",
            Analysis.Series [(Str "Mumbai", 1); (Str "Pune", 1); (Str "Delhi", 1)])].
Proof.
  intros D.
  apply (statistics_of_the_scraped_texts D).
  - split; [repeat constructor|right; reflexivity].
  - split; [repeat constructor|right; reflexivity].
Defined.
